(** * lidar_api: point-cloud reduction, colour synthesis, bounds and metadata

    A shallow embedding of the numerical core of the LiDAR visualiser
    backend ([lidar_api/core/processor.py], [lidar_api/core/loader.py] and
    the reduction and colouring stage of [lidar_api/api/routes.py]).

    - Python exceptions are values of an error monad ([Py.result]).
    - Python [float] and NumPy [float64] are IEEE-754 binary64, [float32]
      is binary32; both are computed with the parameterised operations of
      [SpecFloat] (round to nearest, ties to even).
    - Mixed operands follow the promotion rules of NumPy 2: a Python
      float combined with a [float32] array or scalar is used as
      [float32]; an integer array divided by a Python float is [float64].
    - [np.random.choice] is driven by an explicit entropy tape that is
      threaded through the calls, as the global NumPy generator is.
    - The upload, info, point and delete handlers of [routes.py] run on
      an explicit state, the stored files and the registry;
      [uuid.uuid4], [datetime.now], [laspy.read] and the suffix of
      [pathlib] are inputs.
    - [logger] calls have no effect on any result and are left out. *)

From Stdlib Require Import String Ascii.
From Stdlib Require Import ZArith List Lia Bool.
From Stdlib Require Import Floats.SpecFloat.
From Stdlib Require Import Sorting.Mergesort Sorting.Permutation.
From Stdlib Require Import Numbers.DecimalString.
Import ListNotations.

Set Implicit Arguments.

(* ================================================================== *)
(** * Python results                                                   *)
(* ================================================================== *)

Module Py.

(** The exception classes the modelled code can raise or let escape. *)
Inductive exn : Type :=
| ValueError
| IndexError
| ZeroDivisionError
| OverflowError
| FileNotFoundError
| HTTPException (status : Z).

Inductive result (A : Type) : Type :=
| Ok (a : A)
| Raise (e : exn).

Arguments Ok {A} a.
Arguments Raise {A} e.

Definition bind {A B} (r : result A) (k : A -> result B) : result B :=
  match r with
  | Ok a => k a
  | Raise e => Raise e
  end.

(** [try: r  except Exception: h] *)
Definition try_except {A} (r : result A) (h : exn -> result A) : result A :=
  match r with
  | Ok a => Ok a
  | Raise e => h e
  end.

End Py.

Import Py.

Declare Scope py_scope.
Delimit Scope py_scope with py.
Notation "x <- r ;; k" := (Py.bind r (fun x => k))
  (at level 61, r at next level, right associativity) : py_scope.
Notation "' pat <- r ;; k" := (Py.bind r (fun x => match x with pat => k end))
  (at level 61, pat pattern, r at next level, right associativity) : py_scope.
Open Scope py_scope.

(* ================================================================== *)
(** * Floating point                                                   *)
(* ================================================================== *)

Module Fp.

Local Open Scope Z_scope.

(** A float is carried by its binary64 representation.  A [float32]
    value is a binary64 value that binary32 represents exactly, which is
    what [float(np.float32(v))] and [ndarray.tolist] hand to Python. *)
Definition float := spec_float.

Definition prec64 := 53.
Definition emax64 := 1024.
Definition prec32 := 24.
Definition emax32 := 128.

Definition is_nan (x : float) : bool :=
  match x with S754_nan => true | _ => false end.

Definition is_finite (x : float) : bool :=
  match x with S754_zero _ | S754_finite _ _ _ => true | _ => false end.

(** Comparisons ([<=], [<], [==], [>=]); all are false on NaN. *)
Definition leb (a b : float) : bool := SFleb a b.
Definition ltb (a b : float) : bool := SFltb a b.
Definition eqb (a b : float) : bool := SFeqb a b.
Definition geb (a b : float) : bool := SFleb b a.

(** binary64 arithmetic *)
Definition mul64 (a b : float) : float := SFmul prec64 emax64 a b.
Definition div64 (a b : float) : float := SFdiv prec64 emax64 a b.

(** Rounding a binary64 value to binary32 and back. *)
Definition narrow32 (x : float) : spec_float :=
  match x with
  | S754_finite s m e => binary_round prec32 emax32 s m e
  | _ => x
  end.

Definition widen64 (x : spec_float) : float :=
  match x with
  | S754_finite s m e => binary_round prec64 emax64 s m e
  | _ => x
  end.

(** [x.astype(np.float32)] for a binary64 [x]. *)
Definition astype_float32 (x : float) : float := widen64 (narrow32 x).

(** binary32 arithmetic on [float32] values *)
Definition sub32 (a b : float) : float :=
  widen64 (SFsub prec32 emax32 (narrow32 a) (narrow32 b)).
Definition mul32 (a b : float) : float :=
  widen64 (SFmul prec32 emax32 (narrow32 a) (narrow32 b)).
Definition div32 (a b : float) : float :=
  widen64 (SFdiv prec32 emax32 (narrow32 a) (narrow32 b)).

(** The nearest binary64 to an integer (exact below [2^53]). *)
Definition of_Z (n : Z) : float := binary_normalize prec64 emax64 n 0 false.

(** A decimal literal [num/den] with exact integer parts, as the Python
    parser rounds it. *)
Definition literal (num den : Z) : float := div64 (of_Z num) (of_Z den).

Definition zero : float := S754_zero false.
Definition one : float := Eval vm_compute in of_Z 1.
Definition half : float := Eval vm_compute in literal 1 2.
Definition c033 : float := Eval vm_compute in literal 33 100.
Definition c034 : float := Eval vm_compute in literal 34 100.
Definition c067 : float := Eval vm_compute in literal 67 100.
Definition c65535 : float := Eval vm_compute in of_Z 65535.

(** Truncation toward zero of a finite value. *)
Definition trunc_finite (s : bool) (m : positive) (e : Z) : Z :=
  cond_Zopp s
    (match e with
     | Zneg p => Z.shiftr (Zpos m) (Zpos p)
     | _ => Z.shiftl (Zpos m) e
     end).

(** Python [float(n)] for an [int]. *)
Definition py_float (n : Z) : result float :=
  match of_Z n with
  | S754_infinity _ => Raise OverflowError
  | x => Ok x
  end.

(** Python [int(x)] for a [float]. *)
Definition py_int (x : float) : result Z :=
  match x with
  | S754_nan => Raise ValueError
  | S754_infinity _ => Raise OverflowError
  | S754_zero _ => Ok 0
  | S754_finite s m e => Ok (trunc_finite s m e)
  end.

(** Python [a / b] on two [int]s: the correctly rounded quotient. *)
Definition py_int_truediv (a b : Z) : result float :=
  match b with
  | Z0 => Raise ZeroDivisionError
  | _ =>
    let s := xorb (a <? 0) (b <? 0) in
    match a with
    | Z0 => Ok (S754_zero (b <? 0))
    | _ =>
      let '(mz, ez, lz) :=
        SFdiv_core_binary prec64 emax64 (Z.abs a) 0 (Z.abs b) 0 in
      match binary_round_aux prec64 emax64 s mz ez lz with
      | S754_infinity _ => Raise OverflowError
      | q => Ok q
      end
    end
  end.

(** Python [n * x] for an [int] and a [float]. *)
Definition py_int_mul_float (n : Z) (x : float) : result float :=
  fn <- py_float n ;; Ok (mul64 fn x).

(** Python [n / x] for an [int] and a [float]. *)
Definition py_int_div_float (n : Z) (x : float) : result float :=
  fn <- py_float n ;;
  if eqb x zero then Raise ZeroDivisionError else Ok (div64 fn x).

(** Truthiness of a Python [float]: everything but [0.0] and [-0.0]. *)
Definition truthy (x : float) : bool :=
  match x with S754_zero _ => false | _ => true end.

End Fp.

Import Fp.

(* ================================================================== *)
(** * NumPy arrays and the random generator                            *)
(* ================================================================== *)

Module Np.

(** A one-dimensional array (or the rows of a two-dimensional one). *)
Definition ndarray (A : Type) := list A.

(** [arr[indices]] with an integer index array: one row per index;
    an index past the end raises [IndexError]. *)
Fixpoint take {A} (arr : ndarray A) (indices : list nat) : result (ndarray A) :=
  match indices with
  | [] => Ok []
  | i :: rest =>
    match nth_error arr i with
    | None => Raise IndexError
    | Some a => tl <- take arr rest ;; Ok (a :: tl)
    end
  end.

(** [np.sort] on an index array. *)
Definition sort (indices : list nat) : list nat := NatSort.sort indices.

(** The state of the global generator: the entropy still to be consumed.
    An exhausted tape yields zeros. *)
Definition rng := list nat.

Definition next (g : rng) : nat * rng :=
  match g with
  | [] => (0%nat, [])
  | r :: g' => (r, g')
  end.

(** Remove the element at position [i] of [pool]. *)
Fixpoint remove_at (i : nat) (pool : list nat) : list nat :=
  match pool, i with
  | [], _ => []
  | _ :: rest, O => rest
  | x :: rest, S j => x :: remove_at j rest
  end.

(** Draw [k] distinct elements of [pool], in drawing order: each draw
    takes the element at position [r mod |pool|] out of the pool. *)
Fixpoint draw (k : nat) (pool : list nat) (g : rng) : list nat * rng :=
  match k with
  | O => ([], g)
  | S k' =>
    match pool with
    | [] => ([], g)
    | _ :: _ =>
      let '(r, g1) := next g in
      let i := Nat.modulo r (length pool) in
      let '(rest, g2) := draw k' (remove_at i pool) g1 in
      (nth i pool 0%nat :: rest, g2)
    end
  end.

(** [np.random.choice(n, size=size, replace=False)]: the first [size]
    entries of a random permutation of [range(n)]. *)
Definition random_choice (n : nat) (size : Z) (g : rng)
  : result (list nat) * rng :=
  if (Nat.eqb n 0 && negb (Z.eqb size 0))%bool then (Raise ValueError, g)
  else if (Z.of_nat n <? size)%Z then (Raise ValueError, g)
  else if (size <? 0)%Z then (Raise ValueError, g)
  else let '(idx, g') := draw (Z.to_nat size) (seq 0 n) g in (Ok idx, g').

(** The scalar loops of [np.minimum] and [np.maximum]: a NaN wins. *)
Definition minimum (a b : float) : float :=
  if (leb a b || is_nan a)%bool then a else b.
Definition maximum (a b : float) : float :=
  if (geb a b || is_nan a)%bool then a else b.

(** [np.min] and [np.max] of a one-dimensional array; a zero-size array
    has no identity for the reduction and raises [ValueError]. *)
Definition amin (a : ndarray float) : result float :=
  match a with
  | [] => Raise ValueError
  | x :: xs => Ok (fold_left minimum xs x)
  end.
Definition amax (a : ndarray float) : result float :=
  match a with
  | [] => Raise ValueError
  | x :: xs => Ok (fold_left maximum xs x)
  end.

(** A row of an [(n, 3)] array, and its three columns. *)
Definition row := (float * float * float)%type.
Definition col0 (r : row) : float := fst (fst r).
Definition col1 (r : row) : float := snd (fst r).
Definition col2 (r : row) : float := snd r.

(** [np.min(a, axis=0)] and [np.max(a, axis=0)] on an [(n, 3)] array. *)
Definition amin_axis0 (a : ndarray row) : result row :=
  x <- amin (map col0 a) ;; y <- amin (map col1 a) ;;
  z <- amin (map col2 a) ;; Ok (x, y, z).
Definition amax_axis0 (a : ndarray row) : result row :=
  x <- amax (map col0 a) ;; y <- amax (map col1 a) ;;
  z <- amax (map col2 a) ;; Ok (x, y, z).

End Np.

Import Np.

(* ================================================================== *)
(** * processor.py                                                     *)
(* ================================================================== *)

Module PointCloudProcessor.

Section Reduce.
(** Rows of [points] and of [colors]; the reducer never looks inside. *)
Variables P C : Type.

(** Line 32: [int(n_points * sample_rate)]. *)
Definition sample_size (n_points : nat) (sample_rate : float) : result Z :=
  x <- py_int_mul_float (Z.of_nat n_points) sample_rate ;; py_int x.

(** Lines 31-36 of [downsample_random]: the sample size and the sorted
    index selection. *)
Definition downsample_indices (n_points : nat) (sample_rate : float)
           (g : rng) : result (list nat) * rng :=
  match sample_size n_points sample_rate with
  | Raise e => (Raise e, g)
  | Ok n_sample =>
    match random_choice n_points n_sample g with
    | (Raise e, g') => (Raise e, g')
    | (Ok indices, g') => (Ok (sort indices), g')
    end
  end.

Definition downsample_random (points : ndarray P)
           (colors : option (ndarray C)) (sample_rate : float) (g : rng)
  : result (ndarray P * option (ndarray C)) * rng :=
  if geb sample_rate one then (Ok (points, colors), g)
  else
    match downsample_indices (length points) sample_rate g with
    | (Raise e, g') => (Raise e, g')
    | (Ok indices, g') =>
      (sampled_points <- take points indices ;;
       sampled_colors <-
         match colors with
         | Some c => sc <- take c indices ;; Ok (Some sc)
         | None => Ok None
         end ;;
       Ok (sampled_points, sampled_colors), g')
    end.

Definition limit_points (points : ndarray P)
           (colors : option (ndarray C)) (max_points : Z) (g : rng)
  : result (ndarray P * option (ndarray C)) * rng :=
  if (Z.of_nat (length points) <=? max_points)%Z then (Ok (points, colors), g)
  else
    match py_int_truediv max_points (Z.of_nat (length points)) with
    | Raise e => (Raise e, g)
    | Ok sample_rate => downsample_random points colors sample_rate g
    end.
End Reduce.

(** [np.ones((n, 3)) * 0.5], a float64 array. *)
Definition gray_rows (n : nat) : ndarray row :=
  repeat (mul64 one half, mul64 one half, mul64 one half) n.

(** The three masked assignments of [generate_height_colors] on one row
    of [colors], for the normalised height [h] of that point.  The
    thresholds are Python floats, compared and divided as [float32]. *)
Definition height_gradient (h : float) : row :=
  let t033 := astype_float32 c033 in
  let t034 := astype_float32 c034 in
  let t067 := astype_float32 c067 in
  let c0 : row := (zero, zero, zero) in
  (* blue to cyan *)
  let c1 : row :=
    if ltb h t033 then (col0 c0, div32 h t033, one) else c0 in
  (* cyan to yellow *)
  let c2 : row :=
    if (geb h t033 && ltb h t067)%bool
    then (div32 (sub32 h t033) t034, one,
          sub32 one (div32 (sub32 h t033) t034))
    else c1 in
  (* yellow to red *)
  let c3 : row :=
    if geb h t067
    then (one, sub32 one (div32 (sub32 h t067) t033), col2 c2)
    else c2 in
  (astype_float32 (col0 c3), astype_float32 (col1 c3), astype_float32 (col2 c3)).

Definition generate_height_colors (points : ndarray row) : result (ndarray row) :=
  let z_coords := map col2 points in
  z_min <- amin z_coords ;;
  z_max <- amax z_coords ;;
  if eqb z_max z_min then Ok (gray_rows (length points))
  else
    let normalized_height :=
      map (fun z => div32 (sub32 z z_min) (sub32 z_max z_min)) z_coords in
    Ok (map height_gradient normalized_height).

Definition generate_intensity_colors (intensity : ndarray float)
  : result (ndarray row) :=
  if Nat.eqb (length intensity) 0 then Ok []
  else
    i_min <- amin intensity ;;
    i_max <- amax intensity ;;
    if eqb i_max i_min then Ok (gray_rows (length intensity))
    else
      let normalized_intensity :=
        map (fun i => div32 (sub32 i i_min) (sub32 i_max i_min)) intensity in
      Ok (map (fun v => (astype_float32 v, astype_float32 v, astype_float32 v))
              normalized_intensity).

(** [np.max(max_coords - min_coords)] of [normalize_scale]. *)
Definition current_size (points : ndarray row) : result float :=
  min_coords <- amin_axis0 points ;;
  max_coords <- amax_axis0 points ;;
  amax [sub32 (col0 max_coords) (col0 min_coords);
        sub32 (col1 max_coords) (col1 min_coords);
        sub32 (col2 max_coords) (col2 min_coords)].

Definition scale_row (k : float) (r : row) : row :=
  (mul32 (col0 r) k, mul32 (col1 r) k, mul32 (col2 r) k).

(** [target_size] is a Python float; against the [float32] scalar
    [current_size] it is used as a [float32] (NumPy 2 promotion). *)
Definition normalize_scale (points : ndarray row) (target_size : float)
  : result (ndarray row * float) :=
  cur <- current_size points ;;
  if eqb cur zero then Ok (points, one)
  else
    let scale_factor := div32 (astype_float32 target_size) cur in
    Ok (map (scale_row scale_factor) points, scale_factor).

End PointCloudProcessor.

Import PointCloudProcessor.

(* ================================================================== *)
(** * schemas.py and loader.py                                         *)
(* ================================================================== *)

Record PointCloudBounds := {
  min_x : float; max_x : float;
  min_y : float; max_y : float;
  min_z : float; max_z : float
}.

Record PointCloudMetadata := {
  filename : string;
  point_count : Z;
  bounds : PointCloudBounds;
  has_colors : bool;
  has_intensity : bool;
  file_size : Z;
  las_version : string;
  point_data_format : Z
}.

Module LiDARLoader.

(** What the code reads of a [laspy] header.  An attribute that the
    installed [laspy] does not provide ([AttributeError]) is [None]. *)
Record Version := { major : Z; minor : Z }.
Record PointFormat := { id : Z }.
Record LasHeader := {
  major_version : option Z;
  minor_version : option Z;
  version : option Version;
  point_format : option PointFormat;
  point_data_format_id : option Z
}.

(** What the code reads of a [laspy.LasData]: the scaled coordinates
    [(las.x, las.y, las.z)] of each record of [las.points] as float64,
    and the optional 16-bit dimensions. *)
Record LasData := {
  xyz : ndarray row;
  red : option (ndarray Z);
  green : option (ndarray Z);
  blue : option (ndarray Z);
  intensity : option (ndarray Z);
  header : LasHeader
}.

(** [os.path.getsize]: the size of each existing file. *)
Definition filesystem := string -> option Z.

Definition getsize (fs : filesystem) (file_path : string) : result Z :=
  match fs file_path with
  | Some size => Ok size
  | None => Raise FileNotFoundError
  end.

(** [Path(file_path).name] for a POSIX path: the last component. *)
Fixpoint path_name_from (acc : string) (s : string) : string :=
  match s with
  | EmptyString => acc
  | String c rest =>
    if Ascii.eqb c "/"%char
    then match rest with
         | EmptyString => acc
         | _ => path_name_from EmptyString rest
         end
    else path_name_from (acc ++ String c EmptyString)%string rest
  end.
Definition path_name (file_path : string) : string :=
  path_name_from EmptyString file_path.

(** [f"{n}"] for an [int]. *)
Definition str (n : Z) : string := NilZero.string_of_int (Z.to_int n).

(** [np.column_stack] of three one-dimensional arrays. *)
Fixpoint column_stack3 (a b c : ndarray float) : result (ndarray row) :=
  match a, b, c with
  | [], [], [] => Ok []
  | x :: a', y :: b', z :: c' =>
    rest <- column_stack3 a' b' c' ;; Ok ((x, y, z) :: rest)
  | _, _, _ => Raise ValueError
  end.

Definition extract_points (las : LasData) : ndarray row :=
  map (fun p => (astype_float32 (col0 p), astype_float32 (col1 p),
                 astype_float32 (col2 p))) (xyz las).

Definition extract_colors (las : LasData) : option (ndarray row) :=
  match red las, green las, blue las with
  | Some r, Some g, Some b =>
    let scaled := map (fun v => div64 (of_Z v) c65535) in
    match column_stack3 (scaled r) (scaled g) (scaled b) with
    | Ok colors =>
      Some (map (fun p => (astype_float32 (col0 p), astype_float32 (col1 p),
                           astype_float32 (col2 p))) colors)
    | Raise _ => None
    end
  | _, _, _ => None
  end.

Definition extract_intensity (las : LasData) : option (ndarray float) :=
  match intensity las with
  | Some i => Some (map (fun v => astype_float32 (of_Z v)) i)
  | None => None
  end.

Definition calculate_bounds (points : ndarray row) : result PointCloudBounds :=
  if Nat.eqb (length points) 0 then
    Ok {| min_x := zero; max_x := zero; min_y := zero; max_y := zero;
          min_z := zero; max_z := zero |}
  else
    min_coords <- amin_axis0 points ;;
    max_coords <- amax_axis0 points ;;
    Ok {| min_x := col0 min_coords; max_x := col0 max_coords;
          min_y := col1 min_coords; max_y := col1 max_coords;
          min_z := col2 min_coords; max_z := col2 max_coords |}.

(** Lines 198-212: the version string, through the current accessor and
    then the legacy one; [ValueError] when neither resolves. *)
Definition resolve_las_version (h : LasHeader) : result string :=
  match major_version h, minor_version h with
  | Some ma, Some mi => Ok (str ma ++ "." ++ str mi)%string
  | _, _ =>
    match version h with
    | Some v => Ok (str (major v) ++ "." ++ str (minor v))%string
    | None => Raise ValueError
    end
  end.

(** Lines 215-227: the point format id, likewise. *)
Definition resolve_point_data_format (h : LasHeader) : result Z :=
  match point_format h with
  | Some pf => Ok (id pf)
  | None =>
    match point_data_format_id h with
    | Some f => Ok f
    | None => Raise ValueError
    end
  end.

Definition get_metadata (fs : filesystem) (file_path : string) (las : LasData)
  : result PointCloudMetadata :=
  let filename := path_name file_path in
  file_size <- getsize fs file_path ;;
  try_except
    (let points := extract_points las in
     let colors := extract_colors las in
     let intensity := extract_intensity las in
     bounds <- calculate_bounds points ;;
     las_version <- resolve_las_version (header las) ;;
     point_data_format <- resolve_point_data_format (header las) ;;
     Ok {| filename := filename;
           point_count := Z.of_nat (length (xyz las));
           bounds := bounds;
           has_colors := match colors with Some _ => true | None => false end;
           has_intensity := match intensity with Some _ => true | None => false end;
           file_size := file_size;
           las_version := las_version;
           point_data_format := point_data_format |})
    (fun _ => Raise ValueError).

End LiDARLoader.

(* ================================================================== *)
(** * routes.py: the reduction and colouring stage of get_point_data   *)
(* ================================================================== *)

Module Routes.

Import LiDARLoader.

(** [downsample and downsample < 1.0] for the optional query parameter. *)
Definition downsample_requested (downsample : option float) : option float :=
  match downsample with
  | Some d => if (truthy d && ltb d one)%bool then Some d else None
  | None => None
  end.

(** Lines 207-214: the intensity values handed to the colour scheme for
    the [n_points] points that are left.  After a downsampling the route
    draws a fresh selection from the generator. *)
Definition sample_intensity (intensity : ndarray float) (n_points : nat)
           (downsample : option float) (g : rng)
  : result (ndarray float) * rng :=
  match downsample_requested downsample with
  | Some d =>
    match (q <- py_int_div_float (Z.of_nat n_points) d ;; py_int q) with
    | Raise e => (Raise e, g)
    | Ok n_original =>
      if (n_original <? 0)%Z then (Raise ValueError, g)
      else
        match random_choice (Z.to_nat n_original) (Z.of_nat n_points) g with
        | (Raise e, g') => (Raise e, g')
        | (Ok indices, g') => (take intensity indices, g')
        end
    end
  | None => (Ok (firstn n_points intensity), g)
  end.

(** Lines 186-220 of [get_point_data], from the loaded file to the
    reduced points and their colours; any exception becomes the HTTP 500
    of the handler.  Centring, rescaling and serialisation follow. *)
Definition get_point_data (las : LasData) (max_points : option Z)
           (color_by : string) (downsample : option float) (g : rng)
  : result (ndarray row * option (ndarray row)) * rng :=
  let points := extract_points las in
  let original_colors := extract_colors las in
  let intensity := extract_intensity las in
  let '(r, g') :=
    (* Apply downsampling if requested *)
    let '(r1, g1) :=
      match downsample_requested downsample with
      | Some d => downsample_random points original_colors d g
      | None => (Ok (points, original_colors), g)
      end in
    match r1 with
    | Raise e => (Raise e, g1)
    | Ok (points, original_colors) =>
      (* Limit points if necessary *)
      let '(r2, g2) :=
        match max_points with
        | Some mp =>
          if (mp <? Z.of_nat (length points))%Z
          then limit_points points original_colors mp g1
          else (Ok (points, original_colors), g1)
        | None => (Ok (points, original_colors), g1)
        end in
      match r2 with
      | Raise e => (Raise e, g2)
      | Ok (points, original_colors) =>
        (* Apply color scheme *)
        if String.eqb color_by "height" then
          (colors <- generate_height_colors points ;;
           Ok (points, Some colors), g2)
        else
          match String.eqb color_by "intensity", intensity with
          | true, Some intensity =>
            let '(ri, g3) :=
              sample_intensity intensity (length points) downsample g2 in
            (sampled_intensity <- ri ;;
             colors <- generate_intensity_colors sampled_intensity ;;
             Ok (points, Some colors), g3)
          | _, _ =>
            match String.eqb color_by "original", original_colors with
            | true, Some oc => (Ok (points, Some oc), g2)
            | _, _ =>
              (colors <- generate_height_colors points ;;
               Ok (points, Some colors), g2)
            end
          end
      end
    end in
  (try_except r (fun _ => Raise (HTTPException 500)), g').

End Routes.

(* ================================================================== *)
(** * Sample inputs                                                    *)
(* ================================================================== *)

Module Samples.

Import LiDARLoader.

Definition pt (x y z : Z) : row := (of_Z x, of_Z y, of_Z z).

Definition two : float := Eval vm_compute in of_Z 2.
Definition black : row := (zero, zero, zero).
Definition white : row := (one, one, one).
Definition gray : row := (half, half, half).

(** A header of the current [laspy] API, and one on which neither the
    current nor the legacy accessor resolves. *)
Definition header_1_4 : LasHeader :=
  {| major_version := Some 1%Z; minor_version := Some 4%Z; version := None;
     point_format := Some {| id := 3%Z |}; point_data_format_id := None |}.
Definition header_legacy : LasHeader :=
  {| major_version := None; minor_version := None;
     version := Some {| major := 1%Z; minor := 2%Z |};
     point_format := None; point_data_format_id := Some 1%Z |}.
Definition header_opaque : LasHeader :=
  {| major_version := None; minor_version := None; version := None;
     point_format := None; point_data_format_id := None |}.

(** Four points on the x axis with intensities 10, 20, 30, 40. *)
Definition las4 (h : LasHeader) : LasData :=
  {| xyz := [pt 0 0 0; pt 1 0 0; pt 2 0 0; pt 3 0 0];
     red := None; green := None; blue := None;
     intensity := Some [10; 20; 30; 40]%Z;
     header := h |}.

Definition intensity4 : ndarray float :=
  Eval vm_compute in map of_Z [10; 20; 30; 40]%Z.

Definition disk : filesystem :=
  fun path => if String.eqb path "data/uploads/a.las" then Some 1234%Z else None.

End Samples.

(* ================================================================== *)
(** * loader.py and routes.py: stored files and the registry           *)
(* ================================================================== *)

Module Files.

Import LiDARLoader.

(** [str.lower] on the ASCII letters, and [str.endswith]. *)
Definition lower_char (c : ascii) : ascii :=
  let n := nat_of_ascii c in
  if (Nat.leb 65 n && Nat.leb n 90)%bool then ascii_of_nat (n + 32) else c.

Fixpoint lower (s : string) : string :=
  match s with
  | EmptyString => EmptyString
  | String c rest => String (lower_char c) (lower rest)
  end.

Definition endswith (s suffix : string) : bool :=
  let n := String.length s in
  let k := String.length suffix in
  (Nat.leb k n && String.eqb (substring (n - k) k s) suffix)%bool.

Definition UPLOAD_DIR : string := "data/uploads".

(** One value of [file_registry], and the registry itself: a [dict],
    which keeps its keys in insertion order. *)
Record FileInfo := {
  original_filename : string;
  stored_path : string;
  metadata : PointCloudMetadata;
  upload_date : string;
  source : string
}.

Definition registry := list (string * FileInfo).

(** [file_registry[file_id]] and [file_id in file_registry] *)
Fixpoint lookup (r : registry) (file_id : string) : option FileInfo :=
  match r with
  | [] => None
  | (k, info) :: rest =>
    if String.eqb k file_id then Some info else lookup rest file_id
  end.

(** [file_registry[file_id] = info]: a known key keeps its place. *)
Fixpoint assign (r : registry) (file_id : string) (info : FileInfo)
  : registry :=
  match r with
  | [] => [(file_id, info)]
  | (k, old) :: rest =>
    if String.eqb k file_id then (k, info) :: rest
    else (k, old) :: assign rest file_id info
  end.

(** [del file_registry[file_id]] *)
Definition del (r : registry) (file_id : string) : registry :=
  filter (fun entry => negb (String.eqb (fst entry) file_id)) r.

Record FileUploadResponse := {
  file_id : string;
  message : string;
  response_metadata : PointCloudMetadata
}.

(** One element of the answer of [list_files]. *)
Record FileListing := {
  listed_file_id : string;
  listed_filename : string;
  listed_metadata : PointCloudMetadata;
  listed_upload_date : string;
  listed_source : string
}.

Section Store.

(** What a file holds is opaque to the handlers: [os.path.getsize]
    measures it and [laspy.read] parses it or raises.  [Path.suffix] is
    the one of [pathlib].  The upload directory is writable. *)
Variable content : Type.
Variable size : content -> Z.
Variable laspy_read : content -> result LasData.
Variable suffix : string -> string.

Definition storage := string -> option content.

Definition sizes (d : storage) : filesystem :=
  fun file_path => option_map size (d file_path).

Definition write (d : storage) (file_path : string) (c : content) : storage :=
  fun p => if String.eqb p file_path then Some c else d p.

Definition remove (d : storage) (file_path : string) : storage :=
  fun p => if String.eqb p file_path then None else d p.

(** loader.py, lines 33-84. *)
Definition load_file (d : storage) (file_path : string) : result LasData :=
  match d file_path with
  | None => Raise FileNotFoundError
  | Some c => try_except (laspy_read c) (fun _ => Raise ValueError)
  end.

(** The two pieces of state the handlers share. *)
Record state := {
  files : storage;
  file_registry : registry
}.

(** routes.py, lines 44-110.  [new_id] is the value of [uuid.uuid4()]
    and [now] the one of [datetime.now().isoformat()]. *)
Definition upload_file (new_id now : string) (filename : option string)
           (body : content) (st : state)
  : result FileUploadResponse * state :=
  match filename with
  | None => (Raise (HTTPException 400), st)
  | Some name =>
    if (String.eqb name ""
        || negb (endswith (lower name) ".las" || endswith (lower name) ".laz"))%bool
    then (Raise (HTTPException 400), st)
    else
      let file_extension := suffix name in
      let stored_filename := (new_id ++ file_extension)%string in
      let file_path := (UPLOAD_DIR ++ "/" ++ stored_filename)%string in
      (* Save uploaded file *)
      let files1 := write (files st) file_path body in
      (* Load and analyze file *)
      match (las <- load_file files1 file_path ;;
             get_metadata (sizes files1) file_path las) with
      | Ok md =>
        (Ok {| file_id := new_id;
               message := ("Successfully uploaded " ++ name)%string;
               response_metadata := md |},
         {| files := files1;
            file_registry :=
              assign (file_registry st) new_id
                     {| original_filename := name;
                        stored_path := file_path;
                        metadata := md;
                        upload_date := now;
                        source := "upload" |} |})
      | Raise _ =>
        (Raise (HTTPException 500),
         {| files := files1; file_registry := file_registry st |})
      end
  end.

(** routes.py, lines 114-132. *)
Definition list_files (st : state) : list FileListing :=
  map (fun entry =>
         {| listed_file_id := fst entry;
            listed_filename := original_filename (snd entry);
            listed_metadata := metadata (snd entry);
            listed_upload_date := upload_date (snd entry);
            listed_source := source (snd entry) |})
      (file_registry st).

(** routes.py, lines 136-149. *)
Definition get_file_info (st : state) (file_id : string)
  : result PointCloudMetadata :=
  match lookup (file_registry st) file_id with
  | None => Raise (HTTPException 404)
  | Some info => Ok (metadata info)
  end.

(** routes.py, lines 177-220: the registry check and the load in front
    of the reduction and colouring stage. *)
Definition get_point_data_handler (st : state) (file_id : string)
           (max_points : option Z) (color_by : string)
           (downsample : option float) (g : rng)
  : result (ndarray row * option (ndarray row)) * rng :=
  match lookup (file_registry st) file_id with
  | None => (Raise (HTTPException 404), g)
  | Some file_info =>
    match load_file (files st) (stored_path file_info) with
    | Raise _ => (Raise (HTTPException 500), g)
    | Ok las => Routes.get_point_data las max_points color_by downsample g
    end
  end.

(** routes.py, lines 242-271. *)
Definition delete_file (st : state) (file_id : string)
  : result string * state :=
  match lookup (file_registry st) file_id with
  | None => (Raise (HTTPException 404), st)
  | Some file_info =>
    let file_path := stored_path file_info in
    (* Delete file from disk *)
    let files1 :=
      match files st file_path with
      | Some _ => remove (files st) file_path
      | None => files st
      end in
    (* Remove from registry *)
    (Ok "File deleted successfully"%string,
     {| files := files1; file_registry := del (file_registry st) file_id |})
  end.

End Store.

End Files.

Import LiDARLoader.

(* ================================================================== *)
(** * Lists, indices and the generator                                 *)
(* ================================================================== *)

Lemma fold_minimum_In (xs : list float) (x : float) :
  In (fold_left minimum xs x) (x :: xs).
Proof.
  revert x; induction xs as [|y ys IH]; intro x; simpl.
  - now left.
  - assert (Hm : minimum x y = x \/ minimum x y = y)
      by (unfold minimum; destruct (leb x y || is_nan x)%bool; auto).
    destruct (IH (minimum x y)) as [E | E]; [| right; right; exact E].
    destruct Hm as [Hm | Hm]; [left | right; left]; rewrite <- E; now symmetry.
Qed.

Lemma fold_maximum_In (xs : list float) (x : float) :
  In (fold_left maximum xs x) (x :: xs).
Proof.
  revert x; induction xs as [|y ys IH]; intro x; simpl.
  - now left.
  - assert (Hm : maximum x y = x \/ maximum x y = y)
      by (unfold maximum; destruct (geb x y || is_nan x)%bool; auto).
    destruct (IH (maximum x y)) as [E | E]; [| right; right; exact E].
    destruct Hm as [Hm | Hm]; [left | right; left]; rewrite <- E; now symmetry.
Qed.

Lemma amin_In (a : ndarray float) (v : float) : amin a = Ok v -> In v a.
Proof.
  destruct a as [|x xs]; simpl; intro H; [discriminate|].
  injection H as <-. apply fold_minimum_In.
Qed.

Lemma amax_In (a : ndarray float) (v : float) : amax a = Ok v -> In v a.
Proof.
  destruct a as [|x xs]; simpl; intro H; [discriminate|].
  injection H as <-. apply fold_maximum_In.
Qed.

Lemma amin_nonempty (a : ndarray float) : a <> [] -> exists v, amin a = Ok v.
Proof. destruct a; [congruence | intros _; eexists; reflexivity]. Qed.

Lemma amax_nonempty (a : ndarray float) : a <> [] -> exists v, amax a = Ok v.
Proof. destruct a; [congruence | intros _; eexists; reflexivity]. Qed.

Lemma gray_rows_half (n : nat) : gray_rows n = repeat Samples.gray n.
Proof. reflexivity. Qed.

Lemma random_choice_zero (n : nat) (g : rng) : random_choice n 0 g = (Ok [], g).
Proof.
  unfold random_choice. simpl.
  rewrite andb_false_r.
  destruct (Z.of_nat n <? 0)%Z eqn:E; [apply Z.ltb_lt in E; lia | reflexivity].
Qed.

Lemma random_choice_negative (n : nat) (k : Z) (g : rng) :
  (k < 0)%Z -> random_choice n k g = (Raise ValueError, g).
Proof.
  intro H. unfold random_choice.
  destruct (Nat.eqb n 0 && negb (Z.eqb k 0))%bool; [reflexivity|].
  destruct (Z.of_nat n <? k)%Z; [reflexivity|].
  destruct (k <? 0)%Z eqn:E; [reflexivity | apply Z.ltb_ge in E; lia].
Qed.

Lemma remove_at_incl (i : nat) (pool : list nat) : incl (remove_at i pool) pool.
Proof.
  revert i; induction pool as [|x rest IH]; intros i.
  - destruct i; apply incl_refl.
  - destruct i as [|j]; simpl.
    + apply incl_tl, incl_refl.
    + intros y [<- | Hy]; [now left | right; now apply (IH j)].
Qed.

Lemma remove_at_length (i : nat) (pool : list nat) :
  i < length pool -> length (remove_at i pool) = length pool - 1.
Proof.
  revert i; induction pool as [|x rest IH]; intros i Hi;
    cbn [length] in *; [lia |].
  destruct i as [|j]; cbn [remove_at length]; [lia |].
  rewrite IH by lia. lia.
Qed.

Lemma draw_step (k x : nat) (rest : list nat) (g : rng) :
  draw (S k) (x :: rest) g
  = (nth (Nat.modulo (fst (next g)) (length (x :: rest))) (x :: rest) 0
       :: fst (draw k (remove_at (Nat.modulo (fst (next g)) (length (x :: rest)))
                                 (x :: rest)) (snd (next g))),
     snd (draw k (remove_at (Nat.modulo (fst (next g)) (length (x :: rest)))
                            (x :: rest)) (snd (next g)))).
Proof.
  cbn [draw]. destruct (next g) as [r g1]. cbn [fst snd].
  destruct (draw k _ g1) as [rest' g2]. reflexivity.
Qed.

Lemma draw_spec (k : nat) :
  forall pool g,
    k <= length pool ->
    length (fst (draw k pool g)) = k /\ incl (fst (draw k pool g)) pool.
Proof.
  induction k as [|k IH]; intros pool g Hk.
  - split; [reflexivity | intros x []].
  - destruct pool as [|x rest]; [cbn [length] in Hk; lia |].
    rewrite draw_step. cbn [fst].
    remember (x :: rest) as pool eqn:Epool.
    assert (Hne : length pool <> 0) by (rewrite Epool; discriminate).
    pose proof (Nat.mod_upper_bound (fst (next g)) (length pool) Hne) as Hi.
    remember (Nat.modulo (fst (next g)) (length pool)) as i eqn:Ei.
    destruct (IH (remove_at i pool) (snd (next g))) as [IHl IHi].
    { rewrite remove_at_length by exact Hi. lia. }
    split; [cbn [length]; now rewrite IHl |].
    intros y [<- | Hy].
    + apply nth_In. exact Hi.
    + apply (@remove_at_incl i pool). now apply IHi.
Qed.

Lemma remove_at_NoDup (pool : list nat) :
  NoDup pool ->
  forall i, i < length pool ->
    NoDup (remove_at i pool) /\ ~ In (nth i pool 0) (remove_at i pool).
Proof.
  induction 1 as [|x rest Hx Hnd IH]; intros i Hi; cbn [length] in Hi; [lia |].
  destruct i as [|j]; cbn [remove_at nth].
  - split; assumption.
  - destruct (IH j ltac:(lia)) as [Hnd' Hnin].
    split.
    + constructor; [| exact Hnd'].
      intro Hin. apply Hx. now apply (@remove_at_incl j rest).
    + intros [E | Hin]; [| now apply Hnin].
      apply Hx. rewrite E. apply nth_In. lia.
Qed.

(** The sampler draws without replacement. *)
Lemma draw_NoDup (k : nat) :
  forall pool g, NoDup pool -> k <= length pool -> NoDup (fst (draw k pool g)).
Proof.
  induction k as [|k IH]; intros pool g Hnd Hk.
  - constructor.
  - destruct pool as [|x rest]; [cbn [length] in Hk; lia |].
    rewrite draw_step. cbn [fst].
    remember (x :: rest) as pool eqn:Epool.
    assert (Hne : length pool <> 0) by (rewrite Epool; discriminate).
    pose proof (Nat.mod_upper_bound (fst (next g)) (length pool) Hne) as Hi.
    remember (Nat.modulo (fst (next g)) (length pool)) as i eqn:Ei.
    destruct (remove_at_NoDup Hnd Hi) as [Hnd' Hnin].
    assert (Hk' : k <= length (remove_at i pool))
      by (rewrite remove_at_length by exact Hi; lia).
    constructor.
    + intro Hin. apply Hnin.
      now apply (proj2 (@draw_spec k (remove_at i pool) (snd (next g)) Hk')).
    + now apply IH.
Qed.

(** Within range the sampler returns [size] distinct indices below [n]. *)
Lemma random_choice_ok (n : nat) (size : Z) (g : rng) :
  (0 <= size <= Z.of_nat n)%Z ->
  exists idx g',
    random_choice n size g = (Ok idx, g')
    /\ length idx = Z.to_nat size
    /\ Forall (fun i => i < n) idx
    /\ NoDup idx.
Proof.
  intros Hs. unfold random_choice.
  replace (Nat.eqb n 0 && negb (Z.eqb size 0))%bool with false.
  2:{ symmetry. apply andb_false_iff.
      destruct (Nat.eqb_spec n 0) as [-> | ]; [right | now left].
      replace size with 0%Z by lia. reflexivity. }
  replace (Z.of_nat n <? size)%Z with false by (symmetry; apply Z.ltb_ge; lia).
  replace (size <? 0)%Z with false by (symmetry; apply Z.ltb_ge; lia).
  assert (Hk : Z.to_nat size <= length (seq 0 n)) by (rewrite length_seq; lia).
  destruct (@draw_spec (Z.to_nat size) (seq 0 n) g Hk) as [Hl Hi].
  pose proof (@draw_NoDup (Z.to_nat size) (seq 0 n) g (seq_NoDup n 0) Hk) as Hnd.
  destruct (draw (Z.to_nat size) (seq 0 n) g) as [idx g']. simpl in *.
  exists idx, g'. split; [reflexivity | split; [exact Hl | split; [| exact Hnd]]].
  apply Forall_forall. intros i Hin. apply Hi, in_seq in Hin. lia.
Qed.

Lemma sort_valid (n : nat) (idx : list nat) :
  Forall (fun i => i < n) idx ->
  length (sort idx) = length idx /\ Forall (fun i => i < n) (sort idx).
Proof.
  intro H. pose proof (NatSort.Permuted_sort idx) as Hp. split.
  - symmetry. now apply Permutation_length.
  - eapply Permutation_Forall; eassumption.
Qed.

Lemma take_total (A : Type) (arr : ndarray A) (idx : list nat) :
  Forall (fun i => i < length arr) idx ->
  exists l, take arr idx = Ok l /\ length l = length idx.
Proof.
  induction 1 as [|i rest Hi _ [l [Hl Hlen]]]; simpl.
  - exists []. split; reflexivity.
  - destruct (nth_error arr i) as [a |] eqn:E.
    + rewrite Hl. exists (a :: l). simpl. split; [reflexivity | now rewrite Hlen].
    + apply nth_error_None in E. lia.
Qed.

(* ================================================================== *)
(** * Binary rounding                                                  *)
(* ================================================================== *)

Section BinaryRounding.

Local Open Scope Z_scope.

(** Positivity of a power of two with a non-negative exponent. *)
Ltac pow2_pos := apply Z.pow_pos_nonneg; lia.

Lemma digits2_pos_bounds (p : positive) :
  2 ^ (Zpos (digits2_pos p) - 1) <= Zpos p < 2 ^ Zpos (digits2_pos p).
Proof.
  induction p as [p IH | p IH |]; simpl digits2_pos.
  - rewrite Pos2Z.inj_succ.
    replace (Z.succ (Zpos (digits2_pos p)) - 1) with (Z.succ (Zpos (digits2_pos p) - 1)) by lia.
    rewrite !Z.pow_succ_r by lia. lia.
  - rewrite Pos2Z.inj_succ.
    replace (Z.succ (Zpos (digits2_pos p)) - 1) with (Z.succ (Zpos (digits2_pos p) - 1)) by lia.
    rewrite !Z.pow_succ_r by lia. lia.
  - simpl. lia.
Qed.

Lemma Zdigits2_bounds (m : Z) :
  0 < m -> 2 ^ (Zdigits2 m - 1) <= m < 2 ^ Zdigits2 m.
Proof.
  destruct m as [|p|p]; try lia. intros _. apply digits2_pos_bounds.
Qed.

Lemma Zdigits2_pos (m : Z) : 0 < m -> 0 < Zdigits2 m.
Proof. destruct m; simpl; lia. Qed.

Lemma Zdigits2_unique (m k : Z) :
  2 ^ (k - 1) <= m < 2 ^ k -> 0 < k -> Zdigits2 m = k.
Proof.
  intros [Hlo Hhi] Hk.
  assert (Hm : 0 < m) by (pose proof (Z.pow_pos_nonneg 2 (k - 1)); lia).
  pose proof (@Zdigits2_bounds m Hm) as [Dlo Dhi].
  pose proof (@Zdigits2_pos m Hm) as Dpos.
  destruct (Z.lt_trichotomy (Zdigits2 m) k) as [L | [E | G]]; [| exact E |].
  - assert (2 ^ Zdigits2 m <= 2 ^ (k - 1)) by (apply Z.pow_le_mono_r; lia). lia.
  - assert (2 ^ k <= 2 ^ (Zdigits2 m - 1)) by (apply Z.pow_le_mono_r; lia). lia.
Qed.

(** shr_1 halves a non-negative mantissa *)
Lemma shr_1_m (mrs : shr_record) :
  0 <= shr_m mrs -> shr_m (shr_1 mrs) = shr_m mrs / 2.
Proof.
  destruct mrs as [m r s]. simpl. intro H.
  destruct m as [|p|p]; try lia.
  - reflexivity.
  - destruct p; simpl shr_m.
    + rewrite Pos2Z.inj_xI. apply Z.div_unique with 1; lia.
    + rewrite Pos2Z.inj_xO. apply Z.div_unique with 0; lia.
    + reflexivity.
Qed.

Lemma iter_shr_1_m (n : positive) :
  forall mrs, 0 <= shr_m mrs ->
    shr_m (iter_pos shr_1 n mrs) = shr_m mrs / 2 ^ Zpos n.
Proof.
  assert (Hstep : forall mrs, 0 <= shr_m mrs -> 0 <= shr_m (shr_1 mrs)).
  { intros mrs H. rewrite shr_1_m by exact H. apply Z.div_pos; lia. }
  induction n as [n IH | n IH |]; intros mrs H; simpl iter_pos.
  - assert (H1 : 0 <= shr_m (shr_1 mrs)) by auto.
    assert (H2 : 0 <= shr_m (iter_pos shr_1 n (shr_1 mrs))).
    { rewrite IH by exact H1. apply Z.div_pos; [exact H1 | pow2_pos]. }
    rewrite IH by exact H2. rewrite IH by exact H1. rewrite shr_1_m by exact H.
    rewrite !Z.div_div by (try apply Z.pow_pos_nonneg; lia).
    f_equal.
    replace (Zpos n~1) with (Zpos n + Zpos n + 1) by lia.
    rewrite !Z.pow_add_r by lia. change (2 ^ 1) with 2. lia.
  - assert (H2 : 0 <= shr_m (iter_pos shr_1 n mrs)).
    { rewrite IH by exact H. apply Z.div_pos; [exact H | pow2_pos]. }
    rewrite IH by exact H2. rewrite IH by exact H.
    rewrite !Z.div_div by (try apply Z.pow_pos_nonneg; lia).
    f_equal.
    replace (Zpos n~0) with (Zpos n + Zpos n) by lia.
    rewrite !Z.pow_add_r by lia. lia.
  - rewrite shr_1_m by exact H. reflexivity.
Qed.

Lemma round_nearest_even_bounds (m : Z) (l : location) :
  m <= round_nearest_even m l <= m + 1.
Proof.
  unfold round_nearest_even.
  destruct l as [|[| |]]; try lia. destruct (Z.even m); lia.
Qed.

Lemma shr_record_of_loc_m m l : shr_m (shr_record_of_loc m l) = m.
Proof. destruct l as [|[| |]]; reflexivity. Qed.

Section Round.

Variables prec emax : Z.

(** The first component of [shr_fexp]: mantissa divided by 2^n, exponent advanced by n *)
Lemma shr_fexp_m (m e : Z) (l : location) :
  0 <= m ->
  let n := Z.max 0 (fexp prec emax (Zdigits2 m + e) - e) in
  shr_m (fst (shr_fexp prec emax m e l)) = m / 2 ^ n
  /\ snd (shr_fexp prec emax m e l) = e + n.
Proof.
  intros Hm n. unfold shr_fexp, shr. subst n.
  destruct (fexp prec emax (Zdigits2 m + e) - e) as [|p|p] eqn:E; simpl fst; simpl snd.
  - rewrite shr_record_of_loc_m. simpl. rewrite Z.div_1_r. split; lia.
  - rewrite iter_shr_1_m by (rewrite shr_record_of_loc_m; exact Hm).
    rewrite shr_record_of_loc_m. rewrite Z.max_r by lia. split; reflexivity.
  - rewrite shr_record_of_loc_m. rewrite Z.max_l by lia. simpl. rewrite Z.div_1_r. split; lia.
Qed.


Hypothesis prec_pos : 0 < prec.

Lemma fexp_normal (x : Z) :
  emin prec emax <= x - prec -> fexp prec emax x = x - prec.
Proof. unfold fexp. lia. Qed.

Lemma binary_round_aux_normal (s : bool) (m e : Z) (l : location) :
  0 < m ->
  prec <= Zdigits2 m ->
  emin prec emax <= e + Zdigits2 m - prec ->
  exists mf ef,
    binary_round_aux prec emax s m e l
    = (if ef <=? emax - prec then S754_finite s mf ef else S754_infinity s)
    /\ 2 ^ (prec - 1) <= Zpos mf < 2 ^ prec
    /\ e + (Zdigits2 m - prec) <= ef <= e + (Zdigits2 m - prec) + 1
    /\ Zpos mf * 2 ^ (ef - e) <= m + 2 ^ (Zdigits2 m - prec).
Proof.
  intros Hm Hd Hemin.
  set (d := Zdigits2 m) in *.
  set (n := d - prec).
  assert (Hn : 0 <= n) by (unfold n; lia).
  pose proof (@Zdigits2_bounds m Hm) as [Dlo Dhi]. fold d in Dlo, Dhi.
  assert (P2n : 0 < 2 ^ n) by pow2_pos.
  (* first shift *)
  pose proof (@shr_fexp_m m e l (Z.lt_le_incl _ _ Hm)) as [Hm1 He1].
  fold d in Hm1, He1.
  rewrite (fexp_normal (d + e)) in Hm1, He1 by lia.
  replace (Z.max 0 (d + e - prec - e)) with n in Hm1, He1 by (unfold n; lia).
  unfold binary_round_aux.
  destruct (shr_fexp prec emax m e l) as [mrs1 e1]. simpl fst in Hm1; simpl snd in He1.
  set (m1 := shr_m mrs1) in *.
  assert (Hm1lo : 2 ^ (prec - 1) <= m1).
  { rewrite Hm1. apply Z.div_le_lower_bound; [exact P2n |].
    rewrite <- Z.pow_add_r by lia.
    replace (n + (prec - 1)) with (d - 1) by (unfold n; lia). exact Dlo. }
  assert (Hm1hi : m1 < 2 ^ prec).
  { rewrite Hm1. apply Z.div_lt_upper_bound; [exact P2n |].
    rewrite <- Z.pow_add_r by lia.
    replace (n + prec) with d by (unfold n; lia). exact Dhi. }
  assert (Hm1n : m1 * 2 ^ n <= m).
  { rewrite Hm1, Z.mul_comm. apply Z.mul_div_le. exact P2n. }
  pose proof (round_nearest_even_bounds m1 (loc_of_shr_record mrs1)) as [Q1lo Q1hi].
  set (q1 := round_nearest_even m1 (loc_of_shr_record mrs1)) in *.
  assert (P2p : 0 < 2 ^ (prec - 1)) by pow2_pos.
  assert (Epow : 2 ^ prec = 2 * 2 ^ (prec - 1)).
  { replace prec with (1 + (prec - 1)) at 1 by lia.
    rewrite Z.pow_add_r by lia. reflexivity. }
  assert (Hq1 : 0 <= q1) by lia.
  (* second shift *)
  pose proof (@shr_fexp_m q1 e1 loc_Exact Hq1) as [Hm2 He2].
  destruct (Z.eq_dec q1 (2 ^ prec)) as [Eq | Nq].
  - (* the rounding carried into a new digit *)
    assert (Dq : Zdigits2 q1 = prec + 1).
    { apply Zdigits2_unique; [| lia].
      replace (prec + 1 - 1) with prec by lia.
      rewrite Eq. split; [lia |].
      replace (prec + 1) with (1 + prec) by lia.
      rewrite Z.pow_add_r by lia. change (2 ^ 1) with 2. lia. }
    rewrite Dq in Hm2, He2.
    rewrite (fexp_normal (prec + 1 + e1)) in Hm2, He2 by lia.
    replace (Z.max 0 (prec + 1 + e1 - prec - e1)) with 1 in Hm2, He2 by lia.
    destruct (shr_fexp prec emax q1 e1 loc_Exact) as [mrs2 e2].
    simpl fst in Hm2; simpl snd in He2.
    assert (Hmf : shr_m mrs2 = 2 ^ (prec - 1)).
    { rewrite Hm2, Eq, Epow. change (2 ^ 1) with 2.
      rewrite Z.mul_comm. apply Z.div_mul. lia. }
    rewrite Hmf.
    destruct (2 ^ (prec - 1)) as [|mf|mf] eqn:Emf; try lia.
    exists mf, e2. split; [reflexivity |].
    split; [lia |]. split; [lia |].
    rewrite He2, He1.
    replace (e + n + 1 - e) with (n + 1) by lia.
    rewrite Z.pow_add_r by lia. change (2 ^ 1) with 2.
    fold n. nia.
  - assert (Dq : Zdigits2 q1 = prec) by (apply Zdigits2_unique; lia).
    rewrite Dq in Hm2, He2.
    rewrite (fexp_normal (prec + e1)) in Hm2, He2 by lia.
    replace (Z.max 0 (prec + e1 - prec - e1)) with 0 in Hm2, He2 by lia.
    destruct (shr_fexp prec emax q1 e1 loc_Exact) as [mrs2 e2].
    simpl fst in Hm2; simpl snd in He2.
    change (2 ^ 0) with 1 in Hm2. rewrite Z.div_1_r in Hm2.
    rewrite Hm2.
    destruct q1 as [|mf|mf] eqn:Eq1; try lia.
    exists mf, e2. split; [reflexivity |].
    split; [lia |]. split; [lia |].
    rewrite He2, He1.
    replace (e + n + 0 - e) with n by lia.
    fold n. nia.
Qed.

End Round.

End BinaryRounding.

(* ================================================================== *)
(** * The kept count of a limited cloud                                *)
(* ================================================================== *)

Section KeptCount.

Local Open Scope Z_scope.

Ltac pow2_pos := apply Z.pow_pos_nonneg; lia.

Lemma pos_iter_xO (p k : positive) :
  Zpos (Pos.iter xO p k) = Zpos p * 2 ^ Zpos k.
Proof.
  induction k as [|k IH] using Pos.peano_ind.
  - simpl. lia.
  - rewrite Pos.iter_succ, Pos2Z.inj_xO, IH, Pos2Z.inj_succ, Z.pow_succ_r by lia. lia.
Qed.

Lemma emin64 : emin prec64 emax64 = -1074.
Proof. reflexivity. Qed.

(** Make the binary64 parameters explicit for [lia]. *)
Ltac binary64 :=
  rewrite ?emin64; change emax64 with 1024; change prec64 with 53.

Lemma shr_fexp_noshift (prec emax m e : Z) (l : location) :
  fexp prec emax (Zdigits2 m + e) - e <= 0 ->
  shr_fexp prec emax m e l = (shr_record_of_loc m l, e).
Proof.
  intro H. unfold shr_fexp, shr.
  destruct (fexp prec emax (Zdigits2 m + e) - e); try reflexivity. lia.
Qed.

Lemma binary_round_aux_exact (s : bool) (m : positive) (e : Z) :
  Zdigits2 (Zpos m) = prec64 -> emin prec64 emax64 <= e -> e <= emax64 - prec64 ->
  binary_round_aux prec64 emax64 s (Zpos m) e loc_Exact = S754_finite s m e.
Proof.
  intros Hd He1 He2.
  assert (Hf : fexp prec64 emax64 (Zdigits2 (Zpos m) + e) - e <= 0).
  { rewrite Hd. unfold fexp. lia. }
  unfold binary_round_aux.
  rewrite (shr_fexp_noshift _ _ _ _ loc_Exact Hf).
  simpl shr_m. simpl round_nearest_even.
  rewrite (shr_fexp_noshift _ _ _ _ loc_Exact Hf).
  simpl shr_m.
  apply Z.leb_le in He2. now rewrite He2.
Qed.

(** [float(n)] is exact on positive integers below [2^53]. *)
Lemma of_Z_exact (n : Z) :
  0 < n < 2 ^ 53 ->
  exists mn,
    of_Z n = S754_finite false mn (Zdigits2 n - 53)
    /\ Zpos mn = n * 2 ^ (53 - Zdigits2 n)
    /\ 2 ^ 52 <= Zpos mn < 2 ^ 53.
Proof.
  intros [Hpos Hlt].
  pose proof (Zdigits2_bounds Hpos) as [Dlo Dhi].
  pose proof (Zdigits2_pos Hpos) as Dpos.
  assert (Dle : Zdigits2 n <= 53).
  { destruct (Z_le_gt_dec (Zdigits2 n) 53) as [L | G]; [exact L |].
    assert (2 ^ 53 <= 2 ^ (Zdigits2 n - 1)) by (apply Z.pow_le_mono_r; lia). lia. }
  destruct n as [|p|p]; try lia.
  unfold of_Z, binary_normalize, binary_round.
  set (d := Zpos (digits2_pos p)) in *.
  change (Zdigits2 (Zpos p)) with d in *.
  assert (Hf : fexp prec64 emax64 (d + 0) = d - 53).
  { unfold fexp. binary64. lia. }
  rewrite Hf. unfold shl_align.
  assert (Hval : forall mz : positive,
             Zpos mz = Zpos p * 2 ^ (53 - d) ->
             2 ^ 52 <= Zpos mz < 2 ^ 53 /\ Zdigits2 (Zpos mz) = prec64).
  { intros mz Hmz.
    assert (B : 2 ^ 52 <= Zpos mz < 2 ^ 53).
    { assert (E52 : 2 ^ 52 = 2 ^ (d - 1) * 2 ^ (53 - d))
        by (rewrite <- Z.pow_add_r by lia; f_equal; lia).
      assert (E53 : 2 ^ 53 = 2 ^ d * 2 ^ (53 - d))
        by (rewrite <- Z.pow_add_r by lia; f_equal; lia).
      assert (0 < 2 ^ (53 - d)) by pow2_pos.
      rewrite Hmz, E52, E53.
      split; [apply Z.mul_le_mono_nonneg_r | apply Z.mul_lt_mono_pos_r]; lia. }
    split; [exact B |]. apply Zdigits2_unique; [exact B | reflexivity]. }
  destruct (d - 53 - 0) as [|k|k] eqn:Ek; try lia.
  - assert (Ed : d = 53) by lia.
    destruct (Hval p) as [B D].
    { rewrite Ed. simpl. lia. }
    exists p.
    rewrite binary_round_aux_exact; try (binary64; lia); [| exact D].
    rewrite Ed. split; [reflexivity |]. split; [simpl; lia | exact B].
  - assert (Ek' : Zpos k = 53 - d) by lia.
    destruct (Hval (Pos.iter xO p k)) as [B D].
    { rewrite pos_iter_xO, Ek'. reflexivity. }
    exists (Pos.iter xO p k).
    rewrite binary_round_aux_exact; try (binary64; lia); [| exact D].
    split; [reflexivity |]. split; [| exact B].
    rewrite pos_iter_xO, Ek'. reflexivity.
Qed.

Lemma pow2_lt_inv (a b : Z) : 0 <= b -> 2 ^ a < 2 ^ b -> a < b.
Proof.
  intros Hb H. destruct (Z_lt_ge_dec a b) as [L | G]; [exact L |].
  assert (2 ^ b <= 2 ^ a) by (apply Z.pow_le_mono_r; lia). lia.
Qed.

Lemma div_core_small (m n : Z) :
  0 < m -> 0 < n -> Zdigits2 m <= Zdigits2 n -> Zdigits2 n <= 1000 ->
  let s := 53 + Zdigits2 n - Zdigits2 m in
  SFdiv_core_binary prec64 emax64 m 0 n 0
  = (m * 2 ^ s / n, - s, new_location n ((m * 2 ^ s) mod n)).
Proof.
  intros Hm Hn Hd Hd2 s.
  pose proof (Zdigits2_pos Hm) as D1.
  unfold SFdiv_core_binary. cbv zeta.
  assert (He : Z.min (fexp prec64 emax64 (Zdigits2 m + 0 - (Zdigits2 n + 0))) (0 - 0)
               = - s).
  { unfold fexp. binary64. unfold s. lia. }
  rewrite He.
  replace (0 - 0 - - s) with s by lia.
  destruct s as [|ps|ps] eqn:Es; try lia.
  rewrite Z.shiftl_mul_pow2 by lia.
  unfold Z.div, Z.modulo.
  destruct (Z.div_eucl (m * 2 ^ Zpos ps) n) as [q r]. reflexivity.
Qed.

(** The rate [max_points / N] of [limit_points], for [0 < max_points < N]. *)
Lemma py_int_truediv_small (m n : Z) :
  0 < m < n -> m < 2 ^ 50 -> n < 2 ^ 53 ->
  exists mf ef s,
    py_int_truediv m n = Ok (S754_finite false mf ef)
    /\ 2 ^ 52 <= Zpos mf < 2 ^ 53
    /\ ef <= -53
    /\ 0 <= ef + s /\ 0 <= s <= 106
    /\ 8 * n <= 2 ^ s
    /\ Zpos mf * 2 ^ (ef + s) * n <= m * 2 ^ s + 2 * n.
Proof.
  intros [Hm Hmn] Hm50 Hn53.
  assert (Hn : 0 < n) by lia.
  pose proof (Zdigits2_bounds Hm) as [M1 M2].
  pose proof (Zdigits2_bounds Hn) as [N1 N2].
  pose proof (Zdigits2_pos Hm) as D1.
  pose proof (Zdigits2_pos Hn) as D2.
  set (d1 := Zdigits2 m) in *. set (d2 := Zdigits2 n) in *.
  assert (Hd12 : d1 <= d2).
  { assert (d1 - 1 < d2) by (apply pow2_lt_inv; lia). lia. }
  assert (Hd1 : d1 <= 50).
  { assert (d1 - 1 < 50) by (apply pow2_lt_inv; lia). lia. }
  assert (Hd2 : d2 <= 53).
  { assert (d2 - 1 < 53) by (apply pow2_lt_inv; lia). lia. }
  set (s := 53 + d2 - d1).
  assert (Hs : 3 + d2 <= s <= 106) by (unfold s; lia).
  set (A := 2 ^ s).
  assert (EA : 2 ^ (d1 - 1) * A = 2 ^ 52 * 2 ^ d2).
  { unfold A. rewrite <- !Z.pow_add_r by lia. f_equal. unfold s. lia. }
  assert (EA' : 2 ^ d1 * A = 2 ^ 54 * 2 ^ (d2 - 1)).
  { unfold A. rewrite <- !Z.pow_add_r by lia. f_equal. unfold s. lia. }
  assert (A8 : 8 * 2 ^ d2 <= A).
  { unfold A. change 8 with (2 ^ 3). rewrite <- Z.pow_add_r by lia.
    apply Z.pow_le_mono_r; lia. }
  assert (Apos : 0 < A) by pow2_pos.
  set (q := m * A / n).
  assert (Qlo : 2 ^ 52 <= q).
  { apply Z.div_le_lower_bound; [exact Hn |].
    assert (n * 2 ^ 52 <= 2 ^ 52 * 2 ^ d2) by nia.
    assert (2 ^ (d1 - 1) * A <= m * A) by (apply Z.mul_le_mono_nonneg_r; lia).
    lia. }
  assert (Qn : q * n <= m * A).
  { unfold q. rewrite Z.mul_comm. apply Z.mul_div_le. exact Hn. }
  assert (Qhi : q + 2 < A).
  { assert (q * n <= (n - 1) * A) by nia.
    assert (q * n <= n * A - 8 * n) by nia.
    assert (q <= A - 8) by nia. lia. }
  assert (Q54 : q < 2 ^ 54).
  { assert (A8' : 2 ^ d1 * A <= 2 ^ 54 * n).
    { rewrite EA'. apply Z.mul_le_mono_nonneg_l; lia. }
    assert (m * A < 2 ^ d1 * A) by (apply Z.mul_lt_mono_pos_r; lia).
    apply Z.div_lt_upper_bound; lia. }
  assert (Qpos : 0 < q) by lia.
  pose proof (Zdigits2_bounds Qpos) as [Q1 Q2].
  assert (Dq1 : 53 <= Zdigits2 q).
  { assert (52 < Zdigits2 q) by (apply pow2_lt_inv; [pose proof (Zdigits2_pos Qpos) |]; lia). lia. }
  assert (Dq2 : Zdigits2 q <= 54).
  { assert (Zdigits2 q - 1 < 54) by (apply pow2_lt_inv; lia). lia. }
  assert (P53 : (0 < prec64)) by reflexivity.
  destruct (@binary_round_aux_normal prec64 emax64 P53 false q (- s)
              (new_location n ((m * A) mod n)) Qpos)
    as (mf & ef & Hr & Hmf & Hef & Hval).
  { exact Dq1. }
  { binary64. lia. }
  change prec64 with 53 in Hmf, Hef, Hval, Hr. change emax64 with 1024 in Hr.
  change (53 - 1) with 52 in Hmf.
  assert (H2 : 2 ^ (Zdigits2 q - 53) <= 2 ^ 1) by (apply Z.pow_le_mono_r; lia).
  change (2 ^ 1) with 2 in H2.
  replace (ef - - s) with (ef + s) in Hval by lia.
  assert (Kpos : 0 < 2 ^ (ef + s)) by pow2_pos.
  assert (Hef53 : ef <= -53).
  { assert (2 ^ 52 * 2 ^ (ef + s) <= Zpos mf * 2 ^ (ef + s))
      by (apply Z.mul_le_mono_nonneg_r; lia).
    assert (L : 2 ^ (52 + (ef + s)) < 2 ^ s).
    { rewrite Z.pow_add_r by lia. fold A. lia. }
    apply pow2_lt_inv in L; lia. }
  exists mf, ef, s.
  split.
  { unfold py_int_truediv.
    destruct n as [|pn|pn]; try lia. destruct m as [|pm|pm]; try lia.
    change (xorb (Zpos pm <? 0) (Zpos pn <? 0)) with false.
    change (Z.abs (Zpos pm)) with (Zpos pm). change (Z.abs (Zpos pn)) with (Zpos pn).
    rewrite div_core_small by (fold d1 d2; lia).
    fold d1 d2 s A. fold q in Hr |- *.
    change prec64 with 53. change emax64 with 1024. rewrite Hr.
    replace (ef <=? 1024 - 53) with true by (symmetry; apply Z.leb_le; lia).
    reflexivity. }
  split; [exact Hmf |]. split; [exact Hef53 |].
  split; [lia |]. split; [lia |]. fold A.
  split; [lia |].
  assert (Zpos mf * 2 ^ (ef + s) * n <= (q + 2) * n)
    by (apply Z.mul_le_mono_nonneg_r; lia).
  lia.
Qed.

Lemma trunc_finite_bound (mp : positive) (ep m W : Z) :
  0 <= m -> 0 < W ->
  (0 <= ep -> Zpos mp * 2 ^ ep * W < (m + 1) * W) ->
  (ep < 0 -> Zpos mp * W < (m + 1) * W * 2 ^ (- ep)) ->
  0 <= trunc_finite false mp ep <= m.
Proof.
  intros Hm HW Hnn Hneg. unfold trunc_finite, cond_Zopp.
  destruct ep as [|p|p].
  - change (Z.shiftl (Zpos mp) 0) with (Zpos mp).
    specialize (Hnn ltac:(lia)). change (2 ^ 0) with 1 in Hnn. nia.
  - rewrite Z.shiftl_mul_pow2 by lia.
    specialize (Hnn ltac:(lia)).
    assert (0 < 2 ^ Zpos p) by pow2_pos. nia.
  - rewrite Z.shiftr_div_pow2 by lia.
    specialize (Hneg ltac:(lia)). change (- Zneg p) with (Zpos p) in Hneg.
    assert (P2 : 0 < 2 ^ Zpos p) by pow2_pos.
    split; [apply Z.div_pos; lia |].
    assert (Zpos mp / 2 ^ Zpos p < m + 1); [| lia].
    apply Z.div_lt_upper_bound; [exact P2 |]. nia.
Qed.

(** The kept count of [limit_points] never exceeds [max_points]. *)
Lemma sample_size_limit (N : nat) (m : Z) :
  0 < m < Z.of_nat N -> Z.of_nat N < 2 ^ 50 ->
  exists rate k,
    py_int_truediv m (Z.of_nat N) = Ok rate
    /\ geb rate one = false
    /\ sample_size N rate = Ok k
    /\ 0 <= k <= m.
Proof.
  intros Hmn HN.
  set (n := Z.of_nat N) in *.
  assert (Hn53 : n < 2 ^ 53) by lia.
  assert (Hn : 0 < n) by lia.
  destruct (@py_int_truediv_small m n Hmn ltac:(lia) Hn53)
    as (mf & ef & s & Hrate & Hmf & Hef & Hefs & Hs & A8 & Hval).
  destruct (@of_Z_exact n (conj Hn Hn53)) as (mn & Hof & Hmn_val & Hmn_b).
  set (d2 := Zdigits2 n) in *.
  pose proof (Zdigits2_pos Hn) as D2.
  assert (Hd2 : d2 <= 50).
  { pose proof (Zdigits2_bounds Hn) as [N1 N2]. fold d2 in N1.
    assert (d2 - 1 < 50) by (apply pow2_lt_inv; lia). lia. }
  set (k := 53 - d2) in *.
  set (K := 2 ^ k) in *. set (A := 2 ^ s) in *. set (B := 2 ^ (ef + s)) in *.
  assert (Kpos : 0 < K) by pow2_pos.
  assert (Apos : 0 < A) by pow2_pos.
  assert (Bpos : 0 < B) by pow2_pos.
  (* the product *)
  set (P := Zpos (mn * mf)).
  assert (HP : P = n * K * Zpos mf) by (unfold P; rewrite Pos2Z.inj_mul, Hmn_val; reflexivity).
  assert (Plo : 2 ^ 104 <= P).
  { unfold P. rewrite Pos2Z.inj_mul. change (2 ^ 104) with (2 ^ 52 * 2 ^ 52). nia. }
  assert (Phi : P < 2 ^ 106).
  { unfold P. rewrite Pos2Z.inj_mul. change (2 ^ 106) with (2 ^ 53 * 2 ^ 53). nia. }
  assert (Ppos : 0 < P) by lia.
  pose proof (Zdigits2_bounds Ppos) as [DP1 DP2].
  set (dP := Zdigits2 P) in *.
  assert (HdP : 105 <= dP <= 106).
  { assert (104 < dP) by (apply pow2_lt_inv; [pose proof (Zdigits2_pos Ppos) |]; lia).
    assert (dP - 1 < 106) by (apply pow2_lt_inv; lia). lia. }
  set (E := d2 - 53 + ef).
  assert (P53 : 0 < prec64) by reflexivity.
  destruct (@binary_round_aux_normal prec64 emax64 P53 false P E loc_Exact Ppos)
    as (mp & ep & Hr & _ & Hep & Hpv).
  { fold dP. change prec64 with 53. lia. }
  { fold dP. binary64. unfold E. lia. }
  fold dP in Hep, Hpv. change prec64 with 53 in Hep, Hpv, Hr.
  change emax64 with 1024 in Hr.
  replace (ep <=? 1024 - 53) with true in Hr
    by (symmetry; apply Z.leb_le; unfold E in Hep; lia).
  set (T := ep - E) in *.
  assert (HT : 0 <= T) by (unfold T; lia).
  assert (Tpos : 0 < 2 ^ T) by pow2_pos.
  (* 2^52 * 2^(dP-53) <= P *)
  assert (F2 : 2 ^ 52 * 2 ^ (dP - 53) <= P).
  { rewrite <- Z.pow_add_r by lia. replace (52 + (dP - 53)) with (dP - 1) by lia.
    exact DP1. }
  assert (G1 : 2 ^ 52 * (Zpos mp * 2 ^ T) <= (2 ^ 52 + 1) * P) by lia.
  assert (G2 : 2 ^ 52 * (Zpos mp * 2 ^ T) * B <= (2 ^ 52 + 1) * P * B)
    by (apply Z.mul_le_mono_nonneg_r; lia).
  assert (G3 : (2 ^ 52 + 1) * P * B = (2 ^ 52 + 1) * K * (Zpos mf * B * n))
    by (rewrite HP; ring).
  assert (G4 : (2 ^ 52 + 1) * K * (Zpos mf * B * n)
               <= (2 ^ 52 + 1) * K * (m * A + 2 * n))
    by (apply Z.mul_le_mono_nonneg_l; lia).
  assert (G5 : (2 ^ 52 + 1) * (m * A + 2 * n) < 2 ^ 52 * ((m + 1) * A)).
  { assert (m * A <= (2 ^ 50 - 1) * A) by (apply Z.mul_le_mono_nonneg_r; lia).
    lia. }
  assert (G6 : (2 ^ 52 + 1) * K * (m * A + 2 * n) < 2 ^ 52 * ((m + 1) * (K * A))).
  { assert (K * ((2 ^ 52 + 1) * (m * A + 2 * n)) < K * (2 ^ 52 * ((m + 1) * A)))
      by (apply Z.mul_lt_mono_pos_l; lia).
    lia. }
  assert (Star : Zpos mp * (2 ^ T * B) < (m + 1) * (K * A)) by lia.
  (* results *)
  exists (S754_finite false mf ef).
  exists (trunc_finite false mp ep).
  split; [exact Hrate |]. split.
  { unfold geb, SFleb, SFcompare, one.
    destruct (Z.compare_spec (-52) ef); first [reflexivity | exfalso; lia]. }
  split.
  { unfold sample_size, py_int_mul_float, py_float. fold n. rewrite Hof.
    simpl Py.bind. unfold mul64, SFmul. fold d2. fold E. fold P.
    change (xorb false false) with false.
    change prec64 with 53. change emax64 with 1024.
    rewrite Hr. reflexivity. }
  assert (Hneg : ep < 0) by (unfold E in Hep; lia).
  apply trunc_finite_bound with (W := K * A); try lia.
  intros _.
  assert (Eexp : 2 ^ T * B * 2 ^ (- ep) = K * A).
  { unfold B, K, A.
    rewrite <- (Z.pow_add_r 2 T (ef + s)), <- (Z.pow_add_r 2 k s),
      <- (Z.pow_add_r 2 (T + (ef + s)) (- ep)) by lia.
    f_equal. unfold T, E, k. lia. }
  assert (N2 : 0 < 2 ^ (- ep)) by pow2_pos.
  assert (H : Zpos mp * (2 ^ T * B) * 2 ^ (- ep) < (m + 1) * (K * A) * 2 ^ (- ep))
    by (apply Z.mul_lt_mono_pos_r; lia).
  replace (Zpos mp * (2 ^ T * B) * 2 ^ (- ep))
    with (Zpos mp * (2 ^ T * B * 2 ^ (- ep))) in H by ring.
  rewrite Eexp in H. exact H.
Qed.

End KeptCount.

(* ================================================================== *)
(** * The reducer                                                      *)
(* ================================================================== *)

Section ReducerFacts.

Variables P C : Type.
Implicit Types (points : ndarray P) (colors : option (ndarray C)).

(** The guard of line 28. *)
Lemma downsample_random_ge_one points colors rate g :
  geb rate one = true ->
  downsample_random points colors rate g = (Ok (points, colors), g).
Proof. intro H. unfold downsample_random. now rewrite H. Qed.

(** A sample of size zero is the empty cloud. *)
Lemma downsample_random_empty_sample points colors rate g :
  geb rate one = false ->
  sample_size (length points) rate = Ok 0%Z ->
  downsample_random points colors rate g
  = (Ok ([], option_map (fun _ => []) colors), g).
Proof.
  intros Hlt Hs. unfold downsample_random, downsample_indices.
  rewrite Hlt, Hs, random_choice_zero.
  destruct colors; reflexivity.
Qed.

(** A negative sample size is refused by the sampler. *)
Lemma downsample_random_negative_sample points colors rate g k :
  geb rate one = false ->
  sample_size (length points) rate = Ok k -> (k < 0)%Z ->
  downsample_random points colors rate g = (Raise ValueError, g).
Proof.
  intros Hlt Hs Hk. unfold downsample_random, downsample_indices.
  rewrite Hlt, Hs, random_choice_negative by exact Hk. reflexivity.
Qed.

End ReducerFacts.

(** C10. For every cloud and every sample rate [>= 1.0], [downsample_random]
    is the identity: positions and colours come back exactly as supplied
    (and the generator is not consumed); in particular at rate [1.0]. *)
Theorem downsample_random_identity :
  forall (P C : Type) (points : ndarray P) (colors : option (ndarray C))
         (sample_rate : float) (g : rng),
    geb sample_rate one = true ->
    downsample_random points colors sample_rate g = (Ok (points, colors), g).
Proof.
  intros P C points colors rate g H.
  now apply downsample_random_ge_one.
Qed.

Lemma downsample_random_identity_witness :
  geb one one = true /\
  downsample_random [Samples.pt 0 0 0; Samples.pt 1 2 3]
                    (Some [Samples.black; Samples.white]) one [5; 7]%nat
  = (Ok ([Samples.pt 0 0 0; Samples.pt 1 2 3],
         Some [Samples.black; Samples.white]), [5; 7]%nat).
Proof.
  split; [reflexivity|].
  apply (@downsample_random_identity row row); reflexivity.
Defined.

(** C3 (as stated, refuted). A rate of [2.0], outside (0,1], and a rate of
    [0.0] are both accepted: the first returns the cloud as it is, the
    second an empty cloud; nothing is raised. *)
Lemma downsample_random_accepts_out_of_range :
  downsample_random [Samples.pt 0 0 0; Samples.pt 1 2 3]
                    (Some [Samples.black; Samples.white]) Samples.two []
  = (Ok ([Samples.pt 0 0 0; Samples.pt 1 2 3],
         Some [Samples.black; Samples.white]), [])
  /\ downsample_random [Samples.pt 0 0 0; Samples.pt 1 2 3]
                       (Some [Samples.black; Samples.white]) zero []
     = (Ok ([], Some []), []).
Proof. split; vm_compute; reflexivity. Qed.

(** C3 (amended). [downsample_random] checks no range.  For every cloud:
    a rate [>= 1.0], hence every rate above 1, returns the cloud unchanged;
    below 1.0 the outcome is decided by [int(N * rate)] alone: when it is 0
    (a rate of 0, or a negative rate with [N * rate > -1]) the result is
    the empty cloud, and when it is negative the sampler raises
    [ValueError].  The input arrays are never modified. *)
Theorem downsample_random_out_of_range :
  forall (P C : Type) (points : ndarray P) (colors : option (ndarray C))
         (sample_rate : float) (g : rng),
    (geb sample_rate one = true ->
     downsample_random points colors sample_rate g = (Ok (points, colors), g))
    /\ (geb sample_rate one = false ->
        sample_size (length points) sample_rate = Ok 0%Z ->
        downsample_random points colors sample_rate g
        = (Ok ([], option_map (fun _ => []) colors), g))
    /\ (forall k, geb sample_rate one = false ->
        sample_size (length points) sample_rate = Ok k -> (k < 0)%Z ->
        downsample_random points colors sample_rate g = (Raise ValueError, g)).
Proof.
  intros P C points colors rate g. split; [| split].
  - apply downsample_random_ge_one.
  - apply downsample_random_empty_sample.
  - intros k. apply downsample_random_negative_sample.
Qed.

Lemma downsample_random_out_of_range_witness :
  downsample_random [1; 2; 3]%Z (Some [4; 5; 6]%Z) Samples.two [9]%nat
  = (Ok ([1; 2; 3]%Z, Some [4; 5; 6]%Z), [9]%nat)
  /\ downsample_random [1; 2; 3]%Z (Some [4; 5; 6]%Z) zero [9]%nat
     = (Ok ([], Some []), [9]%nat)
  /\ downsample_random [1; 2; 3]%Z (Some [4; 5; 6]%Z) (of_Z (-1)) [9]%nat
     = (Raise ValueError, [9]%nat).
Proof.
  split; [| split].
  - apply (proj1 (downsample_random_out_of_range
                    [1; 2; 3]%Z (Some [4; 5; 6]%Z) Samples.two [9]%nat)).
    reflexivity.
  - apply (proj1 (proj2 (downsample_random_out_of_range
                           [1; 2; 3]%Z (Some [4; 5; 6]%Z) zero [9]%nat)));
      reflexivity.
  - apply (proj2 (proj2 (downsample_random_out_of_range
                           [1; 2; 3]%Z (Some [4; 5; 6]%Z) (of_Z (-1)) [9]%nat))
             (-3)%Z); [reflexivity | reflexivity | lia].
Defined.

(* ================================================================== *)
(** * Point limiting                                                   *)
(* ================================================================== *)

Section ReducerTotal.

Variables P C : Type.

(** A sample size within [0, N] always yields a cloud of that size. *)
Lemma downsample_random_sample (points : ndarray P)
      (colors : option (ndarray C)) (rate : float) (g : rng) (k : Z) :
  geb rate one = false ->
  sample_size (length points) rate = Ok k ->
  (0 <= k <= Z.of_nat (length points))%Z ->
  (forall c, colors = Some c -> length c = length points) ->
  exists kept kept_colors g',
    downsample_random points colors rate g = (Ok (kept, kept_colors), g')
    /\ length kept = Z.to_nat k
    /\ (forall c, kept_colors = Some c -> length c = length kept).
Proof.
  intros Hlt Hs Hk Hc.
  destruct (@random_choice_ok (length points) k g Hk)
    as (idx & g' & Hrc & Hl & Hv & _).
  destruct (sort_valid Hv) as [Hsl Hsv].
  destruct (take_total points Hsv) as (kept & Hkept & Hkl).
  unfold downsample_random, downsample_indices.
  rewrite Hlt, Hs, Hrc, Hkept. simpl Py.bind.
  destruct colors as [c |].
  - assert (Hcv : Forall (fun i => i < length c) (sort idx))
      by (rewrite (Hc c eq_refl); exact Hsv).
    destruct (take_total c Hcv) as (kc & Hkc & Hkcl).
    rewrite Hkc. simpl Py.bind.
    exists kept, (Some kc), g'. split; [reflexivity |].
    split; [lia |]. intros c' E. injection E as <-. lia.
  - exists kept, None, g'. split; [reflexivity |].
    split; [lia | discriminate].
Qed.

End ReducerTotal.

(** [max_points = 0]: the rate is [0.0] and nothing is kept. *)
Lemma sample_size_zero_rate (N : nat) :
  (0 < Z.of_nat N < 2 ^ 53)%Z -> sample_size N (S754_zero false) = Ok 0%Z.
Proof.
  intro H. destruct (of_Z_exact H) as (mn & Hof & _).
  unfold sample_size, py_int_mul_float, py_float. rewrite Hof. reflexivity.
Qed.

(** C5. For every cloud of [N] points and every [max_points >= 0],
    [limit_points] returns a cloud of at most [max_points] points, its
    colours still of the same length; when [N <= max_points] it is the
    identity and the length is [N].  The cloud is one that can exist:
    colours, when present, have the length of the positions, and
    [N < 2^50], a size no array in memory reaches. *)
Theorem limit_points_bound :
  forall (P C : Type) (points : ndarray P) (colors : option (ndarray C))
         (max_points : Z) (g : rng),
    (0 <= max_points)%Z ->
    (Z.of_nat (length points) < 2 ^ 50)%Z ->
    (forall c, colors = Some c -> length c = length points) ->
    exists kept kept_colors g',
      limit_points points colors max_points g = (Ok (kept, kept_colors), g')
      /\ (Z.of_nat (length kept) <= max_points)%Z
      /\ (forall c, kept_colors = Some c -> length c = length kept)
      /\ ((Z.of_nat (length points) <= max_points)%Z ->
          kept = points /\ kept_colors = colors /\ g' = g
          /\ length kept = length points).
Proof.
  intros P C points colors m g Hm HN Hc.
  unfold limit_points.
  destruct (Z.leb_spec (Z.of_nat (length points)) m) as [Hle | Hgt].
  - exists points, colors, g. split; [reflexivity |].
    split; [exact Hle |]. split; [exact Hc |]. intros _. auto.
  - assert (Hsample : exists rate k,
               py_int_truediv m (Z.of_nat (length points)) = Ok rate
               /\ geb rate one = false
               /\ sample_size (length points) rate = Ok k
               /\ (0 <= k <= m)%Z).
    { destruct (Z.eq_dec m 0) as [-> | Hm0].
      - exists (S754_zero false), 0%Z. split.
        + unfold py_int_truediv.
          destruct (Z.of_nat (length points)) as [|p|p] eqn:E; try lia. reflexivity.
        + split; [reflexivity |]. split; [| lia].
          apply sample_size_zero_rate. lia.
      - apply sample_size_limit; lia. }
    destruct Hsample as (rate & k & Hrate & Hlt & Hs & Hk).
    rewrite Hrate.
    destruct (@downsample_random_sample P C points colors rate g k Hlt Hs)
      as (kept & kc & g' & Hd & Hkl & Hkc); [lia | exact Hc |].
    exists kept, kc, g'. split; [exact Hd |].
    split; [lia |]. split; [exact Hkc |]. lia.
Qed.

Lemma limit_points_bound_witness :
  exists kept kept_colors g',
    limit_points [Samples.pt 0 0 0; Samples.pt 1 0 0; Samples.pt 2 0 0]
                 (Some [Samples.black; Samples.gray; Samples.white]) 2 [4; 1]
    = (Ok (kept, kept_colors), g')
    /\ (Z.of_nat (length kept) <= 2)%Z.
Proof.
  destruct (@limit_points_bound row row
              [Samples.pt 0 0 0; Samples.pt 1 0 0; Samples.pt 2 0 0]
              (Some [Samples.black; Samples.gray; Samples.white]) 2%Z [4; 1])
    as (kept & kc & g' & H & Hlen & _).
  - lia.
  - simpl. lia.
  - intros c E. injection E as <-. reflexivity.
  - exists kept, kc, g'. split; assumption.
Defined.

(** The rate computed for 49 points and [max_points = 1]. *)
Lemma undershoot_rate : py_int_truediv 1 (Z.of_nat 49) = Ok (literal 1 49).
Proof. vm_compute; reflexivity. Qed.

(** C6 (as stated, refuted in its example). With three points and
    [max_points = 2] the rate [2/3] rounds so that [3 * rate] is exactly
    [2.0]: two points are kept, not one. *)
Lemma limit_points_three_two_keeps_two :
  (r <- py_int_truediv 2 3 ;; sample_size 3 r) = Ok 2%Z
  /\ fst (limit_points [Samples.pt 0 0 0; Samples.pt 1 0 0; Samples.pt 2 0 0]
                       (@None (ndarray row)) 2 [])
     = Ok ([Samples.pt 0 0 0; Samples.pt 1 0 0], None).
Proof. split; vm_compute; reflexivity. Qed.

(** C6 (amended). There are [N > max_points] for which [limit_points]
    returns strictly fewer than [max_points] points: the kept count is
    [int(N * (max_points / N))] in binary64, and for [N = 49],
    [max_points = 1] the product [49 * (1/49)] falls just below [1.0], so
    every cloud of 49 points is reduced to none. *)
Theorem limit_points_may_undershoot :
  forall (P C : Type) (points : ndarray P) (colors : option (ndarray C))
         (g : rng),
    length points = 49 ->
    exists kept kept_colors g',
      limit_points points colors 1 g = (Ok (kept, kept_colors), g')
      /\ (Z.of_nat (length kept) < 1 < Z.of_nat (length points))%Z.
Proof.
  intros P C points colors g Hlen.
  exists [], (option_map (fun _ => []) colors), g.
  split; [| rewrite Hlen; simpl; lia].
  unfold limit_points. rewrite Hlen.
  replace (Z.of_nat 49 <=? 1)%Z with false by reflexivity.
  rewrite undershoot_rate.
  apply downsample_random_empty_sample.
  - vm_compute; reflexivity.
  - rewrite Hlen. vm_compute; reflexivity.
Qed.

Lemma limit_points_may_undershoot_witness :
  exists kept kept_colors g',
    limit_points (repeat (Samples.pt 0 0 0) 49) (@None (ndarray row)) 1
                 [3; 1; 4]
    = (Ok (kept, kept_colors), g')
    /\ (Z.of_nat (length kept) < 1 < 49)%Z.
Proof.
  apply (@limit_points_may_undershoot row row
           (repeat (Samples.pt 0 0 0) 49) None [3; 1; 4] eq_refl).
Defined.

(* ================================================================== *)
(** * Index alignment                                                  *)
(* ================================================================== *)

(** Positions and colours of a downsampled cloud are gathered by one and
    the same index selection. *)
Lemma downsample_random_aligned (P C : Type) (points : ndarray P)
      (colors : ndarray C) (rate : float) (g g' : rng)
      (kept : ndarray P) (kept_colors : option (ndarray C)) :
  geb rate one = false ->
  downsample_random points (Some colors) rate g = (Ok (kept, kept_colors), g') ->
  exists indices kc,
    downsample_indices (length points) rate g = (Ok indices, g')
    /\ kept_colors = Some kc
    /\ take points indices = Ok kept
    /\ take colors indices = Ok kc.
Proof.
  intros Hlt. unfold downsample_random. rewrite Hlt.
  destruct (downsample_indices (length points) rate g) as [[idx | e] g1];
    [| discriminate].
  destruct (take points idx) as [kp | e] eqn:Ep; [| discriminate].
  destruct (take colors idx) as [kc | e] eqn:Ec; [| discriminate].
  simpl. intro H. injection H as <- <- <-.
  exists idx, kc. auto.
Qed.

(** C1. The route gathers intensity by a selection of its own.  On four
    points with intensities 10, 20, 30, 40 and [downsample = 0.5], the
    reducer keeps the points of indices 0 and 1 while the route draws the
    indices 3 and 2 for intensity: the kept points are coloured white and
    black from the intensities 40 and 30 of two dropped points, where
    their own intensities 10 and 20 give black and white. *)
Theorem get_point_data_intensity_misaligned :
  let las := Samples.las4 Samples.header_1_4 in
  downsample_indices 4 half [0; 0; 3; 2]%nat = (Ok [0; 1]%nat, [3; 2]%nat)
  /\ Routes.sample_intensity Samples.intensity4 2 (Some half) [3; 2]%nat
     = (Ok [of_Z 40; of_Z 30], [])
  /\ take Samples.intensity4 [0; 1]%nat = Ok [of_Z 10; of_Z 20]
  /\ generate_intensity_colors [of_Z 10; of_Z 20]
     = Ok [Samples.black; Samples.white]
  /\ Routes.get_point_data las (Some 50000%Z) "intensity" (Some half)
                           [0; 0; 3; 2]%nat
     = (Ok ([Samples.pt 0 0 0; Samples.pt 1 0 0],
            Some [Samples.white; Samples.black]), []).
Proof. repeat split. Qed.

(* ================================================================== *)
(** * Colour synthesis                                                 *)
(* ================================================================== *)

(** C4. On the empty cloud the intensity scheme returns an empty colour
    array, but the height scheme does not: [np.min] of the zero-size
    column of heights raises [ValueError], and the route turns it into an
    HTTP 500. *)
Theorem empty_cloud_colorization :
  generate_intensity_colors [] = Ok []
  /\ generate_height_colors [] = Raise ValueError
  /\ fst (Routes.get_point_data
            {| LiDARLoader.xyz := []; LiDARLoader.red := None;
               LiDARLoader.green := None; LiDARLoader.blue := None;
               LiDARLoader.intensity := None;
               LiDARLoader.header := Samples.header_1_4 |}
            (Some 50000%Z) "height" None [])
     = Raise (HTTPException 500).
Proof. split; [| split]; reflexivity. Qed.

(** Two members of a non-empty array are its minimum and its maximum. *)
Lemma amin_amax_members (a : ndarray float) :
  a <> [] ->
  exists lo hi, amin a = Ok lo /\ amax a = Ok hi /\ In lo a /\ In hi a.
Proof.
  intro Hne.
  destruct (amin_nonempty Hne) as [lo Hlo].
  destruct (amax_nonempty Hne) as [hi Hhi].
  exists lo, hi. repeat split; auto using amin_In, amax_In.
Qed.

(** C7. For every non-empty cloud whose points all share one Z value
    (any two heights compare equal, so none is NaN), the height scheme
    returns exactly [(0.5, 0.5, 0.5)] for every point: the call succeeds
    through the early return, before the quotient by [z_max - z_min] is
    formed. *)
Theorem generate_height_colors_flat :
  forall points : ndarray row,
    points <> [] ->
    (forall p q, In p points -> In q points -> eqb (col2 p) (col2 q) = true) ->
    generate_height_colors points
    = Ok (repeat (half, half, half) (length points)).
Proof.
  intros points Hne Hflat.
  assert (Hz : map col2 points <> [])
    by (destruct points; [congruence | discriminate]).
  destruct (amin_amax_members Hz) as (lo & hi & Hlo & Hhi & Ilo & Ihi).
  apply in_map_iff in Ilo as (p & <- & Ip).
  apply in_map_iff in Ihi as (q & <- & Iq).
  unfold generate_height_colors.
  rewrite Hlo, Hhi. simpl Py.bind.
  rewrite (Hflat q p Iq Ip).
  now rewrite gray_rows_half.
Qed.

Lemma generate_height_colors_flat_witness :
  generate_height_colors [Samples.pt 0 0 5; Samples.pt 1 2 5; Samples.pt 7 (-3) 5]
  = Ok [Samples.gray; Samples.gray; Samples.gray].
Proof.
  apply (generate_height_colors_flat
           (points := [Samples.pt 0 0 5; Samples.pt 1 2 5; Samples.pt 7 (-3) 5])).
  - discriminate.
  - intros p q [<- | [<- | [<- | []]]] [<- | [<- | [<- | []]]]; reflexivity.
Defined.

(* ================================================================== *)
(** * Bounding box                                                     *)
(* ================================================================== *)

(** [<=] is reflexive away from NaN. *)
Lemma leb_refl (x : float) : is_nan x = false -> leb x x = true.
Proof.
  unfold leb, SFleb, SFcompare.
  destruct x as [s | s | | s m e]; try destruct s; try reflexivity;
    try discriminate; intros _;
    rewrite Z.compare_refl, Pos.compare_cont_refl; reflexivity.
Qed.

(** One step of the two reductions keeps [lo <= hi] and introduces no NaN. *)
Lemma minimum_maximum_step (lo hi y : float) :
  is_nan lo = false -> is_nan hi = false -> is_nan y = false ->
  leb lo hi = true ->
  is_nan (minimum lo y) = false /\ is_nan (maximum hi y) = false
  /\ leb (minimum lo y) (maximum hi y) = true.
Proof.
  intros Nlo Nhi Ny Hle. unfold minimum, maximum, geb.
  rewrite Nlo, Nhi, !orb_false_r.
  fold (leb y hi).
  destruct (leb lo y) eqn:E1, (leb y hi) eqn:E2; auto using leb_refl.
Qed.

Lemma fold_minimum_le_maximum (xs : list float) :
  Forall (fun v => is_nan v = false) xs ->
  forall lo hi,
    is_nan lo = false -> is_nan hi = false -> leb lo hi = true ->
    leb (fold_left minimum xs lo) (fold_left maximum xs hi) = true.
Proof.
  induction 1 as [|y ys Hy _ IH]; intros lo hi Nlo Nhi Hle; simpl; [exact Hle|].
  destruct (minimum_maximum_step lo hi y Nlo Nhi Hy Hle) as (N1 & N2 & Hle').
  now apply IH.
Qed.

Lemma amin_le_amax (a : ndarray float) (lo hi : float) :
  Forall (fun v => is_nan v = false) a ->
  amin a = Ok lo -> amax a = Ok hi -> leb lo hi = true.
Proof.
  destruct a as [|x xs]; simpl; intros Hn Hlo Hhi; [discriminate|].
  injection Hlo as <-. injection Hhi as <-.
  inversion Hn; subst.
  apply fold_minimum_le_maximum; auto using leb_refl.
Qed.

(** C9 (as stated, refuted). One point whose x coordinate is NaN: the box
    is produced with NaN as both [min_x] and [max_x], and
    [min_x <= max_x] does not hold. *)
Lemma calculate_bounds_nan_unordered :
  exists b, calculate_bounds [(S754_nan, zero, zero)] = Ok b
            /\ leb (min_x b) (max_x b) = false.
Proof. eexists; split; reflexivity. Qed.

(** C9 (amended). For every cloud none of whose coordinates is NaN the
    bounds computation produces a box; on a non-empty cloud it satisfies
    [min <= max] on each of the three axes, and on the empty cloud all six
    fields are exactly [0.0]. *)
Theorem calculate_bounds_ordered :
  forall points : ndarray row,
    (forall p, In p points ->
               is_nan (col0 p) = false /\ is_nan (col1 p) = false
               /\ is_nan (col2 p) = false) ->
    exists b,
      calculate_bounds points = Ok b
      /\ (points = [] ->
          b = {| min_x := zero; max_x := zero; min_y := zero; max_y := zero;
                 min_z := zero; max_z := zero |})
      /\ (points <> [] ->
          leb (min_x b) (max_x b) = true /\ leb (min_y b) (max_y b) = true
          /\ leb (min_z b) (max_z b) = true).
Proof.
  intros points Hnan.
  destruct points as [|p ps].
  - eexists; split; [reflexivity | split; [reflexivity | congruence]].
  - set (points := p :: ps) in *.
    assert (Hcol : forall f : row -> float,
               (forall q, In q points -> is_nan (f q) = false) ->
               Forall (fun v => is_nan v = false) (map f points)).
    { intros f Hf. apply Forall_forall. intros v Hv.
      apply in_map_iff in Hv as (q & <- & Hq). now apply Hf. }
    eexists; split; [reflexivity | split; [discriminate | intros _]].
    simpl. split; [| split].
    + apply amin_le_amax with (a := map col0 points); try reflexivity.
      apply Hcol. intros q Hq. apply (Hnan q Hq).
    + apply amin_le_amax with (a := map col1 points); try reflexivity.
      apply Hcol. intros q Hq. apply (Hnan q Hq).
    + apply amin_le_amax with (a := map col2 points); try reflexivity.
      apply Hcol. intros q Hq. apply (Hnan q Hq).
Qed.

Lemma calculate_bounds_ordered_witness :
  exists b,
    calculate_bounds [Samples.pt 3 0 (-1); Samples.pt 1 5 2; Samples.pt 2 (-4) 0]
    = Ok b
    /\ leb (min_x b) (max_x b) = true /\ leb (min_y b) (max_y b) = true
    /\ leb (min_z b) (max_z b) = true.
Proof.
  destruct (@calculate_bounds_ordered
              [Samples.pt 3 0 (-1); Samples.pt 1 5 2; Samples.pt 2 (-4) 0])
    as (b & Hb & _ & Hord).
  - intros p [<- | [<- | [<- | []]]]; repeat split.
  - exists b. split; [exact Hb | apply Hord; discriminate].
Defined.

(* ================================================================== *)
(** * Metadata                                                         *)
(* ================================================================== *)

(** The bounds computation never fails. *)
Lemma calculate_bounds_total (points : ndarray row) :
  exists b, calculate_bounds points = Ok b.
Proof.
  destruct points as [|p ps]; eexists; reflexivity.
Qed.

Lemma resolve_las_version_unresolved (h : LasHeader) :
  (major_version h = None \/ minor_version h = None) -> version h = None ->
  resolve_las_version h = Raise ValueError.
Proof.
  intros Hcur Hleg. unfold resolve_las_version. rewrite Hleg.
  destruct Hcur as [-> | ->]; [| destruct (major_version h)]; reflexivity.
Qed.

Lemma resolve_las_version_resolved (h : LasHeader) :
  (exists ma mi, major_version h = Some ma /\ minor_version h = Some mi)
  \/ (exists v, version h = Some v) ->
  exists s, resolve_las_version h = Ok s.
Proof.
  unfold resolve_las_version.
  intros [(ma & mi & -> & ->) | (v & ->)]; [eexists; reflexivity |].
  destruct (major_version h), (minor_version h); eexists; reflexivity.
Qed.

Lemma resolve_point_data_format_unresolved (h : LasHeader) :
  point_format h = None -> point_data_format_id h = None ->
  resolve_point_data_format h = Raise ValueError.
Proof. intros H1 H2. unfold resolve_point_data_format. now rewrite H1, H2. Qed.

Lemma resolve_point_data_format_resolved (h : LasHeader) :
  (exists pf, point_format h = Some pf)
  \/ (exists f, point_data_format_id h = Some f) ->
  exists f, resolve_point_data_format h = Ok f.
Proof.
  unfold resolve_point_data_format.
  intros [(pf & ->) | (f & ->)]; [eexists; reflexivity |].
  destruct (point_format h); eexists; reflexivity.
Qed.

(** C2 (as stated, refuted). A stored file with four decoded records, so
    a determinable point count, whose header resolves through neither the
    current nor the legacy accessors: no record is produced, the call
    raises [ValueError]. *)
Lemma get_metadata_aborts_on_unresolved_header :
  Z.of_nat (length (xyz (Samples.las4 Samples.header_opaque))) = 4%Z
  /\ get_metadata Samples.disk "data/uploads/a.las"
                  (Samples.las4 Samples.header_opaque)
     = Raise ValueError.
Proof. split; reflexivity. Qed.

(** C2 (amended). For every stored file the resolve call produces a
    [PointCloudMetadata] record, carrying the number of decoded records,
    exactly when the format version resolves through the current accessor
    pair or the legacy one and the point-record format does likewise.
    When either resolves through neither accessor the call raises
    [ValueError]: the failure is fatal, no sentinel is substituted. *)
Theorem get_metadata_resolution :
  forall (fs : filesystem) (file_path : string) (las : LasData) (size : Z),
    fs file_path = Some size ->
    let h := header las in
    (((major_version h = None \/ minor_version h = None) /\ version h = None)
     \/ (point_format h = None /\ point_data_format_id h = None) ->
     get_metadata fs file_path las = Raise ValueError)
    /\ ((exists ma mi, major_version h = Some ma /\ minor_version h = Some mi)
        \/ (exists v, version h = Some v) ->
        (exists pf, point_format h = Some pf)
        \/ (exists f, point_data_format_id h = Some f) ->
        exists md, get_metadata fs file_path las = Ok md
                   /\ point_count md = Z.of_nat (length (xyz las))
                   /\ file_size md = size
                   /\ resolve_las_version h = Ok (las_version md)
                   /\ resolve_point_data_format h = Ok (point_data_format md)).
Proof.
  intros fs file_path las size Hfs h.
  destruct (calculate_bounds_total (extract_points las)) as [b Hb].
  unfold get_metadata, getsize. rewrite Hfs. simpl Py.bind. rewrite Hb.
  simpl Py.bind. fold h. split.
  - intros [[Hcur Hleg] | [Hpf Hid]].
    + now rewrite (resolve_las_version_unresolved h Hcur Hleg).
    + rewrite (resolve_point_data_format_unresolved h Hpf Hid).
      destruct (resolve_las_version h); reflexivity.
  - intros Hv Hf.
    destruct (resolve_las_version_resolved h Hv) as [s Hs].
    destruct (resolve_point_data_format_resolved h Hf) as [f Hf'].
    rewrite Hs, Hf'. simpl.
    eexists; split; [reflexivity |]. simpl. auto.
Qed.

Lemma get_metadata_resolution_witness :
  get_metadata Samples.disk "data/uploads/a.las"
               (Samples.las4 Samples.header_opaque) = Raise ValueError
  /\ exists md,
      get_metadata Samples.disk "data/uploads/a.las"
                   (Samples.las4 Samples.header_legacy) = Ok md
      /\ point_count md = 4%Z /\ las_version md = "1.2"%string.
Proof.
  split.
  - apply (proj1 (@get_metadata_resolution Samples.disk "data/uploads/a.las"
                    (Samples.las4 Samples.header_opaque) 1234%Z eq_refl)).
    left; split; [left |]; reflexivity.
  - destruct (proj2 (@get_metadata_resolution Samples.disk "data/uploads/a.las"
                       (Samples.las4 Samples.header_legacy) 1234%Z eq_refl))
      as (md & Hmd & Hcount & _ & Hver & _).
    + right; eexists; reflexivity.
    + right; eexists; reflexivity.
    + exists md. split; [exact Hmd | split; [exact Hcount |]].
      vm_compute in Hver. now injection Hver.
Defined.

(* ================================================================== *)
(** * Rescaling                                                        *)
(* ================================================================== *)

Lemma current_size_total (points : ndarray row) :
  points <> [] -> exists cur, current_size points = Ok cur.
Proof.
  destruct points as [|p ps]; [congruence | intros _].
  eexists; reflexivity.
Qed.

(** A float32 minus itself is [+0.0] unless it is infinite or NaN. *)
Lemma sub32_diag (c : float) :
  is_finite (narrow32 c) = true -> sub32 c c = zero.
Proof.
  unfold sub32. destruct (narrow32 c) as [s | s | | s m e];
    try discriminate; intros _.
  - destruct s; reflexivity.
  - unfold SFsub. rewrite Z.sub_diag. reflexivity.
Qed.

(** The minimum and the maximum of a constant column are its value. *)
Lemma amin_constant (a : ndarray float) (c : float) :
  a <> [] -> (forall v, In v a -> v = c) -> amin a = Ok c.
Proof.
  intros Hne Hc. destruct (amin_nonempty Hne) as [lo Hlo].
  rewrite Hlo. f_equal. apply Hc. now apply amin_In.
Qed.

Lemma amax_constant (a : ndarray float) (c : float) :
  a <> [] -> (forall v, In v a -> v = c) -> amax a = Ok c.
Proof.
  intros Hne Hc. destruct (amax_nonempty Hne) as [hi Hhi].
  rewrite Hhi. f_equal. apply Hc. now apply amax_In.
Qed.

Lemma current_size_coincident (points : ndarray row) (p : row) :
  points <> [] -> (forall q, In q points -> q = p) ->
  is_finite (narrow32 (col0 p)) = true ->
  is_finite (narrow32 (col1 p)) = true ->
  is_finite (narrow32 (col2 p)) = true ->
  current_size points = Ok zero.
Proof.
  intros Hne Hall F0 F1 F2.
  assert (Hcol : forall f : row -> float,
             map f points <> [] /\ forall v, In v (map f points) -> v = f p).
  { intro f. split.
    - destruct points; [congruence | discriminate].
    - intros v Hv. apply in_map_iff in Hv as (q & <- & Hq).
      now rewrite (Hall q Hq). }
  unfold current_size, amin_axis0, amax_axis0.
  rewrite !(amin_constant (proj1 (Hcol _)) (proj2 (Hcol _))).
  rewrite !(amax_constant (proj1 (Hcol _)) (proj2 (Hcol _))).
  simpl Py.bind. unfold col0 at 1 3, col1 at 1 3, col2 at 1 3. simpl fst; simpl snd.
  now rewrite !sub32_diag.
Qed.

(** C8. For every non-empty cloud the extent
    [max(max_coord - min_coord)] over the three axes is computed without
    error and decides the result.  When it is 0 the points are returned
    unchanged with scale factor [1.0]; this is the case whenever all
    points coincide at finite coordinates.  Otherwise every coordinate is
    multiplied by [target_size / current_size].  A quotient is formed only
    in the second case, where its divisor differs from 0. *)
Theorem normalize_scale_spec :
  forall (points : ndarray row) (target_size : float),
    points <> [] ->
    exists cur,
      current_size points = Ok cur
      /\ (eqb cur zero = true ->
          normalize_scale points target_size = Ok (points, one))
      /\ (eqb cur zero = false ->
          let scale_factor := div32 (astype_float32 target_size) cur in
          normalize_scale points target_size
          = Ok (map (fun p => (mul32 (col0 p) scale_factor,
                               mul32 (col1 p) scale_factor,
                               mul32 (col2 p) scale_factor)) points,
                scale_factor))
      /\ (forall p, (forall q, In q points -> q = p) ->
                    is_finite (narrow32 (col0 p)) = true ->
                    is_finite (narrow32 (col1 p)) = true ->
                    is_finite (narrow32 (col2 p)) = true ->
                    eqb cur zero = true).
Proof.
  intros points target Hne.
  destruct (current_size_total Hne) as [cur Hcur].
  exists cur. split; [exact Hcur |].
  unfold normalize_scale. rewrite Hcur. simpl Py.bind.
  split; [| split].
  - now intros ->.
  - now intros ->.
  - intros p Hall F0 F1 F2.
    rewrite (current_size_coincident Hne Hall F0 F1 F2) in Hcur.
    injection Hcur as <-. reflexivity.
Qed.

Lemma normalize_scale_spec_witness :
  normalize_scale [Samples.pt 1 2 3; Samples.pt 1 2 3] (of_Z 10)
  = Ok ([Samples.pt 1 2 3; Samples.pt 1 2 3], one)
  /\ normalize_scale [Samples.pt 0 0 0; Samples.pt 1 2 4] (of_Z 10)
     = Ok ([Samples.pt 0 0 0; (literal 5 2, of_Z 5, of_Z 10)], literal 5 2).
Proof.
  split.
  - destruct (@normalize_scale_spec [Samples.pt 1 2 3; Samples.pt 1 2 3]
                                    (of_Z 10)) as (cur & _ & Hzero & _ & Hco);
      [discriminate |].
    apply Hzero. apply (Hco (Samples.pt 1 2 3)); try reflexivity.
    intros q [<- | [<- | []]]; reflexivity.
  - destruct (@normalize_scale_spec [Samples.pt 0 0 0; Samples.pt 1 2 4]
                                    (of_Z 10)) as (cur & Hcur & _ & Hscale & _);
      [discriminate |].
    vm_compute in Hcur. injection Hcur as <-.
    rewrite Hscale by reflexivity. vm_compute. reflexivity.
Defined.


(* ================================================================== *)
(** * Two-sided rounding bounds                                        *)
(* ================================================================== *)

Section RoundingBounds.

Local Open Scope Z_scope.

Ltac pow2_pos := apply Z.pow_pos_nonneg; lia.

Section AnyFormat.

Variables prec emax : Z.
Hypothesis prec_pos : 0 < prec.

(** In the normal range the rounded value is within one unit in the last
    place of the value rounded, on both sides. *)
Lemma binary_round_aux_normal_lower (s : bool) (m e : Z) (l : location)
      (mf : positive) (ef : Z) :
  0 < m ->
  prec <= Zdigits2 m ->
  emin prec emax <= e + Zdigits2 m - prec ->
  binary_round_aux prec emax s m e l = S754_finite s mf ef ->
  e + (Zdigits2 m - prec) <= ef
  /\ m < Zpos mf * 2 ^ (ef - e) + 2 ^ (Zdigits2 m - prec).
Proof.
  intros Hm Hd Hemin.
  set (d := Zdigits2 m) in *.
  set (n := d - prec).
  assert (Hn : 0 <= n) by (unfold n; lia).
  pose proof (@Zdigits2_bounds m Hm) as [Dlo Dhi]. fold d in Dlo, Dhi.
  assert (P2n : 0 < 2 ^ n) by pow2_pos.
  pose proof (@shr_fexp_m prec emax m e l (Z.lt_le_incl _ _ Hm)) as [Hm1 He1].
  fold d in Hm1, He1.
  rewrite (@fexp_normal prec emax (d + e)) in Hm1, He1 by lia.
  replace (Z.max 0 (d + e - prec - e)) with n in Hm1, He1 by (unfold n; lia).
  unfold binary_round_aux.
  destruct (shr_fexp prec emax m e l) as [mrs1 e1].
  simpl fst in Hm1; simpl snd in He1.
  set (m1 := shr_m mrs1) in *.
  assert (Hm1lo : 2 ^ (prec - 1) <= m1).
  { rewrite Hm1. apply Z.div_le_lower_bound; [exact P2n |].
    rewrite <- Z.pow_add_r by lia.
    replace (n + (prec - 1)) with (d - 1) by (unfold n; lia). exact Dlo. }
  assert (Hm1hi : m1 < 2 ^ prec).
  { rewrite Hm1. apply Z.div_lt_upper_bound; [exact P2n |].
    rewrite <- Z.pow_add_r by lia.
    replace (n + prec) with d by (unfold n; lia). exact Dhi. }
  assert (Hm1n : m < m1 * 2 ^ n + 2 ^ n).
  { pose proof (Z.div_mod m (2 ^ n) ltac:(lia)) as Hdm.
    pose proof (Z.mod_pos_bound m (2 ^ n) P2n) as Hmod.
    rewrite <- Hm1 in Hdm. nia. }
  pose proof (round_nearest_even_bounds m1 (loc_of_shr_record mrs1)) as [Q1lo Q1hi].
  set (q1 := round_nearest_even m1 (loc_of_shr_record mrs1)) in *.
  assert (P2p : 0 < 2 ^ (prec - 1)) by pow2_pos.
  assert (Epow : 2 ^ prec = 2 * 2 ^ (prec - 1)).
  { replace prec with (1 + (prec - 1)) at 1 by lia.
    rewrite Z.pow_add_r by lia. reflexivity. }
  assert (Hq1 : 0 <= q1) by lia.
  pose proof (@shr_fexp_m prec emax q1 e1 loc_Exact Hq1) as [Hm2 He2].
  destruct (Z.eq_dec q1 (2 ^ prec)) as [Eq | Nq].
  - assert (Dq : Zdigits2 q1 = prec + 1).
    { apply Zdigits2_unique; [| lia].
      replace (prec + 1 - 1) with prec by lia.
      rewrite Eq. split; [lia |].
      replace (prec + 1) with (1 + prec) by lia.
      rewrite Z.pow_add_r by lia. change (2 ^ 1) with 2. lia. }
    rewrite Dq in Hm2, He2.
    rewrite (@fexp_normal prec emax (prec + 1 + e1)) in Hm2, He2 by lia.
    replace (Z.max 0 (prec + 1 + e1 - prec - e1)) with 1 in Hm2, He2 by lia.
    destruct (shr_fexp prec emax q1 e1 loc_Exact) as [mrs2 e2].
    simpl fst in Hm2; simpl snd in He2.
    assert (Hmf : shr_m mrs2 = 2 ^ (prec - 1)).
    { rewrite Hm2, Eq, Epow. change (2 ^ 1) with 2.
      rewrite Z.mul_comm. apply Z.div_mul. lia. }
    rewrite Hmf.
    destruct (2 ^ (prec - 1)) as [|mf'|mf'] eqn:Emf; try lia.
    destruct (e2 <=? emax - prec); [| discriminate].
    intro H. injection H as <- <-.
    split; [lia |].
    rewrite He2, He1.
    replace (e + n + 1 - e) with (n + 1) by lia.
    rewrite Z.pow_add_r by lia. change (2 ^ 1) with 2.
    fold n. nia.
  - assert (Dq : Zdigits2 q1 = prec) by (apply Zdigits2_unique; lia).
    rewrite Dq in Hm2, He2.
    rewrite (@fexp_normal prec emax (prec + e1)) in Hm2, He2 by lia.
    replace (Z.max 0 (prec + e1 - prec - e1)) with 0 in Hm2, He2 by lia.
    destruct (shr_fexp prec emax q1 e1 loc_Exact) as [mrs2 e2].
    simpl fst in Hm2; simpl snd in He2.
    change (2 ^ 0) with 1 in Hm2. rewrite Z.div_1_r in Hm2.
    rewrite Hm2.
    destruct q1 as [|mf'|mf'] eqn:Eq1; try lia.
    destruct (e2 <=? emax - prec); [| discriminate].
    intro H. injection H as <- <-.
    split; [lia |].
    rewrite He2, He1.
    replace (e + n + 0 - e) with n by lia.
    fold n. nia.
Qed.

(** An exact product or sum, rounded: whatever the range, the result does
    not exceed the value by more than the weight of the bits dropped. *)
Lemma binary_round_aux_exact_upper (s : bool) (m e : Z) :
  0 < m ->
  let n := Z.max 0 (fexp prec emax (Zdigits2 m + e) - e) in
  exists mz ez,
    binary_round_aux prec emax s m e loc_Exact
    = match mz with
      | Z0 => S754_zero s
      | Zpos p => if ez <=? emax - prec then S754_finite s p ez
                  else S754_infinity s
      | Zneg _ => S754_nan
      end
    /\ 0 <= mz /\ e <= ez
    /\ mz * 2 ^ (ez - e) <= m + (if n =? 0 then 0 else 2 ^ n).
Proof.
  intros Hm n.
  assert (Hn : 0 <= n) by (unfold n; lia).
  assert (P2n : 0 < 2 ^ n) by pow2_pos.
  pose proof (@shr_fexp_m prec emax m e loc_Exact (Z.lt_le_incl _ _ Hm))
    as [Hm1 He1].
  fold n in Hm1, He1.
  assert (Hloc : n = 0 ->
                 loc_of_shr_record (fst (shr_fexp prec emax m e loc_Exact))
                 = loc_Exact).
  { intro Hn0. rewrite shr_fexp_noshift by (unfold n in Hn0; lia). reflexivity. }
  unfold binary_round_aux.
  destruct (shr_fexp prec emax m e loc_Exact) as [mrs1 e1].
  simpl fst in Hm1, Hloc; simpl snd in He1.
  set (m1 := shr_m mrs1) in *.
  assert (Hm1pos : 0 <= m1) by (rewrite Hm1; apply Z.div_pos; lia).
  assert (Hm1n : m1 * 2 ^ n <= m).
  { rewrite Hm1, Z.mul_comm. apply Z.mul_div_le. exact P2n. }
  pose proof (round_nearest_even_bounds m1 (loc_of_shr_record mrs1)) as [Q1lo Q1hi].
  assert (Q1exact : n = 0 -> round_nearest_even m1 (loc_of_shr_record mrs1) = m1).
  { intro Hn0. rewrite (Hloc Hn0). reflexivity. }
  set (q1 := round_nearest_even m1 (loc_of_shr_record mrs1)) in *.
  assert (Hq1 : 0 <= q1) by lia.
  pose proof (@shr_fexp_m prec emax q1 e1 loc_Exact Hq1) as [Hm2 He2].
  set (n2 := Z.max 0 (fexp prec emax (Zdigits2 q1 + e1) - e1)) in *.
  assert (Hn2 : 0 <= n2) by (unfold n2; lia).
  assert (P2n2 : 0 < 2 ^ n2) by pow2_pos.
  destruct (shr_fexp prec emax q1 e1 loc_Exact) as [mrs2 e2].
  simpl fst in Hm2; simpl snd in He2.
  exists (shr_m mrs2), e2.
  split; [reflexivity |].
  assert (Hmz : 0 <= shr_m mrs2) by (rewrite Hm2; apply Z.div_pos; lia).
  split; [exact Hmz |]. split; [lia |].
  assert (Hfl : shr_m mrs2 * 2 ^ n2 <= q1).
  { rewrite Hm2, Z.mul_comm. apply Z.mul_div_le. exact P2n2. }
  rewrite He2, He1.
  replace (e + n + n2 - e) with (n2 + n) by lia.
  rewrite Z.pow_add_r by lia.
  destruct (Z.eqb_spec n 0) as [Hn0 | Hn0].
  - rewrite Hn0 in *. change (2 ^ 0) with 1 in *.
    specialize (Q1exact eq_refl). nia.
  - nia.
Qed.

End AnyFormat.

End RoundingBounds.


(* ================================================================== *)
(** * The kept count from below                                        *)
(* ================================================================== *)

Section KeptCountLower.

Local Open Scope Z_scope.

Ltac pow2_pos := apply Z.pow_pos_nonneg; lia.

Ltac binary64 :=
  rewrite ?emin64; change emax64 with 1024; change prec64 with 53.

(** The rounded rate is not more than two units of its last place below
    [max_points / N]. *)
Lemma py_int_truediv_small_lower (m n : Z) (mf : positive) (ef : Z) :
  0 < m < n -> m < 2 ^ 50 -> n < 2 ^ 53 ->
  py_int_truediv m n = Ok (S754_finite false mf ef) ->
  let s := 53 + Zdigits2 n - Zdigits2 m in
  0 <= ef + s /\ 0 <= s /\ 8 * n <= 2 ^ s
  /\ m * 2 ^ s < Zpos mf * 2 ^ (ef + s) * n + 2 * n.
Proof.
  intros [Hm Hmn] Hm50 Hn53 Hdiv s.
  assert (Hn : 0 < n) by lia.
  pose proof (Zdigits2_bounds Hm) as [M1 M2].
  pose proof (Zdigits2_bounds Hn) as [N1 N2].
  pose proof (Zdigits2_pos Hm) as D1.
  pose proof (Zdigits2_pos Hn) as D2.
  set (d1 := Zdigits2 m) in *. set (d2 := Zdigits2 n) in *.
  assert (Hd12 : d1 <= d2).
  { assert (d1 - 1 < d2) by (apply pow2_lt_inv; lia). lia. }
  assert (Hd1 : d1 <= 50).
  { assert (d1 - 1 < 50) by (apply pow2_lt_inv; lia). lia. }
  assert (Hd2 : d2 <= 53).
  { assert (d2 - 1 < 53) by (apply pow2_lt_inv; lia). lia. }
  assert (Hs : 3 + d2 <= s <= 106) by (unfold s; lia).
  set (A := 2 ^ s).
  assert (EA : 2 ^ (d1 - 1) * A = 2 ^ 52 * 2 ^ d2).
  { unfold A. rewrite <- !Z.pow_add_r by lia. f_equal. unfold s. lia. }
  assert (EA' : 2 ^ d1 * A = 2 ^ 54 * 2 ^ (d2 - 1)).
  { unfold A. rewrite <- !Z.pow_add_r by lia. f_equal. unfold s. lia. }
  assert (A8 : 8 * 2 ^ d2 <= A).
  { unfold A. change 8 with (2 ^ 3). rewrite <- Z.pow_add_r by lia.
    apply Z.pow_le_mono_r; lia. }
  assert (Apos : 0 < A) by pow2_pos.
  set (q := m * A / n).
  assert (Qlo : 2 ^ 52 <= q).
  { apply Z.div_le_lower_bound; [exact Hn |].
    assert (n * 2 ^ 52 <= 2 ^ 52 * 2 ^ d2) by nia.
    assert (2 ^ (d1 - 1) * A <= m * A) by (apply Z.mul_le_mono_nonneg_r; lia).
    lia. }
  assert (Qup : m * A < (q + 1) * n).
  { pose proof (Z.div_mod (m * A) n ltac:(lia)) as Hdm.
    pose proof (Z.mod_pos_bound (m * A) n Hn) as Hmod.
    fold q in Hdm. replace ((q + 1) * n) with (n * q + n) by ring. lia. }
  assert (Q54 : q < 2 ^ 54).
  { assert (A8' : 2 ^ d1 * A <= 2 ^ 54 * n).
    { rewrite EA'. apply Z.mul_le_mono_nonneg_l; lia. }
    assert (m * A < 2 ^ d1 * A) by (apply Z.mul_lt_mono_pos_r; lia).
    apply Z.div_lt_upper_bound; lia. }
  assert (Qpos : 0 < q) by lia.
  pose proof (Zdigits2_bounds Qpos) as [Q1 Q2].
  assert (Dq1 : 53 <= Zdigits2 q).
  { assert (52 < Zdigits2 q)
      by (apply pow2_lt_inv; [pose proof (Zdigits2_pos Qpos) |]; lia). lia. }
  assert (Dq2 : Zdigits2 q <= 54).
  { assert (Zdigits2 q - 1 < 54) by (apply pow2_lt_inv; lia). lia. }
  assert (Hround : binary_round_aux prec64 emax64 false q (- s)
                     (new_location n ((m * A) mod n))
                   = S754_finite false mf ef).
  { unfold py_int_truediv in Hdiv.
    destruct n as [|pn|pn]; try lia. destruct m as [|pm|pm]; try lia.
    change (xorb (Zpos pm <? 0) (Zpos pn <? 0)) with false in Hdiv.
    change (Z.abs (Zpos pm)) with (Zpos pm) in Hdiv.
    change (Z.abs (Zpos pn)) with (Zpos pn) in Hdiv.
    rewrite div_core_small in Hdiv by (fold d1 d2; lia).
    fold d1 d2 s A in Hdiv. fold q in Hdiv.
    destruct (binary_round_aux prec64 emax64 false q (- s)
                (new_location (Zpos pn) ((Zpos pm * A) mod Zpos pn)));
      try discriminate; injection Hdiv as -> -> ->; reflexivity. }
  assert (P53 : 0 < prec64) by reflexivity.
  destruct (@binary_round_aux_normal_lower prec64 emax64 P53 false q (- s)
              (new_location n ((m * A) mod n)) mf ef Qpos)
    as [Hef Hlow]; [exact Dq1 | binary64; lia | exact Hround |].
  change prec64 with 53 in Hef, Hlow.
  replace (ef - - s) with (ef + s) in Hlow by lia.
  assert (H2 : 2 ^ (Zdigits2 q - 53) <= 2 ^ 1) by (apply Z.pow_le_mono_r; lia).
  change (2 ^ 1) with 2 in H2.
  split; [lia |]. split; [lia |]. fold A.
  split; [lia |].
  assert ((q + 1) * n <= (Zpos mf * 2 ^ (ef + s) + 2) * n)
    by (apply Z.mul_le_mono_nonneg_r; lia).
  lia.
Qed.

Lemma trunc_finite_lower (mp : positive) (ep m W : Z) :
  0 < W -> ep < 0 ->
  m * W * 2 ^ (- ep) <= Zpos mp * W ->
  m <= trunc_finite false mp ep.
Proof.
  intros HW Hneg H. unfold trunc_finite, cond_Zopp.
  destruct ep as [|p|p]; try lia.
  rewrite Z.shiftr_div_pow2 by lia.
  change (- Zneg p) with (Zpos p) in H.
  assert (P2 : 0 < 2 ^ Zpos p) by pow2_pos.
  apply Z.div_le_lower_bound; [exact P2 |]. nia.
Qed.

(** When [limit_points] reduces, at most one point is lost to rounding. *)
Lemma sample_size_limit_lower (N : nat) (m k : Z) (rate : float) :
  0 < m < Z.of_nat N -> Z.of_nat N < 2 ^ 50 ->
  py_int_truediv m (Z.of_nat N) = Ok rate ->
  sample_size N rate = Ok k ->
  m - 1 <= k.
Proof.
  intros Hmn HN Hrate Hk.
  set (n := Z.of_nat N) in *.
  assert (Hn53 : n < 2 ^ 53) by lia.
  assert (Hn : 0 < n) by lia.
  destruct (@py_int_truediv_small m n Hmn ltac:(lia) Hn53)
    as (mf & ef & s0 & Hrate0 & Hmf & Hef & _).
  rewrite Hrate0 in Hrate. injection Hrate as <-.
  destruct (@py_int_truediv_small_lower m n mf ef Hmn ltac:(lia) Hn53 Hrate0)
    as (Hefs & Hs & A8 & Hval).
  set (s := 53 + Zdigits2 n - Zdigits2 m) in *.
  destruct (@of_Z_exact n (conj Hn Hn53)) as (mn & Hof & Hmn_val & Hmn_b).
  set (d2 := Zdigits2 n) in *.
  pose proof (Zdigits2_pos Hn) as D2. fold d2 in D2.
  pose proof (Zdigits2_pos (proj1 Hmn)) as D1.
  assert (Hd2 : d2 <= 50).
  { pose proof (Zdigits2_bounds Hn) as [N1 N2]. fold d2 in N1.
    assert (d2 - 1 < 50) by (apply pow2_lt_inv; lia). lia. }
  assert (Hs106 : s <= 106) by (unfold s; lia).
  set (k0 := 53 - d2) in *.
  set (K := 2 ^ k0) in *. set (A := 2 ^ s) in *. set (B := 2 ^ (ef + s)) in *.
  assert (Kpos : 0 < K) by pow2_pos.
  assert (Apos : 0 < A) by pow2_pos.
  assert (Bpos : 0 < B) by pow2_pos.
  set (P := Zpos (mn * mf)).
  assert (HP : P = n * K * Zpos mf)
    by (unfold P; rewrite Pos2Z.inj_mul, Hmn_val; reflexivity).
  assert (Plo : 2 ^ 104 <= P).
  { unfold P. rewrite Pos2Z.inj_mul. change (2 ^ 104) with (2 ^ 52 * 2 ^ 52). nia. }
  assert (Phi : P < 2 ^ 106).
  { unfold P. rewrite Pos2Z.inj_mul. change (2 ^ 106) with (2 ^ 53 * 2 ^ 53). nia. }
  assert (Ppos : 0 < P) by lia.
  pose proof (Zdigits2_bounds Ppos) as [DP1 DP2].
  set (dP := Zdigits2 P) in *.
  assert (HdP : 105 <= dP <= 106).
  { assert (104 < dP)
      by (apply pow2_lt_inv; [pose proof (Zdigits2_pos Ppos) |]; lia).
    assert (dP - 1 < 106) by (apply pow2_lt_inv; lia). lia. }
  set (E := d2 - 53 + ef).
  assert (P53 : 0 < prec64) by reflexivity.
  destruct (@binary_round_aux_normal prec64 emax64 P53 false P E loc_Exact Ppos)
    as (mp & ep & Hr & _ & Hep & _).
  { fold dP. change prec64 with 53. lia. }
  { fold dP. binary64. unfold E. lia. }
  fold dP in Hep. change prec64 with 53 in Hep.
  replace (ep <=? emax64 - prec64) with true in Hr
    by (symmetry; apply Z.leb_le; binary64; unfold E in Hep; lia).
  destruct (@binary_round_aux_normal_lower prec64 emax64 P53 false P E loc_Exact
              mp ep Ppos) as [_ Hlow]; [| | exact Hr |].
  { fold dP. change prec64 with 53. lia. }
  { fold dP. binary64. unfold E. lia. }
  fold dP in Hlow. change prec64 with 53 in Hlow.
  assert (Hkval : k = trunc_finite false mp ep).
  { unfold sample_size, py_int_mul_float, py_float in Hk. fold n in Hk.
    rewrite Hof in Hk. simpl Py.bind in Hk. unfold mul64, SFmul in Hk.
    fold d2 in Hk. fold E in Hk. fold P in Hk.
    change (xorb false false) with false in Hk.
    rewrite Hr in Hk. cbn [Py.bind py_int] in Hk.
    injection Hk as <-. reflexivity. }
  set (T := ep - E) in *.
  assert (HT : 0 <= T) by (unfold T; lia).
  assert (Tpos : 0 < 2 ^ T) by pow2_pos.
  assert (Hneg : ep < 0) by (unfold E in Hep; lia).
  assert (F2 : 2 ^ 52 * 2 ^ (dP - 53) <= P).
  { rewrite <- Z.pow_add_r by lia. replace (52 + (dP - 53)) with (dP - 1) by lia.
    exact DP1. }
  (* (2^52 - 1) P < 2^52 mp 2^T *)
  assert (G1 : (2 ^ 52 - 1) * P < 2 ^ 52 * (Zpos mp * 2 ^ T)) by lia.
  assert (G2 : (2 ^ 52 - 1) * P * B < 2 ^ 52 * (Zpos mp * 2 ^ T) * B)
    by (apply Z.mul_lt_mono_pos_r; lia).
  assert (G3 : (2 ^ 52 - 1) * P * B = (2 ^ 52 - 1) * K * (Zpos mf * B * n))
    by (rewrite HP; ring).
  assert (G4 : (2 ^ 52 - 1) * K * (m * A - 2 * n)
               <= (2 ^ 52 - 1) * K * (Zpos mf * B * n))
    by (apply Z.mul_le_mono_nonneg_l; lia).
  assert (G5 : 2 ^ 52 * ((m - 1) * A) <= (2 ^ 52 - 1) * (m * A - 2 * n)).
  { assert (m * A <= (2 ^ 50 - 1) * A) by (apply Z.mul_le_mono_nonneg_r; lia).
    lia. }
  assert (G6 : 2 ^ 52 * ((m - 1) * (K * A))
               <= (2 ^ 52 - 1) * K * (m * A - 2 * n)).
  { assert (K * (2 ^ 52 * ((m - 1) * A))
            <= K * ((2 ^ 52 - 1) * (m * A - 2 * n)))
      by (apply Z.mul_le_mono_nonneg_l; lia).
    lia. }
  assert (Star : (m - 1) * (K * A) < Zpos mp * (2 ^ T * B)) by lia.
  rewrite Hkval.
  apply trunc_finite_lower with (W := K * A); try lia.
  assert (Eexp : 2 ^ T * B * 2 ^ (- ep) = K * A).
  { unfold B, K, A.
    rewrite <- (Z.pow_add_r 2 T (ef + s)), <- (Z.pow_add_r 2 k0 s),
      <- (Z.pow_add_r 2 (T + (ef + s)) (- ep)) by lia.
    f_equal. unfold T, E, k0. lia. }
  assert (N2 : 0 < 2 ^ (- ep)) by pow2_pos.
  assert (L1 : 2 ^ 0 <= 2 ^ (- ep)) by (apply Z.pow_le_mono_r; lia).
  change (2 ^ 0) with 1 in L1.
  (* (m-1) K A 2^(-ep) <= mp K A  <=>  (m-1) 2^T B (2^(-ep))^2 <= mp 2^T B 2^(-ep) *)
  assert (Star' : (m - 1) * (K * A) * 2 ^ (- ep)
                  < Zpos mp * (2 ^ T * B) * 2 ^ (- ep))
    by (apply Z.mul_lt_mono_pos_r; lia).
  replace (Zpos mp * (2 ^ T * B) * 2 ^ (- ep))
    with (Zpos mp * (2 ^ T * B * 2 ^ (- ep))) in Star' by ring.
  rewrite Eexp in Star'. lia.
Qed.

End KeptCountLower.


(* ================================================================== *)
(** * The sample size of a fraction                                    *)
(* ================================================================== *)

Section SampleSize.

Local Open Scope Z_scope.

Ltac pow2_pos := apply Z.pow_pos_nonneg; lia.

Ltac binary64 :=
  rewrite ?emin64; change emax64 with 1024; change prec64 with 53.

(** A well-formed positive binary64 below [1.0] is a fraction
    [m / 2^(-e)] with [m < 2^(-e)]. *)
Lemma below_one_fraction (m : positive) (e : Z) :
  valid_binary prec64 emax64 (S754_finite false m e) = true ->
  geb (S754_finite false m e) one = false ->
  e < 0 /\ Zpos m < 2 ^ (- e).
Proof.
  intros Hv Hlt.
  unfold valid_binary, bounded, canonical_mantissa in Hv.
  apply andb_prop in Hv as [Hc _]. apply Z.eqb_eq in Hc.
  pose proof (digits2_pos_bounds m) as [_ Dhi].
  set (d := Zpos (digits2_pos m)) in *.
  assert (Hd : d <= 53) by (unfold fexp in Hc; revert Hc; binary64; lia).
  assert (Hm53 : Zpos m < 2 ^ 53).
  { assert (2 ^ d <= 2 ^ 53) by (apply Z.pow_le_mono_r; lia). lia. }
  unfold geb, SFleb, SFcompare, one in Hlt.
  destruct (Z.compare_spec (-52) e) as [He | He | He]; try discriminate.
  - subst e. split; [lia |].
    change (PosDef.Pos.compare_cont Eq 4503599627370496 m)
      with (Pos.compare 4503599627370496 m) in Hlt.
    destruct (Pos.compare_spec 4503599627370496 m) as [H | H | H];
      try discriminate.
    change (2 ^ (- -52)) with (Zpos 4503599627370496).
    apply Pos2Z.pos_lt_pos. exact H.
  - split; [lia |].
    assert (2 ^ 53 <= 2 ^ (- e)) by (apply Z.pow_le_mono_r; lia). lia.
Qed.

(** [int(N * rate)] for a fraction [rate] of [N] points lies in [0, N]. *)
Lemma sample_size_fraction (N : nat) (mf : positive) (ef : Z) :
  0 < Z.of_nat N < 2 ^ 50 ->
  ef < 0 -> Zpos mf < 2 ^ (- ef) ->
  exists k, sample_size N (S754_finite false mf ef) = Ok k
            /\ 0 <= k <= Z.of_nat N.
Proof.
  intros [Hn HN] Hef Hmf.
  set (n := Z.of_nat N) in *.
  assert (Hn53 : n < 2 ^ 53) by lia.
  destruct (@of_Z_exact n (conj Hn Hn53)) as (mn & Hof & Hmn_val & Hmn_b).
  set (d2 := Zdigits2 n) in *.
  pose proof (Zdigits2_pos Hn) as D2. fold d2 in D2.
  assert (Hd2 : d2 <= 50).
  { pose proof (Zdigits2_bounds Hn) as [N1 N2]. fold d2 in N1.
    assert (d2 - 1 < 50) by (apply pow2_lt_inv; lia). lia. }
  set (k0 := 53 - d2) in *. set (K := 2 ^ k0) in *.
  assert (Kpos : 0 < K) by pow2_pos.
  set (E := d2 - 53 + ef).
  assert (HE : E < 0) by (unfold E; lia).
  set (W := 2 ^ (- E)).
  assert (Wpos : 0 < W) by pow2_pos.
  assert (EW : W = K * 2 ^ (- ef)).
  { unfold W, K. rewrite <- Z.pow_add_r by lia. f_equal; unfold E, k0; lia. }
  set (P := Zpos (mn * mf)).
  assert (HP : P = n * K * Zpos mf)
    by (unfold P; rewrite Pos2Z.inj_mul, Hmn_val; reflexivity).
  assert (Ppos : 0 < P) by (unfold P; lia).
  assert (PltW : P < n * W).
  { rewrite HP, EW.
    assert (Zpos mf + 1 <= 2 ^ (- ef)) by lia.
    assert (0 < n * K) by (apply Z.mul_pos_pos; lia).
    assert (n * K * (Zpos mf + 1) <= n * K * 2 ^ (- ef))
      by (apply Z.mul_le_mono_nonneg_l; lia).
    lia. }
  pose proof (Zdigits2_bounds Ppos) as [DP1 DP2].
  set (dP := Zdigits2 P) in *.
  assert (HdP : dP + E <= 50).
  { assert (n * W <= 2 ^ 50 * W) by (apply Z.mul_le_mono_nonneg_r; lia).
    assert (L : 2 ^ (dP - 1) < 2 ^ (50 + - E)).
    { rewrite Z.pow_add_r by lia. fold W. lia. }
    apply pow2_lt_inv in L; lia. }
  assert (P53 : 0 < prec64) by reflexivity.
  destruct (@binary_round_aux_exact_upper prec64 emax64 false P E Ppos)
    as (mz & ez & Hr & Hmz & Hez & Hval).
  fold dP in Hval.
  set (n0 := Z.max 0 (fexp prec64 emax64 (dP + E) - E)) in *.
  assert (Hn0 : 0 <= n0 <= - E).
  { unfold n0, fexp. binary64. lia. }
  assert (Hslack : (if n0 =? 0 then 0 else 2 ^ n0) <= W).
  { destruct (n0 =? 0); [lia |]. unfold W. apply Z.pow_le_mono_r; lia. }
  set (T := ez - E) in *.
  assert (HT : 0 <= T) by (unfold T; lia).
  assert (Tpos : 0 < 2 ^ T) by pow2_pos.
  assert (Star : mz * 2 ^ T < (n + 1) * W) by lia.
  assert (Hprod : sample_size N (S754_finite false mf ef)
                  = py_int (binary_round_aux prec64 emax64 false P E loc_Exact)).
  { unfold sample_size, py_int_mul_float, py_float. fold n. rewrite Hof.
    reflexivity. }
  rewrite Hprod, Hr.
  destruct mz as [|p|p]; [| | lia].
  - exists 0. split; [reflexivity | lia].
  - assert (Hfin : ez <= emax64 - prec64).
    { binary64. destruct (Z_le_gt_dec ez 971) as [L | G]; [exact L | exfalso].
      assert (ET : 2 ^ T = 2 ^ ez * W).
      { unfold W. rewrite <- Z.pow_add_r by lia. f_equal; unfold T; lia. }
      assert (2 ^ 50 <= 2 ^ ez) by (apply Z.pow_le_mono_r; lia).
      assert (2 ^ ez * W <= Zpos p * (2 ^ ez * W)) by nia.
      rewrite ET in Star.
      assert (2 ^ 50 * W <= 2 ^ ez * W) by (apply Z.mul_le_mono_nonneg_r; lia).
      assert ((n + 1) * W <= 2 ^ 50 * W) by (apply Z.mul_le_mono_nonneg_r; lia).
      lia. }
    apply Z.leb_le in Hfin. rewrite Hfin.
    exists (trunc_finite false p ez). split; [reflexivity |].
    apply trunc_finite_bound with (W := W); try lia.
    + intro Hnn.
      assert (ET : 2 ^ T = 2 ^ ez * W).
      { unfold W. rewrite <- Z.pow_add_r by lia. f_equal; unfold T; lia. }
      rewrite ET in Star. lia.
    + intro Hneg.
      assert (ET : 2 ^ T * 2 ^ (- ez) = W).
      { unfold W. rewrite <- Z.pow_add_r by lia. f_equal; unfold T; lia. }
      assert (N2 : 0 < 2 ^ (- ez)) by pow2_pos.
      assert (H : Zpos p * 2 ^ T * 2 ^ (- ez) < (n + 1) * W * 2 ^ (- ez))
        by (apply Z.mul_lt_mono_pos_r; lia).
      replace (Zpos p * 2 ^ T * 2 ^ (- ez))
        with (Zpos p * (2 ^ T * 2 ^ (- ez))) in H by ring.
      rewrite ET in H. exact H.
Qed.

(** Every non-negative well-formed rate below [1.0] gives a sample size
    between 0 and [N]. *)
Lemma sample_size_valid_rate (N : nat) (rate : float) :
  Z.of_nat N < 2 ^ 50 ->
  valid_binary prec64 emax64 rate = true ->
  leb zero rate = true -> geb rate one = false ->
  exists k, sample_size N rate = Ok k /\ 0 <= k <= Z.of_nat N.
Proof.
  intros HN Hv Hnn Hlt.
  destruct N as [|N'].
  - (* no points: 0 * rate *)
    exists 0.
    destruct rate as [s | s | | s m e]; try discriminate;
      try (destruct s; discriminate).
    + split; [destruct s; reflexivity | simpl; lia].
    + split; [destruct s; reflexivity | simpl; lia].
  - set (N := S N') in *.
    assert (Hn : 0 < Z.of_nat N < 2 ^ 53) by (unfold N; lia).
    destruct rate as [s | s | | s m e]; try discriminate.
    + destruct (of_Z_exact Hn) as (mn & Hof & _).
      exists 0. split; [| lia].
      unfold sample_size, py_int_mul_float, py_float. rewrite Hof.
      destruct s; reflexivity.
    + destruct s; discriminate.
    + destruct s; [discriminate |].
      destruct (@below_one_fraction m e Hv Hlt) as [He Hm].
      apply sample_size_fraction; [unfold N in *; lia | exact He | exact Hm].
Qed.

End SampleSize.


(* ================================================================== *)
(** * The reducer: order, alignment and counts                         *)
(* ================================================================== *)

Lemma natorder_leb_le (x y : nat) : NatOrder.leb x y = true <-> x <= y.
Proof.
  revert y; induction x as [|x IH]; intros [|y]; simpl;
    try (split; [lia | reflexivity]); try (split; [discriminate | lia]).
  rewrite IH. lia.
Qed.

(** [np.sort] of distinct indices is strictly increasing. *)
Lemma sort_strictly_increasing (idx : list nat) :
  NoDup idx -> Sorted.StronglySorted lt (sort idx).
Proof.
  intro Hnd.
  assert (Hs : Sorted.StronglySorted (fun x y => is_true (NatOrder.leb x y)) (sort idx)).
  { apply NatSort.StronglySorted_sort.
    intros x y z Hxy Hyz. unfold is_true in *.
    rewrite natorder_leb_le in *. lia. }
  assert (Hnd' : NoDup (sort idx))
    by (eapply Permutation_NoDup; [apply NatSort.Permuted_sort | exact Hnd]).
  unfold sort in *.
  induction Hs as [|a l Hl IH Ha]; constructor.
  - apply IH. now inversion Hnd'.
  - inversion Hnd' as [|? ? Hnin _]; subst.
    rewrite Forall_forall in *. intros x Hx.
    specialize (Ha x Hx). unfold is_true in Ha. rewrite natorder_leb_le in Ha.
    assert (a <> x) by (intros ->; contradiction). lia.
Qed.

(** Whatever the sampler returns is a list of [size] distinct indices
    below [n]. *)
Lemma random_choice_inv (n : nat) (size : Z) (g g' : rng) (idx : list nat) :
  random_choice n size g = (Ok idx, g') ->
  (0 <= size <= Z.of_nat n)%Z
  /\ length idx = Z.to_nat size
  /\ Forall (fun i => i < n) idx
  /\ NoDup idx.
Proof.
  intro H.
  assert (Hr : (0 <= size <= Z.of_nat n)%Z).
  { unfold random_choice in H.
    destruct (Nat.eqb n 0 && negb (Z.eqb size 0))%bool; [discriminate |].
    destruct (Z.ltb_spec (Z.of_nat n) size); [discriminate |].
    destruct (Z.ltb_spec size 0); [discriminate | lia]. }
  split; [exact Hr |].
  destruct (@random_choice_ok n size g Hr) as (idx' & g'' & E & Hl & Hv & Hnd).
  rewrite E in H. injection H as <- <-. auto.
Qed.

Section ReducerOrder.

Variables P C : Type.

(** What a successful reduction below rate 1.0 is made of. *)
Lemma downsample_random_inv (points : ndarray P) (colors : option (ndarray C))
      (rate : float) (g g' : rng)
      (kept : ndarray P) (kept_colors : option (ndarray C)) :
  geb rate one = false ->
  downsample_random points colors rate g = (Ok (kept, kept_colors), g') ->
  exists indices,
    Sorted.StronglySorted lt indices
    /\ Forall (fun i => i < length points) indices
    /\ sample_size (length points) rate = Ok (Z.of_nat (length indices))
    /\ take points indices = Ok kept
    /\ match colors, kept_colors with
       | Some c, Some kc => take c indices = Ok kc
       | None, None => True
       | _, _ => False
       end.
Proof.
  intros Hlt. unfold downsample_random, downsample_indices. rewrite Hlt.
  destruct (sample_size (length points) rate) as [k | e] eqn:Ek;
    [| discriminate].
  destruct (random_choice (length points) k g) as [[idx | e] g1] eqn:Erc;
    [| discriminate].
  destruct (@random_choice_inv _ _ _ _ _ Erc) as (Hk & Hl & Hv & Hnd).
  destruct (@sort_valid _ _ Hv) as [Hsl Hsv].
  destruct (take points (sort idx)) as [kp | e] eqn:Ep; [| discriminate].
  cbn [Py.bind].
  destruct colors as [c |].
  - destruct (take c (sort idx)) as [kc | e] eqn:Ec; [| discriminate].
    cbn [Py.bind]. intro H. injection H as <- <- <-.
    exists (sort idx). split; [now apply sort_strictly_increasing |].
    split; [exact Hsv |]. split; [| split; [exact Ep | exact Ec]].
    rewrite Hsl, Hl, Z2Nat.id by lia. reflexivity.
  - cbn [Py.bind]. intro H. injection H as <- <- <-.
    exists (sort idx). split; [now apply sort_strictly_increasing |].
    split; [exact Hsv |]. split; [| split; [exact Ep | exact I]].
    rewrite Hsl, Hl, Z2Nat.id by lia. reflexivity.
Qed.

(** [limit_points] on a cloud that can exist: it succeeds, and when it
    reduces it keeps [max_points] points or one less. *)
Lemma limit_points_result (points : ndarray P) (colors : option (ndarray C))
      (max_points : Z) (g : rng) :
  (0 <= max_points)%Z ->
  (Z.of_nat (length points) < 2 ^ 50)%Z ->
  (forall c, colors = Some c -> length c = length points) ->
  exists kept kept_colors g',
    limit_points points colors max_points g = (Ok (kept, kept_colors), g')
    /\ (Z.of_nat (length kept) <= max_points)%Z
    /\ (forall c, kept_colors = Some c -> length c = length kept)
    /\ ((max_points < Z.of_nat (length points))%Z ->
        (max_points - 1 <= Z.of_nat (length kept))%Z)
    /\ ((Z.of_nat (length points) <= max_points)%Z ->
        kept = points /\ kept_colors = colors /\ g' = g).
Proof.
  intros Hm HN Hc.
  unfold limit_points.
  destruct (Z.leb_spec (Z.of_nat (length points)) max_points) as [Hle | Hgt].
  - exists points, colors, g. split; [reflexivity |].
    split; [exact Hle |]. split; [exact Hc |]. split; [lia | auto].
  - assert (Hsample : exists rate k,
               py_int_truediv max_points (Z.of_nat (length points)) = Ok rate
               /\ geb rate one = false
               /\ sample_size (length points) rate = Ok k
               /\ (0 <= k <= max_points)%Z /\ (max_points - 1 <= k)%Z).
    { destruct (Z.eq_dec max_points 0) as [-> | Hm0].
      - exists (S754_zero false), 0%Z. split.
        + unfold py_int_truediv.
          destruct (Z.of_nat (length points)) as [|p|p] eqn:E; try lia.
          reflexivity.
        + split; [reflexivity |]. split; [| lia].
          apply sample_size_zero_rate. lia.
      - destruct (@sample_size_limit (length points) max_points)
          as (rate & k & Hrate & Hlt & Hs & Hk); try lia.
        exists rate, k. split; [exact Hrate |]. split; [exact Hlt |].
        split; [exact Hs |]. split; [exact Hk |].
        apply (@sample_size_limit_lower (length points) max_points k rate);
          try assumption; lia. }
    destruct Hsample as (rate & k & Hrate & Hlt & Hs & Hk & Hk').
    rewrite Hrate.
    destruct (@downsample_random_sample P C points colors rate g k Hlt Hs)
      as (kept & kc & g' & Hd & Hkl & Hkc); [lia | exact Hc |].
    exists kept, kc, g'. split; [exact Hd |].
    split; [lia |]. split; [exact Hkc |]. split; lia.
Qed.

End ReducerOrder.

(** X1. A successful [downsample_random] below rate 1.0 keeps the rows of
    one strictly increasing list of valid indices: every kept point is a
    point of the input, none twice, in input order; the colours, when
    present, are the rows at the very same indices; and their number is
    [int(N * rate)]. *)
Theorem downsample_random_order_preserving :
  forall (P C : Type) (points : ndarray P) (colors : option (ndarray C))
         (sample_rate : float) (g g' : rng)
         (kept : ndarray P) (kept_colors : option (ndarray C)),
    geb sample_rate one = false ->
    downsample_random points colors sample_rate g
    = (Ok (kept, kept_colors), g') ->
    exists indices,
      Sorted.StronglySorted lt indices
      /\ Forall (fun i => i < length points) indices
      /\ sample_size (length points) sample_rate
         = Ok (Z.of_nat (length indices))
      /\ take points indices = Ok kept
      /\ match colors, kept_colors with
         | Some c, Some kc => take c indices = Ok kc
         | None, None => True
         | _, _ => False
         end.
Proof. intros. eapply downsample_random_inv; eassumption. Qed.

Lemma downsample_random_order_preserving_witness :
  exists indices,
    Sorted.StronglySorted lt indices
    /\ take [10; 20; 30; 40]%Z indices = Ok [10; 40]%Z
    /\ take [1; 2; 3; 4]%Z indices = Ok [1; 4]%Z.
Proof.
  destruct (@downsample_random_order_preserving Z Z
              [10; 20; 30; 40]%Z (Some [1; 2; 3; 4]%Z) half [7; 9; 3; 2]
              [3; 2] [10; 40]%Z (Some [1; 4]%Z) eq_refl eq_refl)
    as (idx & Hs & _ & _ & Hp & Hc).
  exists idx. auto.
Defined.

(** X2. When [limit_points] has to reduce a cloud ([0 < max_points < N],
    [N < 2^50], colours of the length of the positions) it succeeds and
    keeps [max_points] points or exactly one less: rounding never costs
    more than one point. *)
Theorem limit_points_keeps_all_but_one :
  forall (P C : Type) (points : ndarray P) (colors : option (ndarray C))
         (max_points : Z) (g : rng),
    (0 < max_points < Z.of_nat (length points))%Z ->
    (Z.of_nat (length points) < 2 ^ 50)%Z ->
    (forall c, colors = Some c -> length c = length points) ->
    exists kept kept_colors g',
      limit_points points colors max_points g = (Ok (kept, kept_colors), g')
      /\ (max_points - 1 <= Z.of_nat (length kept) <= max_points)%Z.
Proof.
  intros P C points colors m g Hm HN Hc.
  destruct (@limit_points_result P C points colors m g)
    as (kept & kc & g' & H & Hle & _ & Hge & _); try assumption; try lia.
  exists kept, kc, g'. split; [exact H | lia].
Qed.

Lemma limit_points_keeps_all_but_one_witness :
  exists kept kept_colors g',
    limit_points (repeat 7%Z 49) (@None (ndarray Z)) 2 [5; 8]
    = (Ok (kept, kept_colors), g')
    /\ (1 <= Z.of_nat (length kept) <= 2)%Z.
Proof.
  apply (@limit_points_keeps_all_but_one Z Z (repeat 7%Z 49) None 2%Z [5; 8]).
  - simpl. lia.
  - simpl. lia.
  - discriminate.
Defined.

(** X3. [limit_points] is idempotent: limiting again, with the same
    bound, the cloud it returned changes nothing and draws nothing from
    the generator. *)
Theorem limit_points_idempotent :
  forall (P C : Type) (points : ndarray P) (colors : option (ndarray C))
         (max_points : Z) (g g' g2 : rng)
         (kept : ndarray P) (kept_colors : option (ndarray C)),
    (0 <= max_points)%Z ->
    (Z.of_nat (length points) < 2 ^ 50)%Z ->
    (forall c, colors = Some c -> length c = length points) ->
    limit_points points colors max_points g = (Ok (kept, kept_colors), g') ->
    limit_points kept kept_colors max_points g2
    = (Ok (kept, kept_colors), g2).
Proof.
  intros P C points colors m g g' g2 kept kc Hm HN Hc H.
  destruct (@limit_points_result P C points colors m g Hm HN Hc)
    as (kept' & kc' & g'' & H' & Hle & _).
  rewrite H in H'. injection H' as <- <- <-.
  unfold limit_points.
  destruct (Z.leb_spec (Z.of_nat (length kept)) m); [reflexivity | lia].
Qed.

Lemma limit_points_idempotent_witness :
  limit_points [20; 30]%Z (Some [2; 3]%Z) 2 [1; 1]
  = (Ok ([20; 30]%Z, Some [2; 3]%Z), [1; 1]).
Proof.
  apply (@limit_points_idempotent Z Z [10; 20; 30]%Z (Some [1; 2; 3]%Z) 2%Z
           [7; 9; 3; 2] [3; 2] [1; 1] [20; 30]%Z (Some [2; 3]%Z)).
  - lia.
  - simpl. lia.
  - intros c E. injection E as <-. reflexivity.
  - reflexivity.
Defined.

(** X4. For every well-formed rate with [0 <= rate < 1.0] and every cloud
    that can exist, [downsample_random] succeeds and keeps exactly
    [int(N * rate)] points, never more than [N]; the colours keep the
    length of the positions. *)
Theorem downsample_random_fraction :
  forall (P C : Type) (points : ndarray P) (colors : option (ndarray C))
         (sample_rate : float) (g : rng),
    (Z.of_nat (length points) < 2 ^ 50)%Z ->
    (forall c, colors = Some c -> length c = length points) ->
    valid_binary prec64 emax64 sample_rate = true ->
    leb zero sample_rate = true ->
    geb sample_rate one = false ->
    exists kept kept_colors g',
      downsample_random points colors sample_rate g
      = (Ok (kept, kept_colors), g')
      /\ sample_size (length points) sample_rate
         = Ok (Z.of_nat (length kept))
      /\ length kept <= length points
      /\ (forall c, kept_colors = Some c -> length c = length kept).
Proof.
  intros P C points colors rate g HN Hc Hv Hnn Hlt.
  destruct (@sample_size_valid_rate (length points) rate HN Hv Hnn Hlt)
    as (k & Hk & Hrange).
  destruct (@downsample_random_sample P C points colors rate g k Hlt Hk
              Hrange Hc) as (kept & kc & g' & Hd & Hkl & Hkc).
  exists kept, kc, g'. split; [exact Hd |].
  split; [rewrite Hk, Hkl, Z2Nat.id by lia; reflexivity |].
  split; [lia | exact Hkc].
Qed.

Lemma downsample_random_fraction_witness :
  exists kept kept_colors g',
    downsample_random [10; 20; 30; 40; 50]%Z (Some [1; 2; 3; 4; 5]%Z)
                      (literal 1 2) [4; 4]
    = (Ok (kept, kept_colors), g')
    /\ length kept = 2.
Proof.
  destruct (@downsample_random_fraction Z Z
              [10; 20; 30; 40; 50]%Z (Some [1; 2; 3; 4; 5]%Z)
              (literal 1 2) [4; 4])
    as (kept & kc & g' & H & Hs & _).
  - simpl. lia.
  - intros c E. injection E as <-. reflexivity.
  - reflexivity.
  - reflexivity.
  - reflexivity.
  - exists kept, kc, g'. split; [exact H |].
    assert (E : sample_size (length [10; 20; 30; 40; 50]%Z) (literal 1 2)
                = Ok 2%Z) by (vm_compute; reflexivity).
    rewrite E in Hs. injection Hs as Hs. lia.
Defined.

(* ================================================================== *)
(** * The bounding box encloses the cloud                              *)
(* ================================================================== *)

Section FloatOrder.

Local Open Scope Z_scope.

(** [<=] on two finite values of the same sign is the lexicographic order
    of exponent and mantissa. *)
Lemma leb_finite_pos (m1 m2 : positive) (e1 e2 : Z) :
  leb (S754_finite false m1 e1) (S754_finite false m2 e2) = true
  <-> e1 < e2 \/ (e1 = e2 /\ (m1 <= m2)%positive).
Proof.
  unfold leb, SFleb, SFcompare.
  destruct (Z.compare_spec e1 e2) as [He | He | He].
  - change (Pos.compare_cont Eq m1 m2) with (Pos.compare m1 m2).
    destruct (Pos.compare_spec m1 m2) as [Hm | Hm | Hm];
      split; intro H; try reflexivity; try discriminate; lia.
  - split; intro H; [lia | reflexivity].
  - split; intro H; [discriminate | lia].
Qed.

Lemma leb_finite_neg (m1 m2 : positive) (e1 e2 : Z) :
  leb (S754_finite true m1 e1) (S754_finite true m2 e2) = true
  <-> e2 < e1 \/ (e1 = e2 /\ (m2 <= m1)%positive).
Proof.
  unfold leb, SFleb, SFcompare.
  destruct (Z.compare_spec e1 e2) as [He | He | He].
  - change (Pos.compare_cont Eq m1 m2) with (Pos.compare m1 m2).
    destruct (Pos.compare_spec m1 m2) as [Hm | Hm | Hm]; simpl;
      split; intro H; try reflexivity; try discriminate; lia.
  - split; intro H; [discriminate | lia].
  - split; intro H; [lia | reflexivity].
Qed.

(** Away from NaN, [<=] is transitive and total. *)
Lemma leb_trans (a b c : float) :
  is_nan a = false -> is_nan b = false -> is_nan c = false ->
  leb a b = true -> leb b c = true -> leb a c = true.
Proof.
  intros Na Nb Nc Hab Hbc.
  destruct a as [sa | sa | | sa ma ea]; try discriminate Na;
  destruct b as [sb | sb | | sb mb eb]; try discriminate Nb;
  destruct c as [sc | sc | | sc mc ec]; try discriminate Nc;
  try destruct sa; try destruct sb; try destruct sc;
  try reflexivity; try (simpl in Hab; discriminate Hab);
  try (simpl in Hbc; discriminate Hbc);
  rewrite ?leb_finite_pos, ?leb_finite_neg in *; lia.
Qed.

Lemma leb_total (a b : float) :
  is_nan a = false -> is_nan b = false ->
  leb a b = false -> leb b a = true.
Proof.
  intros Na Nb Hab.
  destruct (leb b a) eqn:Hba; [reflexivity | exfalso].
  destruct a as [sa | sa | | sa ma ea]; try discriminate Na;
  destruct b as [sb | sb | | sb mb eb]; try discriminate Nb;
  try destruct sa; try destruct sb;
  try (simpl in Hab; discriminate Hab);
  try (simpl in Hba; discriminate Hba).
  - assert (H1 : ~ (leb (S754_finite true ma ea) (S754_finite true mb eb) = true))
      by (rewrite Hab; discriminate).
    assert (H2 : ~ (leb (S754_finite true mb eb) (S754_finite true ma ea) = true))
      by (rewrite Hba; discriminate).
    rewrite leb_finite_neg in H1, H2. lia.
  - assert (H1 : ~ (leb (S754_finite false ma ea) (S754_finite false mb eb) = true))
      by (rewrite Hab; discriminate).
    assert (H2 : ~ (leb (S754_finite false mb eb) (S754_finite false ma ea) = true))
      by (rewrite Hba; discriminate).
    rewrite leb_finite_pos in H1, H2. lia.
Qed.

End FloatOrder.

(** One step of [np.minimum] and [np.maximum] away from NaN. *)
Lemma minimum_le (a b : float) :
  is_nan a = false -> is_nan b = false ->
  is_nan (minimum a b) = false
  /\ leb (minimum a b) a = true /\ leb (minimum a b) b = true.
Proof.
  intros Na Nb. unfold minimum. rewrite Na, orb_false_r.
  destruct (leb a b) eqn:E.
  - split; [exact Na | split; [now apply leb_refl | exact E]].
  - split; [exact Nb | split; [now apply leb_total | now apply leb_refl]].
Qed.

Lemma maximum_ge (a b : float) :
  is_nan a = false -> is_nan b = false ->
  is_nan (maximum a b) = false
  /\ leb a (maximum a b) = true /\ leb b (maximum a b) = true.
Proof.
  intros Na Nb. unfold maximum, geb. rewrite Na, orb_false_r.
  fold (leb b a). destruct (leb b a) eqn:E.
  - split; [exact Na | split; [now apply leb_refl | exact E]].
  - split; [exact Nb | split; [now apply leb_total | now apply leb_refl]].
Qed.

(** The running minimum is below the start value and every element. *)
Lemma fold_minimum_lower (xs : list float) :
  Forall (fun v => is_nan v = false) xs ->
  forall x, is_nan x = false ->
    is_nan (fold_left minimum xs x) = false
    /\ forall v, In v (x :: xs) -> leb (fold_left minimum xs x) v = true.
Proof.
  induction 1 as [|y ys Hy Hys IH]; intros x Nx; simpl.
  - split; [exact Nx |]. intros v [<- | []]. now apply leb_refl.
  - destruct (@minimum_le x y Nx Hy) as (Nm & Hmx & Hmy).
    destruct (IH _ Nm) as (Nf & Hf).
    split; [exact Nf |].
    assert (Hfm : leb (fold_left minimum ys (minimum x y)) (minimum x y) = true)
      by (apply Hf; now left).
    intros v [<- | [<- | Hv]].
    + now apply leb_trans with (b := minimum x y).
    + now apply leb_trans with (b := minimum x y).
    + apply Hf. now right.
Qed.

Lemma fold_maximum_upper (xs : list float) :
  Forall (fun v => is_nan v = false) xs ->
  forall x, is_nan x = false ->
    is_nan (fold_left maximum xs x) = false
    /\ forall v, In v (x :: xs) -> leb v (fold_left maximum xs x) = true.
Proof.
  induction 1 as [|y ys Hy Hys IH]; intros x Nx; simpl.
  - split; [exact Nx |]. intros v [<- | []]. now apply leb_refl.
  - destruct (@maximum_ge x y Nx Hy) as (Nm & Hmx & Hmy).
    destruct (IH _ Nm) as (Nf & Hf).
    split; [exact Nf |].
    assert (Hfm : leb (maximum x y) (fold_left maximum ys (maximum x y)) = true)
      by (apply Hf; now left).
    intros v [<- | [<- | Hv]].
    + now apply leb_trans with (b := maximum x y).
    + now apply leb_trans with (b := maximum x y).
    + apply Hf. now right.
Qed.

Lemma amin_lower (a : ndarray float) (lo v : float) :
  Forall (fun v => is_nan v = false) a ->
  amin a = Ok lo -> In v a -> leb lo v = true.
Proof.
  destruct a as [|x xs]; simpl; intros Hn Hlo Hv; [discriminate |].
  injection Hlo as <-. inversion Hn; subst.
  now apply fold_minimum_lower.
Qed.

Lemma amax_upper (a : ndarray float) (hi v : float) :
  Forall (fun v => is_nan v = false) a ->
  amax a = Ok hi -> In v a -> leb v hi = true.
Proof.
  destruct a as [|x xs]; simpl; intros Hn Hhi Hv; [discriminate |].
  injection Hhi as <-. inversion Hn; subst.
  now apply fold_maximum_upper.
Qed.

(** The fields of the box of a non-empty cloud, column by column. *)
Lemma calculate_bounds_columns (points : ndarray row) (b : PointCloudBounds) :
  points <> [] ->
  calculate_bounds points = Ok b ->
  amin (map col0 points) = Ok (min_x b) /\ amax (map col0 points) = Ok (max_x b)
  /\ amin (map col1 points) = Ok (min_y b) /\ amax (map col1 points) = Ok (max_y b)
  /\ amin (map col2 points) = Ok (min_z b) /\ amax (map col2 points) = Ok (max_z b).
Proof.
  destruct points as [|p ps]; [congruence | intros _].
  intro H. cbn in H. injection H as <-. cbn. auto 10.
Qed.

(** X5. The bounding box encloses the cloud: when no coordinate is NaN,
    every point lies between the minimum and the maximum of the box on
    each of the three axes. *)
Theorem calculate_bounds_encloses :
  forall (points : ndarray row) (b : PointCloudBounds) (p : row),
    (forall q, In q points ->
               is_nan (col0 q) = false /\ is_nan (col1 q) = false
               /\ is_nan (col2 q) = false) ->
    calculate_bounds points = Ok b ->
    In p points ->
    (leb (min_x b) (col0 p) = true /\ leb (col0 p) (max_x b) = true)
    /\ (leb (min_y b) (col1 p) = true /\ leb (col1 p) (max_y b) = true)
    /\ (leb (min_z b) (col2 p) = true /\ leb (col2 p) (max_z b) = true).
Proof.
  intros points b p Hnan Hb Hp.
  assert (Hne : points <> []) by (intros ->; exact Hp).
  destruct (@calculate_bounds_columns points b Hne Hb)
    as (Hx0 & Hx1 & Hy0 & Hy1 & Hz0 & Hz1).
  assert (Hcol : forall f : row -> float,
             (forall q, In q points -> is_nan (f q) = false) ->
             Forall (fun v => is_nan v = false) (map f points)).
  { intros f Hf. apply Forall_forall. intros v Hv.
    apply in_map_iff in Hv as (q & <- & Hq). now apply Hf. }
  assert (H0 := Hcol col0 (fun q Hq => proj1 (Hnan q Hq))).
  assert (H1 := Hcol col1 (fun q Hq => proj1 (proj2 (Hnan q Hq)))).
  assert (H2 := Hcol col2 (fun q Hq => proj2 (proj2 (Hnan q Hq)))).
  split; [| split]; split.
  - apply (@amin_lower _ _ _ H0 Hx0). now apply in_map.
  - apply (@amax_upper _ _ _ H0 Hx1). now apply in_map.
  - apply (@amin_lower _ _ _ H1 Hy0). now apply in_map.
  - apply (@amax_upper _ _ _ H1 Hy1). now apply in_map.
  - apply (@amin_lower _ _ _ H2 Hz0). now apply in_map.
  - apply (@amax_upper _ _ _ H2 Hz1). now apply in_map.
Qed.

Lemma calculate_bounds_encloses_witness :
  exists b,
    calculate_bounds [Samples.pt 3 0 (-1); Samples.pt 1 5 2; Samples.pt 2 (-4) 0]
    = Ok b
    /\ leb (min_x b) (of_Z 1) = true /\ leb (of_Z 5) (max_y b) = true
    /\ leb (of_Z 2) (max_z b) = true.
Proof.
  destruct (calculate_bounds_total
              [Samples.pt 3 0 (-1); Samples.pt 1 5 2; Samples.pt 2 (-4) 0])
    as [b Hb].
  exists b. split; [exact Hb |].
  destruct (@calculate_bounds_encloses
              [Samples.pt 3 0 (-1); Samples.pt 1 5 2; Samples.pt 2 (-4) 0]
              b (Samples.pt 1 5 2)) as ((Hx & _) & (_ & Hy) & (_ & Hz)).
  - intros q [<- | [<- | [<- | []]]]; repeat split.
  - exact Hb.
  - right; left; reflexivity.
  - split; [exact Hx | split; [exact Hy | exact Hz]].
Defined.

(** X6. The bounding box is tight: on a non-empty cloud each of its six
    faces passes through a point of the cloud. *)
Theorem calculate_bounds_attained :
  forall (points : ndarray row) (b : PointCloudBounds),
    points <> [] ->
    calculate_bounds points = Ok b ->
    (exists p, In p points /\ col0 p = min_x b)
    /\ (exists p, In p points /\ col0 p = max_x b)
    /\ (exists p, In p points /\ col1 p = min_y b)
    /\ (exists p, In p points /\ col1 p = max_y b)
    /\ (exists p, In p points /\ col2 p = min_z b)
    /\ (exists p, In p points /\ col2 p = max_z b).
Proof.
  intros points b Hne Hb.
  destruct (@calculate_bounds_columns points b Hne Hb)
    as (Hx0 & Hx1 & Hy0 & Hy1 & Hz0 & Hz1).
  assert (Hmem : forall (f : row -> float) v,
             In v (map f points) -> exists p, In p points /\ f p = v).
  { intros f v Hv. apply in_map_iff in Hv as (q & Hq & Hin). eauto. }
  repeat match goal with |- _ /\ _ => split end;
    apply Hmem; (now apply amin_In) || (now apply amax_In).
Qed.

Lemma calculate_bounds_attained_witness :
  exists b,
    calculate_bounds [Samples.pt 3 0 (-1); Samples.pt 1 5 2] = Ok b
    /\ exists p, In p [Samples.pt 3 0 (-1); Samples.pt 1 5 2]
                 /\ col1 p = max_y b.
Proof.
  destruct (calculate_bounds_total [Samples.pt 3 0 (-1); Samples.pt 1 5 2])
    as [b Hb].
  exists b. split; [exact Hb |].
  destruct (@calculate_bounds_attained
              [Samples.pt 3 0 (-1); Samples.pt 1 5 2] b)
    as (_ & _ & _ & H & _).
  - discriminate.
  - exact Hb.
  - exact H.
Defined.

(* ================================================================== *)
(** * Colour extraction and the colour schemes                         *)
(* ================================================================== *)

Lemma column_stack3_length (a b c : ndarray float) (rows : ndarray row) :
  column_stack3 a b c = Ok rows ->
  length a = length rows /\ length b = length rows /\ length c = length rows.
Proof.
  revert b c rows; induction a as [|x a IH]; intros [|y b] [|z c] rows;
    simpl; try discriminate.
  - intro H. injection H as <-. auto.
  - destruct (column_stack3 a b c) as [rest |] eqn:E; [| discriminate].
    simpl. intro H. injection H as <-.
    destruct (IH _ _ _ E) as (Ha & Hb & Hc). simpl. auto.
Qed.

Lemma column_stack3_ragged (a b c : ndarray float) (e : exn) :
  column_stack3 a b c = Raise e ->
  ~ (length a = length b /\ length b = length c).
Proof.
  revert b c e; induction a as [|x a IH]; intros [|y b] [|z c] e;
    simpl; try discriminate; try (intros _ [H1 H2]; discriminate).
  destruct (column_stack3 a b c) as [rest | e'] eqn:E; [discriminate |].
  intros _ [H1 H2]. apply (IH _ _ _ E). split; congruence.
Qed.

(** X7. Colours are extracted all or nothing: a result has one row per
    record of each of the three channels, which are all present and of
    one length; there is no result exactly when a channel is missing or
    the channels differ in length. *)
Theorem extract_colors_all_or_nothing :
  forall las : LasData,
    match extract_colors las with
    | Some colors =>
      exists r g b,
        red las = Some r /\ green las = Some g /\ blue las = Some b
        /\ length r = length colors /\ length g = length colors
        /\ length b = length colors
    | None =>
      red las = None \/ green las = None \/ blue las = None
      \/ exists r g b,
           red las = Some r /\ green las = Some g /\ blue las = Some b
           /\ ~ (length r = length g /\ length g = length b)
    end.
Proof.
  intro las. unfold extract_colors.
  destruct (red las) as [r |]; [| now left].
  destruct (green las) as [g |]; [| now right; left].
  destruct (blue las) as [b |]; [| now right; right; left].
  destruct (column_stack3 _ _ _) as [rows | e] eqn:E.
  - exists r, g, b. apply column_stack3_length in E.
    rewrite !length_map in *. intuition congruence.
  - right; right; right. exists r, g, b.
    apply column_stack3_ragged in E. rewrite !length_map in E. auto.
Qed.

Lemma gray_rows_length (n : nat) : length (gray_rows n) = n.
Proof. apply repeat_length. Qed.

(** X8. The intensity scheme never fails, returns one colour per value,
    and every colour it returns is a gray: its three channels are the
    same number. *)
Theorem generate_intensity_colors_gray :
  forall intensity : ndarray float,
    exists colors,
      generate_intensity_colors intensity = Ok colors
      /\ length colors = length intensity
      /\ Forall (fun c => col0 c = col1 c /\ col1 c = col2 c) colors.
Proof.
  intro intensity. unfold generate_intensity_colors.
  destruct intensity as [|x xs]; [exists []; simpl; auto |].
  set (a := x :: xs).
  change (Nat.eqb (length a) 0) with false. cbv iota.
  destruct (@amin_nonempty a) as [lo Hlo]; [discriminate |].
  destruct (@amax_nonempty a) as [hi Hhi]; [discriminate |].
  rewrite Hlo, Hhi. cbn [Py.bind].
  destruct (eqb hi lo).
  - eexists. split; [reflexivity |]. split; [apply gray_rows_length |].
    unfold gray_rows. apply Forall_forall. intros c Hc.
    apply repeat_spec in Hc. subst c. split; reflexivity.
  - eexists. split; [reflexivity |]. split; [now rewrite !length_map |].
    apply Forall_forall. intros c Hc.
    apply in_map_iff in Hc as (v & <- & _). split; reflexivity.
Qed.

(** X9. On every non-empty cloud the height scheme succeeds and returns
    one colour per point. *)
Theorem generate_height_colors_one_per_point :
  forall points : ndarray row,
    points <> [] ->
    exists colors,
      generate_height_colors points = Ok colors
      /\ length colors = length points.
Proof.
  intros points Hne. unfold generate_height_colors.
  assert (Hz : map col2 points <> [])
    by (destruct points; [congruence | discriminate]).
  destruct (amin_nonempty Hz) as [lo Hlo].
  destruct (amax_nonempty Hz) as [hi Hhi].
  rewrite Hlo, Hhi. cbn [Py.bind].
  destruct (eqb hi lo); eexists; (split; [reflexivity |]).
  - apply gray_rows_length.
  - now rewrite !length_map.
Qed.

Lemma generate_height_colors_one_per_point_witness :
  exists colors,
    generate_height_colors [Samples.pt 0 0 1; Samples.pt 0 0 2; Samples.pt 0 0 3]
    = Ok colors
    /\ length colors = 3.
Proof.
  apply (@generate_height_colors_one_per_point
           [Samples.pt 0 0 1; Samples.pt 0 0 2; Samples.pt 0 0 3]).
  discriminate.
Defined.

(* ================================================================== *)
(** * The point route: reduction and colouring                         *)
(* ================================================================== *)

Lemma take_length (A : Type) (arr : ndarray A) (idx : list nat)
      (rows : ndarray A) :
  take arr idx = Ok rows -> length rows = length idx.
Proof.
  revert rows; induction idx as [|i idx IH]; simpl; intros rows H.
  - injection H as <-. reflexivity.
  - destruct (nth_error arr i); [| discriminate].
    destruct (take arr idx) as [tl |]; [| discriminate].
    simpl in H. injection H as <-. simpl. f_equal. now apply IH.
Qed.

Section ReducerShape.

Variables P C : Type.

(** What every successful reduction keeps in shape: no more points than
    before, colours exactly when there were colours, and as many colours
    as points when that was so before. *)
Lemma downsample_random_shape (points : ndarray P)
      (colors : option (ndarray C)) (rate : float) (g g' : rng)
      (kept : ndarray P) (kept_colors : option (ndarray C)) :
  downsample_random points colors rate g = (Ok (kept, kept_colors), g') ->
  length kept <= length points
  /\ (colors = None <-> kept_colors = None)
  /\ ((forall c, colors = Some c -> length c = length points) ->
      forall c, kept_colors = Some c -> length c = length kept).
Proof.
  destruct (geb rate one) eqn:Hge.
  - rewrite downsample_random_ge_one by exact Hge.
    intro H. injection H as <- <- <-. split; [lia |]. split; [tauto | auto].
  - unfold downsample_random, downsample_indices. rewrite Hge.
    destruct (sample_size (length points) rate) as [k | e]; [| discriminate].
    destruct (random_choice (length points) k g) as [[idx | e] g1] eqn:Erc;
      [| discriminate].
    destruct (@random_choice_inv _ _ _ _ _ Erc) as (Hk & Hl & Hv & _).
    destruct (@sort_valid _ _ Hv) as [Hsl _].
    destruct (take points (sort idx)) as [kp | e] eqn:Ep; [| discriminate].
    apply take_length in Ep. cbn [Py.bind].
    destruct colors as [c |].
    + destruct (take c (sort idx)) as [kc | e] eqn:Ec; [| discriminate].
      apply take_length in Ec.
      cbn [Py.bind]. intro H. injection H as <- <- <-.
      split; [lia |]. split; [split; discriminate |].
      intros _ c' E. injection E as <-. lia.
    + cbn [Py.bind]. intro H. injection H as <- <- <-.
      split; [lia |]. split; [tauto | discriminate].
Qed.

Lemma limit_points_shape (points : ndarray P)
      (colors : option (ndarray C)) (max_points : Z) (g g' : rng)
      (kept : ndarray P) (kept_colors : option (ndarray C)) :
  limit_points points colors max_points g = (Ok (kept, kept_colors), g') ->
  length kept <= length points
  /\ (colors = None <-> kept_colors = None)
  /\ ((forall c, colors = Some c -> length c = length points) ->
      forall c, kept_colors = Some c -> length c = length kept).
Proof.
  unfold limit_points.
  destruct (Z.of_nat (length points) <=? max_points)%Z.
  - intro H. injection H as <- <- <-. split; [lia |]. split; [tauto | auto].
  - destruct (py_int_truediv max_points (Z.of_nat (length points)));
      [| discriminate].
    apply downsample_random_shape.
Qed.

End ReducerShape.

Lemma generate_height_colors_length (points colors : ndarray row) :
  generate_height_colors points = Ok colors -> length colors = length points.
Proof.
  unfold generate_height_colors.
  destruct (amin (map col2 points)) as [lo |]; [| discriminate].
  destruct (amax (map col2 points)) as [hi |]; [| discriminate].
  cbn [Py.bind]. destruct (eqb hi lo); intro H; injection H as <-.
  - apply repeat_length.
  - now rewrite !length_map.
Qed.

Lemma generate_intensity_colors_length (intensity : ndarray float)
      (colors : ndarray row) :
  generate_intensity_colors intensity = Ok colors ->
  length colors = length intensity.
Proof.
  unfold generate_intensity_colors.
  destruct (Nat.eqb_spec (length intensity) 0) as [E | _].
  - intro H. injection H as <-. now rewrite E.
  - destruct (amin intensity) as [lo |]; [| discriminate].
    destruct (amax intensity) as [hi |]; [| discriminate].
    cbn [Py.bind]. destruct (eqb hi lo); intro H; injection H as <-.
    + apply repeat_length.
    + now rewrite !length_map.
Qed.

Lemma sample_intensity_length (intensity : ndarray float) (n_points : nat)
      (downsample : option float) (g g' : rng) (sampled : ndarray float) :
  n_points <= length intensity ->
  Routes.sample_intensity intensity n_points downsample g = (Ok sampled, g') ->
  length sampled = n_points.
Proof.
  intro Hn. unfold Routes.sample_intensity.
  destruct (Routes.downsample_requested downsample) as [d |].
  - destruct (q <- py_int_div_float (Z.of_nat n_points) d ;; py_int q)
      as [n_original |]; [| discriminate].
    destruct (n_original <? 0)%Z; [discriminate |].
    destruct (random_choice (Z.to_nat n_original) (Z.of_nat n_points) g)
      as [[idx | e] g1] eqn:Erc; [| discriminate].
    destruct (@random_choice_inv _ _ _ _ _ Erc) as (_ & Hl & _).
    intro H. injection H as H <-. apply take_length in H. lia.
  - intro H. injection H as <- <-. now apply firstn_length_le.
Qed.

(** [extract_colors] has one row per red value. *)
Lemma extract_colors_length (las : LasData) (colors : ndarray row) :
  extract_colors las = Some colors ->
  exists r, red las = Some r /\ length colors = length r.
Proof.
  unfold extract_colors.
  destruct (red las) as [r |]; [| discriminate].
  destruct (green las) as [g |]; [| discriminate].
  destruct (blue las) as [b |]; [| discriminate].
  destruct (column_stack3 _ _ _) as [rows | e] eqn:E; [| discriminate].
  intro H. injection H as <-. exists r. split; [reflexivity |].
  apply column_stack3_length in E. rewrite !length_map in *. intuition congruence.
Qed.

(** The three stages of a successful request. *)
Lemma get_point_data_stages (las : LasData) (max_points : option Z)
      (color_by : string) (downsample : option float) (g g' : rng)
      (points : ndarray row) (colors : option (ndarray row)) :
  Routes.get_point_data las max_points color_by downsample g
  = (Ok (points, colors), g') ->
  exists p1 c1 g1 c2 g2,
    match Routes.downsample_requested downsample with
    | Some d =>
      downsample_random (extract_points las) (extract_colors las) d g
    | None => (Ok (extract_points las, extract_colors las), g)
    end = (Ok (p1, c1), g1)
    /\ match max_points with
       | Some mp =>
         if (mp <? Z.of_nat (length p1))%Z then limit_points p1 c1 mp g1
         else (Ok (p1, c1), g1)
       | None => (Ok (p1, c1), g1)
       end = (Ok (points, c2), g2)
    /\ (if String.eqb color_by "height" then
          (colors <- generate_height_colors points ;;
           Ok (points, Some colors), g2)
        else
          match String.eqb color_by "intensity", extract_intensity las with
          | true, Some intensity =>
            let '(ri, g3) :=
              Routes.sample_intensity intensity (length points) downsample g2 in
            (sampled_intensity <- ri ;;
             colors <- generate_intensity_colors sampled_intensity ;;
             Ok (points, Some colors), g3)
          | _, _ =>
            match String.eqb color_by "original", c2 with
            | true, Some oc => (Ok (points, Some oc), g2)
            | _, _ =>
              (colors <- generate_height_colors points ;;
               Ok (points, Some colors), g2)
            end
          end) = (Ok (points, colors), g').
Proof.
  unfold Routes.get_point_data.
  destruct (match Routes.downsample_requested downsample with
            | Some d =>
              downsample_random (extract_points las) (extract_colors las) d g
            | None => (Ok (extract_points las, extract_colors las), g)
            end) as [[[p1 c1] | e1] g1] eqn:E1; [| discriminate].
  destruct (match max_points with
            | Some mp =>
              if (mp <? Z.of_nat (length p1))%Z then limit_points p1 c1 mp g1
              else (Ok (p1, c1), g1)
            | None => (Ok (p1, c1), g1)
            end) as [[[p2 c2] | e2] g2] eqn:E2; [| discriminate].
  intro H.
  match type of H with
  | (try_except (fst ?s) _, snd ?s) = _ => idtac
  | (let '(r, g0) := ?s in (try_except r _, g0)) = _ =>
    destruct s as [[[p3 c3] | e3] g3] eqn:E3; [| discriminate]
  end.
  cbn [try_except] in H. injection H as -> -> ->.
  assert (p2 = points).
  { clear E1 E2. revert E3.
    destruct (String.eqb color_by "height").
    - destruct (generate_height_colors p2); [| discriminate].
      cbn [Py.bind]. now intro H; injection H.
    - destruct (String.eqb color_by "intensity"), (extract_intensity las)
        as [i |].
      + destruct (Routes.sample_intensity i (length p2) downsample g2)
          as [[si |] g4]; [| discriminate].
        cbn [Py.bind].
        destruct (generate_intensity_colors si); [| discriminate].
        cbn [Py.bind]. now intro H; injection H.
      + destruct (String.eqb color_by "original"), c2 as [oc |];
          try (now intro H; injection H);
          (destruct (generate_height_colors p2); [| discriminate];
           cbn [Py.bind]; now intro H; injection H).
      + destruct (String.eqb color_by "original"), c2 as [oc |];
          try (now intro H; injection H);
          (destruct (generate_height_colors p2); [| discriminate];
           cbn [Py.bind]; now intro H; injection H).
      + destruct (String.eqb color_by "original"), c2 as [oc |];
          try (now intro H; injection H);
          (destruct (generate_height_colors p2); [| discriminate];
           cbn [Py.bind]; now intro H; injection H). }
  subst p2.
  exists p1, c1, g1, c2, g2. split; [reflexivity |]. split; [exact E2 |].
  exact E3.
Qed.




Section RouteShape.

Variable las : LasData.
Variables (max_points : option Z) (downsample : option float).
Variables (g g1 g2 : rng) (p1 points : ndarray row).
Variables (c1 c2 : option (ndarray row)).

Hypothesis stage1 :
  match Routes.downsample_requested downsample with
  | Some d => downsample_random (extract_points las) (extract_colors las) d g
  | None => (Ok (extract_points las, extract_colors las), g)
  end = (Ok (p1, c1), g1).

Hypothesis stage2 :
  match max_points with
  | Some mp =>
    if (mp <? Z.of_nat (length p1))%Z then limit_points p1 c1 mp g1
    else (Ok (p1, c1), g1)
  | None => (Ok (p1, c1), g1)
  end = (Ok (points, c2), g2).

(** The reduction stages drop points and never invent them; they keep
    colours when there are colours, and one colour per point. *)
Lemma reduction_stages_shape :
  length points <= length p1 <= length (xyz las)
  /\ (extract_colors las = None <-> c2 = None)
  /\ ((forall r, red las = Some r -> length r = length (xyz las)) ->
      (forall c, c1 = Some c -> length c = length p1)
      /\ (forall c, c2 = Some c -> length c = length points)).
Proof.
  assert (Hp0 : length (extract_points las) = length (xyz las))
    by apply length_map.
  assert (H1 : length p1 <= length (xyz las)
               /\ (extract_colors las = None <-> c1 = None)
               /\ ((forall c, extract_colors las = Some c ->
                              length c = length (extract_points las)) ->
                   forall c, c1 = Some c -> length c = length p1)).
  { rewrite <- Hp0. revert stage1.
    destruct (Routes.downsample_requested downsample) as [d |].
    - apply downsample_random_shape.
    - intro H. injection H as <- <- <-. split; [lia |]. split; [tauto | auto]. }
  assert (H2 : length points <= length p1
               /\ (c1 = None <-> c2 = None)
               /\ ((forall c, c1 = Some c -> length c = length p1) ->
                   forall c, c2 = Some c -> length c = length points)).
  { revert stage2. destruct max_points as [mp |].
    - destruct (mp <? Z.of_nat (length p1))%Z.
      + apply limit_points_shape.
      + intro H. injection H as <- <- <-. split; [lia |]. split; [tauto | auto].
    - intro H. injection H as <- <- <-. split; [lia |]. split; [tauto | auto]. }
  destruct H1 as (L1 & N1 & A1), H2 as (L2 & N2 & A2).
  split; [lia |]. split; [tauto |].
  intro Hred.
  assert (A0 : forall c, extract_colors las = Some c ->
                         length c = length (extract_points las)).
  { intros c Hc. destruct (@extract_colors_length _ _ Hc) as (r & Hr & Hl).
    rewrite Hl, Hp0. now apply Hred. }
  split; [now apply A1 | apply A2; now apply A1].
Qed.

End RouteShape.

(** X10. Every successful request returns colours, one per returned
    point, whatever the scheme and the reduction, when the file has one
    value per record in its red and intensity channels. *)
Theorem get_point_data_one_colour_per_point :
  forall (las : LasData) (max_points : option Z) (color_by : string)
         (downsample : option float) (g g' : rng)
         (points : ndarray row) (colors : option (ndarray row)),
    (forall r, red las = Some r -> length r = length (xyz las)) ->
    (forall i, intensity las = Some i -> length i = length (xyz las)) ->
    Routes.get_point_data las max_points color_by downsample g
    = (Ok (points, colors), g') ->
    exists c, colors = Some c /\ length c = length points.
Proof.
  intros las mp color_by ds g g' points colors Hred Hint H.
  destruct (@get_point_data_stages _ _ _ _ _ _ _ _ H)
    as (p1 & c1 & g1 & c2 & g2 & E1 & E2 & E3).
  destruct (@reduction_stages_shape las mp ds g g1 g2 p1 points c1 c2 E1 E2) as (Hlen & _ & Hal).
  destruct (Hal Hred) as (_ & Hc2).
  assert (Hheight :
            (colors <- generate_height_colors points ;;
             Ok (points, Some colors), g2) = (Ok (points, colors), g') ->
            exists c, colors = Some c /\ length c = length points).
  { destruct (generate_height_colors points) as [hc |] eqn:Eh;
      [| discriminate].
    cbn [Py.bind]. intro E. injection E as <- <-.
    exists hc. split; [reflexivity | now apply generate_height_colors_length]. }
  revert E3.
  destruct (String.eqb color_by "height"); [exact Hheight |].
  destruct (String.eqb color_by "intensity"),
           (extract_intensity las) as [iv |] eqn:Ei.
  - destruct (Routes.sample_intensity iv (length points) ds g2)
      as [[si |] g3] eqn:Es; [| discriminate].
    cbn [Py.bind].
    destruct (generate_intensity_colors si) as [ic |] eqn:Eg;
      [| discriminate].
    cbn [Py.bind]. intro E. injection E as <- <-.
    exists ic. split; [reflexivity |].
    rewrite (@generate_intensity_colors_length _ _ Eg).
    eapply sample_intensity_length; [| exact Es].
    unfold extract_intensity in Ei.
    destruct (intensity las) as [i |] eqn:Ei'; [| discriminate].
    injection Ei as <-. rewrite length_map, (Hint i eq_refl). lia.
  - destruct (String.eqb color_by "original"), c2 as [oc |];
      try exact Hheight.
    intro E. injection E as <- <-. exists oc. split; [reflexivity | auto].
  - destruct (String.eqb color_by "original"), c2 as [oc |];
      try exact Hheight.
    intro E. injection E as <- <-. exists oc. split; [reflexivity | auto].
  - destruct (String.eqb color_by "original"), c2 as [oc |];
      try exact Hheight.
    intro E. injection E as <- <-. exists oc. split; [reflexivity | auto].
Qed.

Lemma get_point_data_one_colour_per_point_witness :
  exists points c g',
    Routes.get_point_data (Samples.las4 Samples.header_1_4) (Some 3%Z)
                          "intensity" None [5; 1; 2]
    = (Ok (points, Some c), g')
    /\ length c = length points.
Proof.
  destruct (Routes.get_point_data (Samples.las4 Samples.header_1_4)
                                  (Some 3%Z) "intensity" None [5; 1; 2])
    as [[[points colors] | e] g'] eqn:E.
  - destruct (@get_point_data_one_colour_per_point
                (Samples.las4 Samples.header_1_4) (Some 3%Z) "intensity" None
                [5; 1; 2] g' points colors) as (c & -> & Hc).
    + discriminate.
    + intros i Hi. injection Hi as <-. reflexivity.
    + exact E.
    + exists points, c, g'. split; [reflexivity | exact Hc].
  - vm_compute in E. discriminate E.
Defined.

(** X11. A successful request with [max_points >= 0] returns at most
    [max_points] points, whatever the scheme and the downsampling, for a
    file of fewer than [2^50] records with one red value per record. *)
Theorem get_point_data_respects_max_points :
  forall (las : LasData) (max_points : Z) (color_by : string)
         (downsample : option float) (g g' : rng)
         (points : ndarray row) (colors : option (ndarray row)),
    (0 <= max_points)%Z ->
    (Z.of_nat (length (xyz las)) < 2 ^ 50)%Z ->
    (forall r, red las = Some r -> length r = length (xyz las)) ->
    Routes.get_point_data las (Some max_points) color_by downsample g
    = (Ok (points, colors), g') ->
    (Z.of_nat (length points) <= max_points)%Z.
Proof.
  intros las mp color_by ds g g' points colors Hmp HN Hred H.
  destruct (@get_point_data_stages _ _ _ _ _ _ _ _ H)
    as (p1 & c1 & g1 & c2 & g2 & E1 & E2 & _).
  destruct (@reduction_stages_shape las (Some mp) ds g g1 g2 p1 points c1 c2
              E1 E2) as (Hlen & _ & Hal).
  destruct (Hal Hred) as (Hc1 & _).
  destruct (Z.ltb_spec mp (Z.of_nat (length p1))) as [Hlt | Hge].
  - destruct (@limit_points_result _ _ p1 c1 mp g1 Hmp)
      as (kept & kc & g3 & Hl & Hle & _); [lia | exact Hc1 |].
    rewrite Hl in E2. injection E2 as <- _ _. exact Hle.
  - injection E2 as <- _ _. exact Hge.
Qed.

Lemma get_point_data_respects_max_points_witness :
  exists points colors g',
    Routes.get_point_data (Samples.las4 Samples.header_1_4) (Some 3%Z)
                          "height" None [5; 1; 2]
    = (Ok (points, colors), g')
    /\ (Z.of_nat (length points) <= 3)%Z.
Proof.
  destruct (Routes.get_point_data (Samples.las4 Samples.header_1_4)
                                  (Some 3%Z) "height" None [5; 1; 2])
    as [[[points colors] | e] g'] eqn:E.
  - exists points, colors, g'. split; [reflexivity |].
    apply (@get_point_data_respects_max_points
             (Samples.las4 Samples.header_1_4) 3%Z "height" None
             [5; 1; 2] g' points colors).
    + lia.
    + simpl. lia.
    + discriminate.
    + exact E.
  - vm_compute in E. discriminate E.
Defined.

(** X12. A scheme the file cannot serve falls back to height colours:
    an unknown [color_by], ["intensity"] on a file without intensity and
    ["original"] on a file without colours all answer exactly as
    ["height"] does. *)
Theorem get_point_data_falls_back_to_height :
  forall (las : LasData) (max_points : option Z) (color_by : string)
         (downsample : option float) (g : rng),
    (color_by = "intensity"%string -> intensity las = None) ->
    (color_by = "original"%string -> extract_colors las = None) ->
    Routes.get_point_data las max_points color_by downsample g
    = Routes.get_point_data las max_points "height" downsample g.
Proof.
  intros las mp color_by ds g Hint Horig.
  unfold Routes.get_point_data.
  destruct (match Routes.downsample_requested ds with
            | Some d =>
              downsample_random (extract_points las) (extract_colors las) d g
            | None => (Ok (extract_points las, extract_colors las), g)
            end) as [[[p1 c1] | e1] g1] eqn:E1; [| reflexivity].
  destruct (match mp with
            | Some m =>
              if (m <? Z.of_nat (length p1))%Z then limit_points p1 c1 m g1
              else (Ok (p1, c1), g1)
            | None => (Ok (p1, c1), g1)
            end) as [[[p2 c2] | e2] g2] eqn:E2; [| reflexivity].
  destruct (@reduction_stages_shape las mp ds g g1 g2 p1 p2 c1 c2 E1 E2) as (_ & Hnone & _).
  change (String.eqb "height" "height") with true. cbv iota.
  destruct (String.eqb_spec color_by "height") as [-> | _]; [reflexivity |].
  destruct (String.eqb_spec color_by "intensity") as [Ei | _].
  - unfold extract_intensity. rewrite (Hint Ei).
    destruct (String.eqb_spec color_by "original") as [Eo | _];
      [| reflexivity].
    rewrite Ei in Eo. discriminate Eo.
  - destruct (extract_intensity las);
      (destruct (String.eqb_spec color_by "original") as [Eo | _];
       [| reflexivity];
       rewrite (proj1 Hnone (Horig Eo)); reflexivity).
Qed.

Lemma get_point_data_falls_back_to_height_witness :
  Routes.get_point_data (Samples.las4 Samples.header_1_4) (Some 3%Z)
                        "original" None [5; 1; 2]
  = Routes.get_point_data (Samples.las4 Samples.header_1_4) (Some 3%Z)
                          "height" None [5; 1; 2].
Proof.
  apply get_point_data_falls_back_to_height.
  - discriminate.
  - reflexivity.
Defined.



(* ================================================================== *)
(** * The file registry                                                *)
(* ================================================================== *)

Section RegistryFacts.

Import Files.

Lemma lookup_assign_same (r : registry) (k : string) (info : FileInfo) :
  lookup (assign r k info) k = Some info.
Proof.
  induction r as [|[k' old] r IH]; simpl.
  - now rewrite String.eqb_refl.
  - destruct (String.eqb k' k) eqn:E; simpl; rewrite E; [reflexivity | exact IH].
Qed.

Lemma lookup_assign_other (r : registry) (k k' : string) (info : FileInfo) :
  k' <> k -> lookup (assign r k info) k' = lookup r k'.
Proof.
  intro Hne. induction r as [|[k0 old] r IH]; simpl.
  - destruct (String.eqb_spec k k'); [congruence | reflexivity].
  - destruct (String.eqb_spec k0 k) as [-> | Hk]; simpl.
    + destruct (String.eqb_spec k k'); [congruence | reflexivity].
    + destruct (String.eqb k0 k'); [reflexivity | exact IH].
Qed.

Lemma assign_fresh (r : registry) (k : string) (info : FileInfo) :
  lookup r k = None -> assign r k info = r ++ [(k, info)].
Proof.
  induction r as [|[k0 old] r IH]; simpl; [reflexivity |].
  destruct (String.eqb k0 k); [discriminate |].
  intro H. now rewrite IH.
Qed.

Lemma lookup_del_same (r : registry) (k : string) : lookup (del r k) k = None.
Proof.
  induction r as [|[k0 old] r IH]; simpl; [reflexivity |].
  destruct (String.eqb k0 k) eqn:E; simpl; [exact IH |].
  now rewrite E.
Qed.

Lemma lookup_del_other (r : registry) (k k' : string) :
  k' <> k -> lookup (del r k) k' = lookup r k'.
Proof.
  intro Hne. induction r as [|[k0 old] r IH]; simpl; [reflexivity |].
  destruct (String.eqb_spec k0 k) as [-> | Hk]; simpl.
  - destruct (String.eqb_spec k k'); [congruence | exact IH].
  - destruct (String.eqb k0 k'); [reflexivity | exact IH].
Qed.

End RegistryFacts.

Section UploadCases.

Import Files.

Variable content : Type.
Variable size : content -> Z.
Variable laspy_read : content -> result LasData.
Variable suffix : string -> string.

(** The outcomes of an upload, case by case. *)
Lemma upload_file_cases (new_id now : string) (filename : option string)
      (body : content) (st : state content) :
  upload_file size laspy_read suffix new_id now filename body st = (Raise (HTTPException 400), st)
  \/ exists name file_path,
       filename = Some name
       /\ file_path = (UPLOAD_DIR ++ "/" ++ new_id ++ suffix name)%string
       /\ (upload_file size laspy_read suffix new_id now filename body st
           = (Raise (HTTPException 500),
              {| files := write (files st) file_path body;
                 file_registry := file_registry st |})
           \/ exists md,
                upload_file size laspy_read suffix new_id now filename body st
                = (Ok {| file_id := new_id;
                         message := ("Successfully uploaded " ++ name)%string;
                         response_metadata := md |},
                   {| files := write (files st) file_path body;
                      file_registry :=
                        assign (file_registry st) new_id
                               {| original_filename := name;
                                  stored_path := file_path;
                                  metadata := md;
                                  upload_date := now;
                                  source := "upload" |} |})).
Proof.
  unfold upload_file.
  destruct filename as [name |]; [| now left].
  destruct (String.eqb name ""
            || negb (endswith (lower name) ".las"
                     || endswith (lower name) ".laz"))%bool; [now left |].
  right. eexists name, _. split; [reflexivity |]. split; [reflexivity |].
  match goal with
  | |- context [match ?r with Ok _ => _ | Raise _ => _ end] =>
    destruct r as [md | e]
  end.
  - right. exists md. reflexivity.
  - left. reflexivity.
Qed.

End UploadCases.

(** X14. A successful upload is registered under the identifier it
    returns: the info route then answers with the metadata of the
    response, the answers for every other identifier are unchanged, the
    uploaded bytes are on disk under the registered path, and a new
    identifier is listed last, under the name the client gave. *)
Theorem upload_file_registers :
  forall (content : Type) (size : content -> Z)
         (laspy_read : content -> result LasData) (suffix : string -> string)
         (new_id now : string) (filename : option string) (body : content)
         (st st' : Files.state content) (response : Files.FileUploadResponse),
    Files.upload_file size laspy_read suffix new_id now filename body st
    = (Ok response, st') ->
    Files.file_id response = new_id
    /\ Files.get_file_info st' new_id = Ok (Files.response_metadata response)
    /\ (forall other, other <> new_id ->
                      Files.get_file_info st' other
                      = Files.get_file_info st other)
    /\ (exists info,
          Files.lookup (Files.file_registry st') new_id = Some info
          /\ filename = Some (Files.original_filename info)
          /\ Files.files st' (Files.stored_path info) = Some body)
    /\ (Files.lookup (Files.file_registry st) new_id = None ->
        exists name,
          filename = Some name
          /\ Files.list_files st'
             = Files.list_files st
               ++ [{| Files.listed_file_id := new_id;
                      Files.listed_filename := name;
                      Files.listed_metadata := Files.response_metadata response;
                      Files.listed_upload_date := now;
                      Files.listed_source := "upload" |}]).
Proof.
  intros content size laspy_read suffix new_id now filename body st st'
         response H.
  destruct (upload_file_cases size laspy_read suffix new_id now filename body st)
    as [E | (name & path & -> & Hpath & [E | (md & E)])];
    rewrite E in H; try discriminate H.
  injection H as <- <-. cbn [Files.file_id Files.response_metadata].
  split; [reflexivity |].
  unfold Files.get_file_info. cbn [Files.file_registry Files.files].
  split; [now rewrite lookup_assign_same |].
  split; [intros other Hne; now rewrite lookup_assign_other |].
  split.
  - eexists. split; [apply lookup_assign_same |].
    cbn [Files.original_filename Files.stored_path]. split; [reflexivity |].
    unfold Files.write. now rewrite String.eqb_refl.
  - intro Hfresh. exists name. split; [reflexivity |].
    unfold Files.list_files. cbn [Files.file_registry].
    rewrite (@assign_fresh _ _ _ Hfresh), map_app. reflexivity.
Qed.

Lemma upload_file_registers_witness :
  exists response st',
    Files.upload_file (fun _ : option LasData => 1234%Z)
                      (fun c => match c with
                                | Some las => Ok las
                                | None => Raise ValueError
                                end)
                      (fun _ => ".las"%string)
                      "id-1" "2024-05-01T12:00:00" (Some "Cloud.LAS"%string)
                      (Some (Samples.las4 Samples.header_1_4))
                      {| Files.files := fun _ => None;
                         Files.file_registry := [] |}
    = (Ok response, st')
    /\ Files.get_file_info st' "id-1"%string
       = Ok (Files.response_metadata response).
Proof.
  destruct (Files.upload_file (fun _ : option LasData => 1234%Z)
                      (fun c => match c with
                                | Some las => Ok las
                                | None => Raise ValueError
                                end)
                      (fun _ => ".las"%string)
                      "id-1" "2024-05-01T12:00:00" (Some "Cloud.LAS"%string)
                      (Some (Samples.las4 Samples.header_1_4))
                      {| Files.files := fun _ => None;
                         Files.file_registry := [] |})
    as [[response | e] st'] eqn:E.
  - exists response, st'. split; [reflexivity |].
    exact (proj1 (proj2 (upload_file_registers _ _ _ _ _ _ _ _ E))).
  - vm_compute in E. discriminate E.
Defined.

(** X15. An upload that fails registers nothing.  The answer is 400 or
    500; after a 400 nothing has changed at all, while after a 500 the
    registry is unchanged but the uploaded bytes have been stored, and
    stay, in the upload directory. *)
Theorem upload_file_failure :
  forall (content : Type) (size : content -> Z)
         (laspy_read : content -> result LasData) (suffix : string -> string)
         (new_id now : string) (filename : option string) (body : content)
         (st st' : Files.state content) (e : exn),
    Files.upload_file size laspy_read suffix new_id now filename body st
    = (Raise e, st') ->
    Files.file_registry st' = Files.file_registry st
    /\ ((e = HTTPException 400 /\ st' = st)
        \/ (e = HTTPException 500
            /\ exists name,
                 filename = Some name
                 /\ Files.files st'
                      (Files.UPLOAD_DIR ++ "/" ++ new_id ++ suffix name)%string
                    = Some body)).
Proof.
  intros content size laspy_read suffix new_id now filename body st st' e H.
  destruct (upload_file_cases size laspy_read suffix new_id now filename body st)
    as [E | (name & path & -> & -> & [E | (md & E)])];
    rewrite E in H; try discriminate H; injection H as <- <-.
  - split; [reflexivity |]. left. split; reflexivity.
  - split; [reflexivity |]. right. split; [reflexivity |].
    exists name. split; [reflexivity |].
    cbn [Files.files]. unfold Files.write. now rewrite String.eqb_refl.
Qed.

Lemma upload_file_failure_witness :
  exists st',
    Files.upload_file (fun _ : option LasData => 1234%Z)
                      (fun c => match c with
                                | Some las => Ok las
                                | None => Raise ValueError
                                end)
                      (fun _ => ".las"%string)
                      "id-2" "2024-05-01T12:00:00" (Some "broken.las"%string)
                      None
                      {| Files.files := fun _ => None;
                         Files.file_registry := [] |}
    = (Raise (HTTPException 500), st')
    /\ Files.file_registry st' = []
    /\ Files.files st' "data/uploads/id-2.las"%string = Some None.
Proof.
  destruct (Files.upload_file (fun _ : option LasData => 1234%Z)
                      (fun c => match c with
                                | Some las => Ok las
                                | None => Raise ValueError
                                end)
                      (fun _ => ".las"%string)
                      "id-2" "2024-05-01T12:00:00" (Some "broken.las"%string)
                      None
                      {| Files.files := fun _ => None;
                         Files.file_registry := [] |})
    as [[response | e] st'] eqn:E.
  - vm_compute in E. discriminate E.
  - destruct (upload_file_failure _ _ _ _ _ _ _ _ E)
      as (Hreg & [(He & Hst) | (He & name & Hname & Hfile)]).
    + subst e st'. vm_compute in E. discriminate E.
    + subst e. injection Hname as <-. exists st'.
      split; [reflexivity |]. split; [exact Hreg | exact Hfile].
Defined.

(** X16. A deleted file is gone: a successful delete removes the stored
    file from disk, after it the info and the point routes answer 404
    for that identifier, and the info answers for every other identifier
    are unchanged. *)
Theorem delete_file_forgets :
  forall (content : Type) (laspy_read : content -> result LasData)
         (st st' : Files.state content) (id : string) (answer : string),
    Files.delete_file st id = (Ok answer, st') ->
    (exists info,
       Files.lookup (Files.file_registry st) id = Some info
       /\ Files.files st' (Files.stored_path info) = None)
    /\ Files.get_file_info st' id = Raise (HTTPException 404)
    /\ (forall max_points color_by downsample g,
          Files.get_point_data_handler laspy_read st' id max_points color_by
                               downsample g
          = (Raise (HTTPException 404), g))
    /\ (forall other, other <> id ->
                      Files.get_file_info st' other
                      = Files.get_file_info st other).
Proof.
  intros content laspy_read st st' id answer. unfold Files.delete_file.
  destruct (Files.lookup (Files.file_registry st) id) as [info |] eqn:El;
    [| discriminate].
  intro H. injection H as _ <-.
  split.
  - exists info. split; [reflexivity |]. cbn [Files.files].
    destruct (Files.files st (Files.stored_path info)) eqn:Ef; [| exact Ef].
    unfold Files.remove. now rewrite String.eqb_refl.
  - unfold Files.get_file_info, Files.get_point_data_handler.
    cbn [Files.file_registry].
    rewrite lookup_del_same. split; [reflexivity |]. split; [reflexivity |].
    intros other Hne. now rewrite lookup_del_other.
Qed.

Lemma delete_file_forgets_witness :
  exists answer st',
    Files.delete_file
      {| Files.files :=
           fun p => if String.eqb p "data/uploads/id-1.las"
                    then Some (Samples.las4 Samples.header_1_4) else None;
         Files.file_registry :=
           [("id-1"%string,
             {| Files.original_filename := "Cloud.LAS";
                Files.stored_path := "data/uploads/id-1.las";
                Files.metadata :=
                  {| filename := "id-1.las"; point_count := 4;
                     bounds := {| min_x := zero; max_x := zero;
                                  min_y := zero; max_y := zero;
                                  min_z := zero; max_z := zero |};
                     has_colors := false; has_intensity := true;
                     file_size := 1234; las_version := "1.4";
                     point_data_format := 3 |};
                Files.upload_date := "2024-05-01T12:00:00";
                Files.source := "upload" |})] |}
      "id-1"
    = (Ok answer, st')
    /\ Files.get_file_info st' "id-1"%string = Raise (HTTPException 404)
    /\ Files.files st' "data/uploads/id-1.las"%string = None.
Proof.
  match goal with
  | |- exists answer st', Files.delete_file ?s _ = _ /\ _ => set (st := s)
  end.
  destruct (Files.delete_file st "id-1") as [[answer | e] st'] eqn:E.
  - destruct (@delete_file_forgets LasData (fun las => Ok las) st st'
                                   "id-1"%string answer E)
      as ((info & Hinfo & Hgone) & H404 & _).
    exists answer, st'. split; [reflexivity |]. split; [exact H404 |].
    subst st. cbn in Hinfo. injection Hinfo as <-. exact Hgone.
  - subst st. vm_compute in E. discriminate E.
Defined.

(* ================================================================== *)
(** * The ends of the colour ramps                                     *)
(* ================================================================== *)

Section RampEnds.

Local Open Scope Z_scope.

(** In binary32 a finite number divided by itself is exactly 1. *)
Lemma SFdiv_core_diag (m : positive) (e : Z) :
  SFdiv_core_binary prec32 emax32 (Zpos m) e (Zpos m) e
  = (16777216, -24, loc_Exact).
Proof.
  unfold SFdiv_core_binary.
  replace (Zdigits2 (Zpos m) + e - (Zdigits2 (Zpos m) + e)) with 0 by ring.
  replace (e - e) with 0 by ring.
  change (Z.min (fexp prec32 emax32 0) 0) with (-24).
  change (0 - -24) with 24. cbv iota beta zeta.
  rewrite Z.shiftl_mul_pow2 by lia. change (2 ^ 24) with 16777216.
  pose proof (Z_div_mult_full 16777216 (Zpos m) ltac:(lia)) as Hq.
  pose proof (Z_mod_mult 16777216 (Zpos m)) as Hr.
  rewrite (Z.mul_comm 16777216 (Zpos m)) in Hq, Hr.
  unfold Z.div in Hq. unfold Z.modulo in Hr.
  destruct (Z.div_eucl (Zpos m * 16777216) (Zpos m)) as [q r].
  cbn [fst snd] in Hq, Hr. subst q r.
  unfold new_location, new_location_even, new_location_odd.
  destruct (Z.even (Zpos m)); reflexivity.
Qed.

Lemma div32_diag (x : float) (s : bool) (m : positive) (e : Z) :
  narrow32 x = S754_finite s m e -> div32 x x = one.
Proof.
  intro H. unfold div32. rewrite H. unfold SFdiv.
  rewrite SFdiv_core_diag. destruct s; reflexivity.
Qed.

(** Zero divided by a positive finite number is [+0.0]. *)
Lemma div32_zero (d : float) (m : positive) (e : Z) :
  narrow32 d = S754_finite false m e -> div32 zero d = zero.
Proof. intro H. unfold div32. rewrite H. reflexivity. Qed.

(** A finite difference has finite operands, and they are not equal. *)
Lemma sub32_finite_operands (a b : float) (s : bool) (m : positive) (e : Z) :
  narrow32 (sub32 a b) = S754_finite s m e ->
  is_finite (narrow32 a) = true /\ is_finite (narrow32 b) = true.
Proof.
  unfold sub32.
  destruct (narrow32 a) as [sa | sa | | sa ma ea],
           (narrow32 b) as [sb | sb | | sb mb eb];
    try (intros _; split; reflexivity);
    try destruct sa; try destruct sb; cbn; discriminate.
Qed.

End RampEnds.

(** [==] holds between two numbers only when they subtract to zero or to
    NaN. *)
Lemma eqb_sub32_not_finite (a b : float) (s : bool) (m : positive) (e : Z) :
  eqb a b = true -> narrow32 (sub32 a b) <> S754_finite s m e.
Proof.
  unfold eqb, SFeqb, SFcompare.
  destruct a as [sa | sa | | sa ma ea], b as [sb | sb | | sb mb eb];
    try destruct sa; try destruct sb; try discriminate;
    try (intros _; cbn; discriminate).
  - destruct (Z.compare_spec ea eb) as [-> | _ | _]; try discriminate.
    change (Pos.compare_cont Eq ma mb) with (Pos.compare ma mb).
    destruct (Pos.compare_spec ma mb) as [-> | _ | _]; try discriminate.
    intros _ H.
    destruct (@sub32_finite_operands _ _ _ _ _ H) as [Hf _].
    rewrite (sub32_diag _ Hf) in H. discriminate H.
  - destruct (Z.compare_spec ea eb) as [-> | _ | _]; try discriminate.
    change (Pos.compare_cont Eq ma mb) with (Pos.compare ma mb).
    destruct (Pos.compare_spec ma mb) as [-> | _ | _]; try discriminate.
    intros _ H.
    destruct (@sub32_finite_operands _ _ _ _ _ H) as [Hf _].
    rewrite (sub32_diag _ Hf) in H. discriminate H.
Qed.

Lemma height_gradient_ends :
  height_gradient zero = (zero, zero, one)
  /\ height_gradient one = (one, literal 1 8388608, zero).
Proof. split; vm_compute; reflexivity. Qed.

(** X17. The ends of the gray ramp.  When the range [i_max - i_min] is,
    as a float32, positive and finite, the intensity scheme colours every
    value equal to the minimum black, [(0, 0, 0)], and every value equal
    to the maximum white, [(1, 1, 1)]. *)
Theorem generate_intensity_colors_ends :
  forall (intensity : ndarray float) (i_min i_max : float)
         (m : positive) (e : Z),
    amin intensity = Ok i_min ->
    amax intensity = Ok i_max ->
    narrow32 (sub32 i_max i_min) = S754_finite false m e ->
    exists colors,
      generate_intensity_colors intensity = Ok colors
      /\ (forall k, nth_error intensity k = Some i_min ->
                    nth_error colors k = Some (zero, zero, zero))
      /\ (forall k, nth_error intensity k = Some i_max ->
                    nth_error colors k = Some (one, one, one)).
Proof.
  intros intensity lo hi m e Hlo Hhi Hd.
  destruct (@sub32_finite_operands _ _ _ _ _ Hd) as [_ Hflo].
  assert (Hne : eqb hi lo = false).
  { destruct (eqb hi lo) eqn:E; [| reflexivity].
    now destruct (@eqb_sub32_not_finite _ _ false m e E). }
  unfold generate_intensity_colors.
  destruct intensity as [|x xs]; [discriminate Hlo |].
  set (a := x :: xs) in *.
  change (Nat.eqb (length a) 0) with false. cbv iota.
  rewrite Hlo, Hhi. cbn [Py.bind]. rewrite Hne.
  eexists. split; [reflexivity |]. split.
  - intros k Hk. rewrite !nth_error_map, Hk. cbn [option_map].
    rewrite (sub32_diag _ Hflo), (div32_zero _ Hd). reflexivity.
  - intros k Hk. rewrite !nth_error_map, Hk. cbn [option_map].
    rewrite (div32_diag _ Hd). reflexivity.
Qed.

Lemma generate_intensity_colors_ends_witness :
  exists colors,
    generate_intensity_colors Samples.intensity4 = Ok colors
    /\ nth_error colors 0 = Some (zero, zero, zero)
    /\ nth_error colors 3 = Some (one, one, one).
Proof.
  destruct (@generate_intensity_colors_ends
              Samples.intensity4 (of_Z 10) (of_Z 40) _ _
              eq_refl eq_refl eq_refl) as (colors & H & Hlo & Hhi).
  exists colors. split; [exact H |].
  split; [apply Hlo | apply Hhi]; reflexivity.
Defined.

(** X18. The ends of the height ramp.  When the range [z_max - z_min]
    is, as a float32, positive and finite, the height scheme colours
    every point at the minimum height pure blue, [(0, 0, 1)], and every
    point at the maximum height red with a trace of green,
    [(1, 2^-23, 0)]: the float32 quotient [(1 - 0.67) / 0.33] falls short
    of one by [2^-23]. *)
Theorem generate_height_colors_ends :
  forall (points : ndarray row) (z_min z_max : float)
         (m : positive) (e : Z),
    amin (map col2 points) = Ok z_min ->
    amax (map col2 points) = Ok z_max ->
    narrow32 (sub32 z_max z_min) = S754_finite false m e ->
    exists colors,
      generate_height_colors points = Ok colors
      /\ (forall k p, nth_error points k = Some p -> col2 p = z_min ->
                      nth_error colors k = Some (zero, zero, one))
      /\ (forall k p, nth_error points k = Some p -> col2 p = z_max ->
                      nth_error colors k
                      = Some (one, literal 1 8388608, zero)).
Proof.
  intros points lo hi m e Hlo Hhi Hd.
  destruct (@sub32_finite_operands _ _ _ _ _ Hd) as [_ Hflo].
  assert (Hne : eqb hi lo = false).
  { destruct (eqb hi lo) eqn:E; [| reflexivity].
    now destruct (@eqb_sub32_not_finite _ _ false m e E). }
  destruct height_gradient_ends as [Hzero Hone].
  unfold generate_height_colors.
  rewrite Hlo, Hhi. cbn [Py.bind]. rewrite Hne.
  eexists. split; [reflexivity |]. split.
  - intros k p Hk Hz. rewrite !nth_error_map, Hk. cbn [option_map].
    rewrite Hz, (sub32_diag _ Hflo), (div32_zero _ Hd). now rewrite Hzero.
  - intros k p Hk Hz. rewrite !nth_error_map, Hk. cbn [option_map].
    rewrite Hz, (div32_diag _ Hd). now rewrite Hone.
Qed.

Lemma generate_height_colors_ends_witness :
  exists colors,
    generate_height_colors
      [Samples.pt 0 0 5; Samples.pt 1 0 7; Samples.pt 2 0 9] = Ok colors
    /\ nth_error colors 0 = Some (zero, zero, one)
    /\ nth_error colors 2 = Some (one, literal 1 8388608, zero).
Proof.
  destruct (@generate_height_colors_ends
              [Samples.pt 0 0 5; Samples.pt 1 0 7; Samples.pt 2 0 9]
              (of_Z 5) (of_Z 9) _ _ eq_refl eq_refl eq_refl)
    as (colors & H & Hlo & Hhi).
  exists colors. split; [exact H |].
  split; [apply (Hlo 0%nat (Samples.pt 0 0 5))
         | apply (Hhi 2%nat (Samples.pt 2 0 9))]; reflexivity.
Defined.

(* ================================================================== *)
(** * The range of the extracted colours                               *)
(* ================================================================== *)

Section ChannelRange.

Local Open Scope Z_scope.

Ltac pow2_pos := apply Z.pow_pos_nonneg; lia.

Ltac binary64 :=
  rewrite ?emin64; change emax64 with 1024; change prec64 with 53.

Lemma emin32 : emin prec32 emax32 = -149.
Proof. reflexivity. Qed.

Ltac binary32 :=
  rewrite ?emin32; change emax32 with 128; change prec32 with 24.

Lemma div_core_normalized (m1 m2 e1 e2 : Z) :
  Zdigits2 m1 = 53 -> Zdigits2 m2 = 53 -> -1021 <= e1 - e2 ->
  SFdiv_core_binary prec64 emax64 m1 e1 m2 e2
  = (m1 * 2 ^ 53 / m2, e1 - e2 - 53, new_location m2 ((m1 * 2 ^ 53) mod m2)).
Proof.
  intros D1 D2 He.
  unfold SFdiv_core_binary. cbv zeta. rewrite D1, D2.
  assert (He' : Z.min (fexp prec64 emax64 (53 + e1 - (53 + e2))) (e1 - e2)
                = e1 - e2 - 53).
  { unfold fexp. binary64. lia. }
  rewrite He'.
  replace (e1 - e2 - (e1 - e2 - 53)) with 53 by lia.
  rewrite Z.shiftl_mul_pow2 by lia.
  unfold Z.div, Z.modulo.
  destruct (Z.div_eucl (m1 * 2 ^ 53) m2) as [q r]. reflexivity.
Qed.

(** The quotient of two positive normal numbers: normal again, and at
    most two units of the last place of the exact quotient above its
    integer part. *)
Lemma div64_normalized_upper (mx my : positive) (ex ey : Z) :
  2 ^ 52 <= Zpos mx < 2 ^ 53 -> 2 ^ 52 <= Zpos my < 2 ^ 53 ->
  -1021 <= ex - ey <= 1020 ->
  exists mf ef q,
    div64 (S754_finite false mx ex) (S754_finite false my ey)
    = S754_finite false mf ef
    /\ 2 ^ 52 <= Zpos mf < 2 ^ 53
    /\ q * Zpos my <= Zpos mx * 2 ^ 53
    /\ ex - ey - 53 <= ef <= ex - ey - 51
    /\ Zpos mf * 2 ^ (ef - (ex - ey - 53)) <= q + 2.
Proof.
  intros Hx Hy He.
  assert (Dx : Zdigits2 (Zpos mx) = 53) by (apply Zdigits2_unique; lia).
  assert (Dy : Zdigits2 (Zpos my) = 53) by (apply Zdigits2_unique; lia).
  set (q := Zpos mx * 2 ^ 53 / Zpos my).
  assert (Qn : q * Zpos my <= Zpos mx * 2 ^ 53).
  { unfold q. rewrite Z.mul_comm. apply Z.mul_div_le. lia. }
  assert (Qlo : 2 ^ 52 <= q).
  { apply Z.div_le_lower_bound; [lia |].
    assert (Zpos my * 2 ^ 52 <= 2 ^ 53 * 2 ^ 52)
      by (apply Z.mul_le_mono_nonneg_r; lia).
    assert (2 ^ 52 * 2 ^ 53 <= Zpos mx * 2 ^ 53)
      by (apply Z.mul_le_mono_nonneg_r; lia).
    lia. }
  assert (Q54 : q < 2 ^ 54).
  { apply Z.div_lt_upper_bound; [lia |].
    assert (Zpos mx * 2 ^ 53 < 2 ^ 53 * 2 ^ 53)
      by (apply Z.mul_lt_mono_pos_r; lia).
    assert (2 ^ 52 * 2 ^ 54 <= Zpos my * 2 ^ 54)
      by (apply Z.mul_le_mono_nonneg_r; lia).
    change (2 ^ 53 * 2 ^ 53) with (2 ^ 52 * 2 ^ 54) in *. lia. }
  assert (Qpos : 0 < q) by lia.
  pose proof (Zdigits2_bounds Qpos) as [Q1 Q2].
  assert (Dq1 : 53 <= Zdigits2 q).
  { assert (52 < Zdigits2 q)
      by (apply pow2_lt_inv; [pose proof (Zdigits2_pos Qpos) |]; lia). lia. }
  assert (Dq2 : Zdigits2 q <= 54).
  { assert (Zdigits2 q - 1 < 54) by (apply pow2_lt_inv; lia). lia. }
  assert (P53 : 0 < prec64) by reflexivity.
  destruct (@binary_round_aux_normal prec64 emax64 P53 false q (ex - ey - 53)
              (new_location (Zpos my) ((Zpos mx * 2 ^ 53) mod Zpos my)) Qpos)
    as (mf & ef & Hr & Hmf & Hef & Hval).
  { exact Dq1. }
  { binary64. lia. }
  change prec64 with 53 in Hmf, Hef, Hval, Hr. change emax64 with 1024 in Hr.
  change (53 - 1) with 52 in Hmf.
  assert (H2 : 2 ^ (Zdigits2 q - 53) <= 2 ^ 1) by (apply Z.pow_le_mono_r; lia).
  change (2 ^ 1) with 2 in H2.
  exists mf, ef, q.
  split.
  { unfold div64, SFdiv. cbn [xorb].
    rewrite div_core_normalized by (assumption || lia).
    fold q. change prec64 with 53. change emax64 with 1024. rewrite Hr.
    replace (ef <=? 1024 - 53) with true by (symmetry; apply Z.leb_le; lia).
    reflexivity. }
  split; [exact Hmf |]. split; [exact Qn |]. split; [lia |]. lia.
Qed.

(** Rounding a normal binary64 number to binary32. *)
Lemma narrow32_normalized_upper (mf : positive) (ef : Z) :
  2 ^ 52 <= Zpos mf < 2 ^ 53 -> -178 <= ef <= 74 ->
  exists m2 e2,
    narrow32 (S754_finite false mf ef) = S754_finite false m2 e2
    /\ 2 ^ 23 <= Zpos m2 < 2 ^ 24
    /\ ef + 29 <= e2 <= ef + 30
    /\ Zpos m2 * 2 ^ (e2 - ef) <= Zpos mf + 2 ^ 29.
Proof.
  intros Hm He.
  assert (Dm : Zdigits2 (Zpos mf) = 53) by (apply Zdigits2_unique; lia).
  assert (P24 : 0 < prec32) by reflexivity.
  destruct (@binary_round_aux_normal prec32 emax32 P24 false (Zpos mf) ef
              loc_Exact ltac:(lia))
    as (m2 & e2 & Hr & Hm2 & He2 & Hval).
  { rewrite Dm. binary32. lia. }
  { rewrite Dm. binary32. lia. }
  rewrite Dm in He2, Hval.
  change prec32 with 24 in Hm2, He2, Hval, Hr. change emax32 with 128 in Hr.
  change (24 - 1) with 23 in Hm2. change (53 - 24) with 29 in He2, Hval.
  exists m2, e2.
  split.
  { unfold narrow32, binary_round.
    change (Zpos (digits2_pos mf)) with (Zdigits2 (Zpos mf)). rewrite Dm.
    assert (Hf : fexp prec32 emax32 (53 + ef) = ef + 29)
      by (unfold fexp; binary32; lia).
    rewrite Hf. unfold shl_align.
    replace (ef + 29 - ef) with 29 by lia.
    change prec32 with 24. change emax32 with 128. rewrite Hr.
    replace (e2 <=? 128 - 24) with true by (symmetry; apply Z.leb_le; lia).
    reflexivity. }
  split; [exact Hm2 |]. split; [lia | exact Hval].
Qed.

(** A normal binary32 number is a binary64 number as it is. *)
Lemma widen64_normalized (m2 : positive) (e2 : Z) :
  2 ^ 23 <= Zpos m2 < 2 ^ 24 -> -1045 <= e2 <= 1000 ->
  widen64 (S754_finite false m2 e2)
  = S754_finite false (Pos.iter xO m2 29) (e2 - 29).
Proof.
  intros Hm He.
  assert (Dm : Zdigits2 (Zpos m2) = 24) by (apply Zdigits2_unique; lia).
  unfold widen64, binary_round.
  change (Zpos (digits2_pos m2)) with (Zdigits2 (Zpos m2)). rewrite Dm.
  assert (Hf : fexp prec64 emax64 (24 + e2) = e2 - 29)
    by (unfold fexp; binary64; lia).
  rewrite Hf. unfold shl_align.
  replace (e2 - 29 - e2) with (-29) by lia.
  apply binary_round_aux_exact.
  - apply Zdigits2_unique; [| reflexivity].
    rewrite pos_iter_xO. change prec64 with 53.
    change (2 ^ (53 - 1)) with (2 ^ 23 * 2 ^ 29).
    change (2 ^ 53) with (2 ^ 24 * 2 ^ 29).
    change (2 ^ Zpos 29) with (2 ^ 29).
    assert (0 < 2 ^ 29) by pow2_pos.
    split; [apply Z.mul_le_mono_nonneg_r | apply Z.mul_lt_mono_pos_r]; lia.
  - binary64. lia.
  - binary64. lia.
Qed.

(** Each of the 65536 values of a 16-bit channel is scaled into [0, 1]. *)
Lemma channel_unit_range (v : Z) :
  0 <= v <= 65535 ->
  let c := astype_float32 (div64 (of_Z v) c65535) in
  leb zero c = true /\ leb c one = true.
Proof.
  intros Hv c. subst c.
  destruct (Z.eq_dec v 0) as [-> | Hv0]; [split; reflexivity |].
  destruct (Z.eq_dec v 65535) as [-> | Hv1];
    [split; vm_compute; reflexivity |].
  assert (Hpos : 0 < v < 2 ^ 53) by lia.
  destruct (of_Z_exact Hpos) as (mv & Hof & Emv & Bmv).
  assert (Hn : 0 < 65535 < 2 ^ 53) by lia.
  destruct (of_Z_exact Hn) as (mn & Hofn & Emn & Bmn).
  change (Zdigits2 65535) with 16 in Hofn, Emn.
  change (16 - 53) with (-37) in Hofn. change (53 - 16) with 37 in Emn.
  change c65535 with (of_Z 65535). rewrite Hof, Hofn.
  assert (Hv' : 0 < v) by lia.
  pose proof (Zdigits2_bounds Hv') as [V1 V2].
  pose proof (Zdigits2_pos Hv') as Dpos.
  set (d := Zdigits2 v) in *.
  assert (Dle : d <= 16).
  { assert (d - 1 < 16) by (apply pow2_lt_inv; lia). lia. }
  destruct (@div64_normalized_upper mv mn (d - 53) (-37) Bmv Bmn ltac:(lia))
    as (mf & ef & q & Hdiv & Bmf & Hq & Hef & Hval).
  rewrite Hdiv.
  destruct (@narrow32_normalized_upper mf ef Bmf ltac:(lia))
    as (m2 & e2 & Hnar & Bm2 & He2 & Hval2).
  unfold astype_float32. rewrite Hnar.
  rewrite widen64_normalized by (assumption || lia).
  split; [reflexivity |].
  apply leb_finite_pos. left.
  (* the value is below one: e2 <= -24 *)
  replace (d - 53 - -37 - 53) with (d - 69) in Hval, Hef by lia.
  set (T := 2 ^ (69 - d)).
  assert (T53 : 2 ^ 53 <= T) by (apply Z.pow_le_mono_r; lia).
  assert (Hq' : 65535 * q <= 65534 * T).
  { assert (E : Zpos mv * 2 ^ 53 = v * T * 2 ^ 37).
    { rewrite Emv. unfold T.
      replace (v * 2 ^ (53 - d) * 2 ^ 53) with (v * (2 ^ (53 - d) * 2 ^ 53))
        by ring.
      replace (v * 2 ^ (69 - d) * 2 ^ 37) with (v * (2 ^ (69 - d) * 2 ^ 37))
        by ring.
      rewrite <- !Z.pow_add_r by lia. do 2 f_equal. lia. }
    rewrite E, Emn in Hq.
    assert (q * 65535 * 2 ^ 37 <= v * T * 2 ^ 37) by lia.
    assert (q * 65535 <= v * T)
      by (apply Z.mul_le_mono_pos_r with (p := 2 ^ 37); [pow2_pos | lia]).
    assert (v * T <= 65534 * T) by (apply Z.mul_le_mono_nonneg_r; lia).
    lia. }
  set (Y := 2 ^ (ef - (d - 69))) in *.
  assert (HY : Y = 1 \/ Y = 2 \/ Y = 4).
  { unfold Y.
    assert (C : ef - (d - 69) = 0 \/ ef - (d - 69) = 1 \/ ef - (d - 69) = 2)
      by lia.
    destruct C as [-> | [-> | ->]]; auto. }
  set (X := Zpos m2 * 2 ^ (e2 - (d - 69))).
  assert (HX : X <= Zpos mf * Y + 2 ^ 29 * Y).
  { unfold X, Y.
    replace (e2 - (d - 69)) with ((e2 - ef) + (ef - (d - 69))) by lia.
    rewrite Z.pow_add_r by lia.
    assert (0 < 2 ^ (ef - (d - 69))) by pow2_pos.
    assert (Zpos m2 * 2 ^ (e2 - ef) * 2 ^ (ef - (d - 69))
            <= (Zpos mf + 2 ^ 29) * 2 ^ (ef - (d - 69)))
      by (apply Z.mul_le_mono_nonneg_r; lia).
    lia. }
  assert (XT : X < T).
  { destruct HY as [EY | [EY | EY]]; rewrite EY in *; lia. }
  assert (L : 2 ^ (23 + (e2 - (d - 69))) < 2 ^ (69 - d)).
  { rewrite Z.pow_add_r by lia. fold T.
    assert (2 ^ 23 * 2 ^ (e2 - (d - 69)) <= X).
    { unfold X. apply Z.mul_le_mono_nonneg_r; [| lia].
      apply Z.pow_nonneg. lia. }
    lia. }
  apply pow2_lt_inv in L; lia.
Qed.

End ChannelRange.

Lemma column_stack3_In (a b c : ndarray float) (rows : ndarray row) (r : row) :
  column_stack3 a b c = Ok rows -> In r rows ->
  In (col0 r) a /\ In (col1 r) b /\ In (col2 r) c.
Proof.
  revert b c rows; induction a as [|x a IH]; intros [|y b] [|z c] rows;
    simpl; try discriminate.
  - intro H. injection H as <-. intros [].
  - destruct (column_stack3 a b c) as [rest |] eqn:E; [| discriminate].
    simpl. intro H. injection H as <-. intros [<- | Hin].
    + cbn. auto.
    + destruct (IH _ _ _ E Hin) as (Ha & Hb & Hc). auto.
Qed.

(** X19. Extracted colours are normalised: when every red, green and
    blue value of the file is a 16-bit number, each component of each
    extracted colour lies between 0.0 and 1.0. *)
Theorem extract_colors_unit_range :
  forall (las : LasData) (colors : ndarray row),
    (forall channel v,
        red las = Some channel \/ green las = Some channel
        \/ blue las = Some channel ->
        In v channel -> (0 <= v <= 65535)%Z) ->
    extract_colors las = Some colors ->
    forall c, In c colors ->
      (leb zero (col0 c) = true /\ leb (col0 c) one = true)
      /\ (leb zero (col1 c) = true /\ leb (col1 c) one = true)
      /\ (leb zero (col2 c) = true /\ leb (col2 c) one = true).
Proof.
  intros las colors Hrange. unfold extract_colors.
  destruct (red las) as [r |] eqn:Er; [| discriminate].
  destruct (green las) as [g |] eqn:Eg; [| discriminate].
  destruct (blue las) as [b |] eqn:Eb; [| discriminate].
  destruct (column_stack3 _ _ _) as [rows | e] eqn:E; [| discriminate].
  intro H. injection H as <-. intros c Hc.
  apply in_map_iff in Hc as ([[x y] z] & <- & Hin).
  destruct (@column_stack3_In _ _ _ _ _ E Hin) as (Hx & Hy & Hz).
  cbn [col0 col1 col2 fst snd] in *.
  apply in_map_iff in Hx as (vx & <- & Hvx).
  apply in_map_iff in Hy as (vy & <- & Hvy).
  apply in_map_iff in Hz as (vz & <- & Hvz).
  split; [| split]; apply channel_unit_range.
  - apply (Hrange r); auto.
  - apply (Hrange g); auto.
  - apply (Hrange b); auto.
Qed.

Lemma extract_colors_unit_range_witness :
  exists colors,
    extract_colors
      {| xyz := [Samples.pt 0 0 0; Samples.pt 1 0 0];
         red := Some [0; 65535]%Z; green := Some [32768; 255]%Z;
         blue := Some [1; 65534]%Z;
         intensity := None; header := Samples.header_1_4 |} = Some colors
    /\ forall c, In c colors -> leb (col1 c) one = true.
Proof.
  eexists. split; [reflexivity |]. intros c Hc.
  refine (proj2 (proj1 (proj2
    (@extract_colors_unit_range
       {| xyz := [Samples.pt 0 0 0; Samples.pt 1 0 0];
          red := Some [0; 65535]%Z; green := Some [32768; 255]%Z;
          blue := Some [1; 65534]%Z;
          intensity := None; header := Samples.header_1_4 |}
       _ _ eq_refl c Hc)))).
  intros channel v [H | [H | H]] Hv; injection H as <-;
    repeat (destruct Hv as [<- | Hv]; [lia |]); destruct Hv.
Defined.
